(** * The SIR simulation (ch9/sir): control hooks and the reward / entropy
      learning-rate controller

    A shallow embedding of the [Sim] methods of the Store-Ignore-Recall
    simulation: [CalcEntropy], [ApplyReward], [ApplyInputs], [TestAll],
    [Defaults], [ApplyParams], [StatCounters] and the closures that
    [ConfigLoops] registers on the looper stacks; and, of the priming
    simulation, [TrialStats] and [SetEnv] (module [Priming]).

    - [float32] values are IEEE-754 binary32 numbers ([SpecFloat] at precision
      24, infinities at exponent 128); every operation rounds to nearest-even
      on its own, as Go does where it fuses no multiply-add (amd64).
    - Go's [int] is a 64-bit two's-complement integer: a [Z] with the
      wrap-around of [+] written out ([wrap64]).
    - The methods mutate the simulation through a pointer: they are
      computations of a state monad with failure ([M]); failure is a Go panic
      (a method called on a [nil] layer, loop or event).
    - The collaborators that are not part of the simulation's own file (the
      [SIREnv] environment, [math32.Log], the leabra looper helpers, the
      looper's runner) are the fields of a class or the variables of a
      section: every theorem holds whatever they are, but for what it
      states as a hypothesis (the bound [Log_bounded] of the logarithm, the
      library helpers registering library closures only). *)

From Stdlib Require Import ZArith Lia Bool List String Ascii.
From Stdlib Require Import Floats.SpecFloat.
From stdpp Require Import gmap strings list.

Import ListNotations.
Local Open Scope Z_scope.

(* ===================================================================== *)
(** * float32 arithmetic *)
(* ===================================================================== *)

Module Float32.

Definition prec : Z := 24.
Definition emax : Z := 128.

Definition float32 : Type := spec_float.

Definition add : float32 -> float32 -> float32 := SFadd prec emax.
Definition sub : float32 -> float32 -> float32 := SFsub prec emax.
Definition mul : float32 -> float32 -> float32 := SFmul prec emax.
Definition div : float32 -> float32 -> float32 := SFdiv prec emax.

(** Go's [x < y], [x > y], [x <= y] on float32: false as soon as one side is
    NaN. *)
Definition ltb (x y : float32) : bool := SFltb x y.
Definition gtb (x y : float32) : bool := SFltb y x.
Definition leb (x y : float32) : bool := SFleb x y.

Definition is_nan (x : float32) : bool :=
  match x with S754_nan => true | _ => false end.

Definition is_finite (x : float32) : bool :=
  match x with S754_zero _ | S754_finite _ _ _ => true | _ => false end.

(** The float32 nearest to the integer [n] (an integer literal, or
    [float32(n)]). *)
Definition of_Z (n : Z) : float32 := binary_normalize prec emax n 0 false.

(** The float32 nearest to the decimal fraction [n / d]: how Go converts an
    untyped constant such as [0.02] to float32. Numerator and denominator are
    exact, so the correctly rounded quotient is the nearest float32. *)
Definition of_ratio (n d : Z) : float32 := div (of_Z n) (of_Z d).

Definition zero : float32 := S754_zero false.
Definition one : float32 := S754_finite false 8388608 (-23).
Definition NaN : float32 := S754_nan.

(** [math32.Max(x, y)], which is [math.Max] on the float64 images (the
    conversions are exact). Special cases, in Go's order:
    [Max(x, +Inf) = Max(+Inf, x) = +Inf]; [Max(x, NaN) = Max(NaN, x) = NaN];
    [Max(+0, ±0) = Max(±0, +0) = +0]; [Max(-0, -0) = -0]. *)
Definition Max (x y : float32) : float32 :=
  match x, y with
  | S754_infinity false, _ | _, S754_infinity false => S754_infinity false
  | S754_nan, _ | _, S754_nan => S754_nan
  | S754_zero sx, S754_zero _ => if sx then y else x
  | _, _ => if gtb x y then x else y
  end.

(** The closed interval test [lo <= x <= hi]. *)
Definition in_range (lo hi x : float32) : bool := leb lo x && leb x hi.

End Float32.

Import Float32.

(** The constants of [CalcEntropy] as float32 values, by their sign, mantissa
    and exponent: 0.02, 0.25 and 2.77 are the nearest float32 to the decimal
    constant (see [c0_02_nearest] and the like below). *)
Definition c0_02 : float32 := S754_finite false 10737418 (-29).
Definition c0_25 : float32 := S754_finite false 8388608 (-25).
Definition c2_77 : float32 := S754_finite false 11618222 (-22).
Definition c4 : float32 := S754_finite false 8388608 (-21).
Definition c10 : float32 := S754_finite false 10485760 (-20).


(* ===================================================================== *)
(** * Enumerations *)
(* ===================================================================== *)

(** [etime.Modes] and [etime.Times], restricted to the values the simulation
    configures. *)
Inductive Modes : Type := Train | Test.
Inductive Times : Type := Run | Epoch | Trial | Cycle.

(** Modelled from the spec: the [Actions] enumeration of the SIR environment
    (declared beside [SIREnv], outside the simulation's file):
    [currentAction: enum{Store1,Store2,Ignore,Recall1,Recall2}]. *)
Inductive Actions : Type := Store1 | Store2 | Ignore | Recall1 | Recall2.

(** The leabra layer types [LayersByType] selects on. *)
Inductive LayerTypes : Type := SuperLayer | InputLayer | TargetLayer | OtherLayer.

#[global] Instance Modes_eq_dec : EqDecision Modes.
Proof. solve_decision. Defined.
#[global] Instance Times_eq_dec : EqDecision Times.
Proof. solve_decision. Defined.
#[global] Instance Actions_eq_dec : EqDecision Actions.
Proof. solve_decision. Defined.
#[global] Instance LayerTypes_eq_dec : EqDecision LayerTypes.
Proof. solve_decision. Defined.

(** Go's [int]: 64-bit two's complement. *)
Definition int_min : Z := - 2 ^ 63.
Definition int_max : Z := 2 ^ 63 - 1.
Definition is_int (n : Z) : Prop := int_min <= n <= int_max.
Definition wrap64 (n : Z) : Z := (n + 2 ^ 63) mod 2 ^ 64 - 2 ^ 63.

(** Go's [%] on ints: the remainder of the truncated division ([Z.rem]). *)
Definition int_rem (a b : Z) : Z := Z.rem a b.

(* ===================================================================== *)
(** * The network collaborator (leabra), as far as the simulation uses it *)
(* ===================================================================== *)

(** A pattern of external input: the values of a tensor. *)
Definition Pattern : Type := list float32.

(** A receiving pathway's learning rate ([Learn.LrateInit], [Learn.Lrate]). *)
Record Path : Type := { LrateInit : float32; Lrate : float32 }.

Record Layer : Type := {
  Layer_Name : string;
  Layer_Type : LayerTypes;
  (** the per-unit [AvgM] values, what [UnitValues(&vals, "AvgM", -1)] reads *)
  AvgM : list float32;
  (** [Pools[0].Inhib.Act.MaxIndex] *)
  MaxIndex : Z;
  (** the external input currently applied, [None] after [InitExt] *)
  Ext : option Pattern;
  RecvPaths : list Path
}.

Record Network : Type := { Layers : list Layer }.

Definition LayerByName (nm : string) (net : Network) : option Layer :=
  List.find (fun ly => String.eqb (Layer_Name ly) nm) (Layers net).

(** An update through the pointer [LayerByName nm] returned: the first layer
    of that name becomes [f] of it. *)
Fixpoint update_first (nm : string) (f : Layer -> Layer) (lays : list Layer) : list Layer :=
  match lays with
  | [] => []
  | ly :: rest =>
      if String.eqb (Layer_Name ly) nm then f ly :: rest
      else ly :: update_first nm f rest
  end.

Definition update_layer (nm : string) (f : Layer -> Layer) (net : Network) : Network :=
  {| Layers := update_first nm f (Layers net) |}.

Definition set_Ext (e : option Pattern) (ly : Layer) : Layer :=
  {| Layer_Name := Layer_Name ly; Layer_Type := Layer_Type ly; AvgM := AvgM ly;
     MaxIndex := MaxIndex ly; Ext := e; RecvPaths := RecvPaths ly |}.

Definition set_RecvPaths (ps : list Path) (ly : Layer) : Layer :=
  {| Layer_Name := Layer_Name ly; Layer_Type := Layer_Type ly; AvgM := AvgM ly;
     MaxIndex := MaxIndex ly; Ext := Ext ly; RecvPaths := ps |}.

(** [net.LayersByType(types...)]: the names of the layers of one of the
    types, in network order. *)
Definition LayersByType (types : list LayerTypes) (net : Network) : list string :=
  List.map Layer_Name
    (List.filter (fun ly => bool_decide (Layer_Type ly ∈ types)) (Layers net)).

(** [net.InitExt()]: "initializes external input state -- call prior to
    applying external inputs to layers": every layer's external input is
    reset. *)
Definition Net_InitExt (net : Network) : Network :=
  {| Layers := List.map (set_Ext None) (Layers net) |}.

(** [ly.LrateMult(mult)]: every receiving pathway's [Lrate] becomes
    [LrateInit * mult]. *)
Definition Path_LrateMult (mult : float32) (p : Path) : Path :=
  {| LrateInit := LrateInit p; Lrate := mul (LrateInit p) mult |}.

Definition Layer_LrateMult (mult : float32) (ly : Layer) : Layer :=
  set_RecvPaths (List.map (Path_LrateMult mult) (RecvPaths ly)) ly.

(** What the simulation asks of the network and prints, in order. *)
Inductive Effect : Type :=
| EvUnitValues (layer var : string)
| EvInitExt
| EvApplyExt (layer : string) (pats : Pattern)
| EvApplyExt1DTsr (layer : string) (pats : Pattern)
| EvLrateMult (layer : string) (mult : float32)
| EvPrintEnt (ent : float32).

(* ===================================================================== *)
(** * The statistics collaborator (estats) *)
(* ===================================================================== *)

Record Stats : Type := {
  Ints : gmap string Z;
  Floats32 : gmap string float32;
  Strings : gmap string string
}.

(** [Stats.Int(name)]: the stored value, 0 for a name never set. *)
Definition Stats_Int (name : string) (st : Stats) : Z := default 0 (Ints st !! name).

Definition Stats_SetInt (name : string) (v : Z) (st : Stats) : Stats :=
  {| Ints := <[name := v]> (Ints st); Floats32 := Floats32 st; Strings := Strings st |}.

Definition Stats_SetFloat32 (name : string) (v : float32) (st : Stats) : Stats :=
  {| Ints := Ints st; Floats32 := <[name := v]> (Floats32 st); Strings := Strings st |}.

Definition Stats_SetString (name : string) (v : string) (st : Stats) : Stats :=
  {| Ints := Ints st; Floats32 := Floats32 st; Strings := <[name := v]> (Strings st) |}.

(* ===================================================================== *)
(** * The looper collaborator: stacks of loops with named functions *)
(* ===================================================================== *)

(** The closures registered on the stacks. A Go closure captures the
    simulation; here it is a tag, and the simulation's own closures are the
    definitions of the same name below ([ApplyReward], [NZeroStop],
    [TestAtInterval], ...). [FnLib id] is a closure made by a library helper
    ([leabra.LooperStdPhases] and the like), which cannot name a method of
    [Sim]. *)
Inductive Closure : Type :=
| FnInit
| FnApplyInputs
| FnNewRun
| FnRunDone
| FnApplyReward
| FnNZeroStop
| FnTestAtInterval
| FnLogTestErrors
| FnLog (mode : Modes) (time : Times)
| FnRunStats
| FnGUIInit
| FnLib (id : string).

#[global] Instance Closure_eq_dec : EqDecision Closure.
Proof. solve_decision. Defined.

Definition is_lib (c : Closure) : bool :=
  match c with FnLib _ => true | _ => false end.

Module looper.

Record NamedFunc : Type := { Name : string; Func : Closure }.

Definition NamedFuncs : Type := list NamedFunc.

(** [funcs.Add(name, fun)]: appended at the tail. *)
Definition Add (name : string) (fn : Closure) (funcs : NamedFuncs) : NamedFuncs :=
  funcs ++ [{| Name := name; Func := fn |}].

(** [funcs.FindName(nm)]: the index of the first function named [nm]. *)
Fixpoint FindName (nm : string) (funcs : NamedFuncs) : option nat :=
  match funcs with
  | [] => None
  | f :: rest =>
      if String.eqb (Name f) nm then Some 0%nat
      else option_map S (FindName nm rest)
  end.

(** [funcs.InsertAt(i, nm, fun)]. *)
Definition InsertAt (i : nat) (nm : string) (fn : Closure) (funcs : NamedFuncs) : NamedFuncs :=
  firstn i funcs ++ {| Name := nm; Func := fn |} :: skipn i funcs.

(** [funcs.InsertBefore(before, nm, fun)]: inserted before the function named
    [before]; when there is none the list is left as it is (an error is
    logged). *)
Definition InsertBefore (before nm : string) (fn : Closure) (funcs : NamedFuncs) : NamedFuncs :=
  match FindName before funcs with
  | Some i => InsertAt i nm fn funcs
  | None => funcs
  end.

Record Event : Type := { Event_Name : string; AtCounter : Z; OnEvent : NamedFuncs }.

Record Counter : Type := { Cur : Z; Max : Z; Inc : Z }.

Record Loop : Type := {
  Counter_ : Counter;
  OnStart : NamedFuncs;
  OnEnd : NamedFuncs;
  IsDone : NamedFuncs;
  Events : list Event
}.

(** A stack: its loops from the coarsest time scale to the finest (Go keeps a
    map and the order of the keys). *)
Record Stack : Type := { Loops : list (Times * Loop); OnInit : NamedFuncs }.

(** The stacks by mode, and the current mode ([None]: Go's nil, before any
    run). *)
Record Stacks : Type := { Stacks_ : list (Modes * Stack); Mode : option Modes }.

(** Lookup and in-place update in a keyed list (a Go map from an enum to a
    pointer). *)
Fixpoint lookup_key {K V} `{EqDecision K} (k : K) (l : list (K * V)) : option V :=
  match l with
  | [] => None
  | (k', v) :: rest => if decide (k' = k) then Some v else lookup_key k rest
  end.

Fixpoint alter_key {K V} `{EqDecision K} (f : V -> V) (k : K) (l : list (K * V)) : list (K * V) :=
  match l with
  | [] => []
  | (k', v) :: rest =>
      if decide (k' = k) then (k', f v) :: rest else (k', v) :: alter_key f k rest
  end.

Definition set_OnStart (fs : NamedFuncs) (lp : Loop) : Loop :=
  {| Counter_ := Counter_ lp; OnStart := fs; OnEnd := OnEnd lp; IsDone := IsDone lp;
     Events := Events lp |}.
Definition set_OnEnd (fs : NamedFuncs) (lp : Loop) : Loop :=
  {| Counter_ := Counter_ lp; OnStart := OnStart lp; OnEnd := fs; IsDone := IsDone lp;
     Events := Events lp |}.
Definition set_IsDone (fs : NamedFuncs) (lp : Loop) : Loop :=
  {| Counter_ := Counter_ lp; OnStart := OnStart lp; OnEnd := OnEnd lp; IsDone := fs;
     Events := Events lp |}.
Definition set_Events (es : list Event) (lp : Loop) : Loop :=
  {| Counter_ := Counter_ lp; OnStart := OnStart lp; OnEnd := OnEnd lp; IsDone := IsDone lp;
     Events := es |}.
Definition set_OnEvent (fs : NamedFuncs) (ev : Event) : Event :=
  {| Event_Name := Event_Name ev; AtCounter := AtCounter ev; OnEvent := fs |}.
Definition set_Loops (ls : list (Times * Loop)) (st : Stack) : Stack :=
  {| Loops := ls; OnInit := OnInit st |}.
Definition set_OnInit (fs : NamedFuncs) (st : Stack) : Stack :=
  {| Loops := Loops st; OnInit := fs |}.
Definition set_Stacks (sts : list (Modes * Stack)) (ls : Stacks) : Stacks :=
  {| Stacks_ := sts; Mode := Mode ls |}.
Definition set_Mode (m : Modes) (ls : Stacks) : Stacks :=
  {| Stacks_ := Stacks_ ls; Mode := Some m |}.

(** [looper.NewStacks()]. *)
Definition NewStacks : Stacks := {| Stacks_ := []; Mode := None |}.

(** [ls.AddStack(mode)]. *)
Definition AddStack (m : Modes) (ls : Stacks) : Stacks :=
  set_Stacks (Stacks_ ls ++ [(m, {| Loops := []; OnInit := [] |})]) ls.

(** [stack.AddTime(time, ctrMax)]: a new loop, finer than those before. *)
Definition NewLoop (ctrMax : Z) : Loop :=
  {| Counter_ := {| Cur := 0; Max := ctrMax; Inc := 1 |};
     OnStart := []; OnEnd := []; IsDone := []; Events := [] |}.

Definition AddTime (m : Modes) (t : Times) (ctrMax : Z) (ls : Stacks) : Stacks :=
  set_Stacks
    (alter_key (fun st => set_Loops (Loops st ++ [(t, NewLoop ctrMax)]) st) m (Stacks_ ls)) ls.

(** [ls.Stacks[mode]] and [ls.Loop(mode, time)]: [None] is Go's [nil]. *)
Definition StackOf (m : Modes) (ls : Stacks) : option Stack := lookup_key m (Stacks_ ls).

Definition LoopOf (m : Modes) (t : Times) (ls : Stacks) : option Loop :=
  match StackOf m ls with
  | Some st => lookup_key t (Loops st)
  | None => None
  end.

(** [lp.EventByName(name)]. *)
Definition EventByName (name : string) (lp : Loop) : option Event :=
  List.find (fun ev => String.eqb (Event_Name ev) name) (Events lp).

(** Updates through the pointers [ls.Stacks[m]] and [ls.Loop(m, t)]. *)
Definition alter_Stack (f : Stack -> Stack) (m : Modes) (ls : Stacks) : Stacks :=
  set_Stacks (alter_key f m (Stacks_ ls)) ls.

Definition alter_Loop (f : Loop -> Loop) (m : Modes) (t : Times) (ls : Stacks) : Stacks :=
  alter_Stack (fun st => set_Loops (alter_key f t (Loops st)) st) m ls.

(** Updates the first event named [name] of a loop (through the pointer
    [EventByName] returned). *)
Fixpoint alter_Event (f : Event -> Event) (name : string) (es : list Event) : list Event :=
  match es with
  | [] => []
  | ev :: rest =>
      if String.eqb (Event_Name ev) name then f ev :: rest
      else ev :: alter_Event f name rest
  end.

(** [ls.AddOnEndToAll(name, fun)]: on every loop of every stack, [OnEnd] gets
    the function called with the loop's mode and time. *)
Definition AddOnEndToAll (name : string) (fn : Modes -> Times -> Closure) (ls : Stacks) : Stacks :=
  set_Stacks
    (List.map (fun '(m, st) =>
       (m, set_Loops
             (List.map (fun '(t, lp) => (t, set_OnEnd (Add name (fn m t) (OnEnd lp)) lp))
                       (Loops st)) st))
       (Stacks_ ls)) ls.

(** Every named function registered on a loop, an event or a stack. *)
Definition Loop_funcs (lp : Loop) : NamedFuncs :=
  OnStart lp ++ concat (List.map OnEvent (Events lp)) ++ OnEnd lp ++ IsDone lp.

Definition Stack_funcs (st : Stack) : NamedFuncs :=
  OnInit st ++ concat (List.map (fun tl => Loop_funcs (snd tl)) (Loops st)).

Definition funcs_of (m : Modes) (ls : Stacks) : NamedFuncs :=
  match StackOf m ls with
  | Some st => Stack_funcs st
  | None => []
  end.

End looper.

(* ===================================================================== *)
(** * The collaborators outside the simulation's file *)
(* ===================================================================== *)

(** [math32.Log], and the SIR environment ([SIREnv], whose file declares the
    [Act] field and the [Init], [Step], [String], [State] and [SetReward]
    methods the simulation calls). *)
Class Collaborators : Type := {
  Log : float32 -> float32;
  SIREnv : Type;
  Act : SIREnv -> Actions;
  Env_Init : Z -> SIREnv -> SIREnv;
  Env_Step : SIREnv -> SIREnv;
  Env_String : SIREnv -> string;
  (** [en.State(name)]: [None] is the nil tensor *)
  Env_State : string -> SIREnv -> option Pattern;
  Env_SetReward : Z -> SIREnv -> SIREnv
}.

(* ===================================================================== *)
(** * The simulation *)
(* ===================================================================== *)

(** [Config]: the parameters of a run (Go ints). *)
Record Config : Type := {
  NRuns : Z;
  NEpochs : Z;
  NTrials : Z;
  NZero : Z;
  TestInterval : Z
}.

Section Simulation.

Context `{Collaborators}.

(** [env.Envs], with the two environments [ConfigEnv] adds. *)
Record Envs : Type := { TrainEnv : SIREnv; TestEnv : SIREnv }.

Definition ByMode (m : Modes) (envs : Envs) : SIREnv :=
  match m with Train => TrainEnv envs | Test => TestEnv envs end.

Definition set_ByMode (m : Modes) (en : SIREnv) (envs : Envs) : Envs :=
  match m with
  | Train => {| TrainEnv := en; TestEnv := TestEnv envs |}
  | Test => {| TrainEnv := TrainEnv envs; TestEnv := en |}
  end.

(** [Sim]: the fields the modelled methods read or write. [Loops] is a
    pointer, [None] until [ConfigLoops] has run; [CtxMode] is
    [ss.Context.Mode]; [Trace] lists the requests made to the network and the
    lines printed, latest last. *)
Record Sim : Type := {
  BurstDaGain : float32;
  DipDaGain : float32;
  ModLearnRate : bool;
  EntropyMeasureType : bool;
  Cfg : Config;
  Net : Network;
  Loops : option looper.Stacks;
  Stats_ : Stats;
  Envs_ : Envs;
  CtxMode : Modes;
  Trace : list Effect
}.

Definition set_Net (n : Network) (ss : Sim) : Sim :=
  {| BurstDaGain := BurstDaGain ss; DipDaGain := DipDaGain ss;
     ModLearnRate := ModLearnRate ss; EntropyMeasureType := EntropyMeasureType ss;
     Cfg := Cfg ss; Net := n; Loops := Loops ss; Stats_ := Stats_ ss;
     Envs_ := Envs_ ss; CtxMode := CtxMode ss; Trace := Trace ss |}.

Definition set_Loops (l : option looper.Stacks) (ss : Sim) : Sim :=
  {| BurstDaGain := BurstDaGain ss; DipDaGain := DipDaGain ss;
     ModLearnRate := ModLearnRate ss; EntropyMeasureType := EntropyMeasureType ss;
     Cfg := Cfg ss; Net := Net ss; Loops := l; Stats_ := Stats_ ss;
     Envs_ := Envs_ ss; CtxMode := CtxMode ss; Trace := Trace ss |}.

Definition set_Stats (s : Stats) (ss : Sim) : Sim :=
  {| BurstDaGain := BurstDaGain ss; DipDaGain := DipDaGain ss;
     ModLearnRate := ModLearnRate ss; EntropyMeasureType := EntropyMeasureType ss;
     Cfg := Cfg ss; Net := Net ss; Loops := Loops ss; Stats_ := s;
     Envs_ := Envs_ ss; CtxMode := CtxMode ss; Trace := Trace ss |}.

Definition set_Envs (e : Envs) (ss : Sim) : Sim :=
  {| BurstDaGain := BurstDaGain ss; DipDaGain := DipDaGain ss;
     ModLearnRate := ModLearnRate ss; EntropyMeasureType := EntropyMeasureType ss;
     Cfg := Cfg ss; Net := Net ss; Loops := Loops ss; Stats_ := Stats_ ss;
     Envs_ := e; CtxMode := CtxMode ss; Trace := Trace ss |}.

Definition set_Trace (t : list Effect) (ss : Sim) : Sim :=
  {| BurstDaGain := BurstDaGain ss; DipDaGain := DipDaGain ss;
     ModLearnRate := ModLearnRate ss; EntropyMeasureType := EntropyMeasureType ss;
     Cfg := Cfg ss; Net := Net ss; Loops := Loops ss; Stats_ := Stats_ ss;
     Envs_ := Envs_ ss; CtxMode := CtxMode ss; Trace := t |}.

(** The stacks manager's current mode, [ss.Loops.Mode]. *)
Definition CurrentMode (ss : Sim) : option Modes :=
  match Loops ss with
  | Some ls => looper.Mode ls
  | None => None
  end.

(** ** The monad of the methods: state [Sim], failure = panic *)

Definition M (A : Type) : Type := Sim -> option (A * Sim).

Definition ret {A} (a : A) : M A := fun ss => Some (a, ss).

Definition bind {A B} (m : M A) (k : A -> M B) : M B :=
  fun ss => match m ss with
            | Some (a, ss') => k a ss'
            | None => None
            end.

Definition panic {A} : M A := fun _ => None.

Definition get : M Sim := fun ss => Some (ss, ss).

Definition modify (f : Sim -> Sim) : M unit := fun ss => Some (tt, f ss).

Definition emit (e : Effect) : M unit := modify (fun ss => set_Trace (Trace ss ++ [e]) ss).

(** A pointer that must not be nil. *)
Definition deref {A} (o : option A) : M A :=
  match o with Some a => ret a | None => panic end.

Notation "'let*' x ':=' m 'in' k" := (bind m (fun x => k))
  (at level 10, x name, m at level 100, k at level 200, only parsing).
Notation "m >> k" := (bind m (fun _ => k))
  (at level 100, k at level 200, only parsing).

(** ** Requests to the network *)

(** [ss.Net.LayerByName(nm)], then a method that dereferences the result. *)
Definition layer (nm : string) : M Layer :=
  let* ss := get in deref (LayerByName nm (Net ss)).

(** [ly := ss.Net.LayerByName(nm); ly.UnitValues(&vals, "AvgM", -1)]. *)
Definition UnitValues_AvgM (nm : string) : M (list float32) :=
  let* ly := layer nm in
  emit (EvUnitValues nm "AvgM") >> ret (AvgM ly).

(** [net.InitExt()]. *)
Definition InitExt : M unit :=
  modify (fun ss => set_Net (Net_InitExt (Net ss)) ss) >> emit EvInitExt.

(** [ly.ApplyExt(pats)] on the layer named [nm]. *)
Definition ApplyExt (nm : string) (pats : Pattern) : M unit :=
  let* _ := layer nm in
  modify (fun ss => set_Net (update_layer nm (set_Ext (Some pats)) (Net ss)) ss) >>
  emit (EvApplyExt nm pats).

(** [ly.ApplyExt1DTsr(pats)] on the layer named [nm]. *)
Definition ApplyExt1DTsr (nm : string) (pats : Pattern) : M unit :=
  let* _ := layer nm in
  modify (fun ss => set_Net (update_layer nm (set_Ext (Some pats)) (Net ss)) ss) >>
  emit (EvApplyExt1DTsr nm pats).

(** [ly.LrateMult(mult)] on the layer named [nm]. *)
Definition LrateMult (nm : string) (mult : float32) : M unit :=
  let* _ := layer nm in
  modify (fun ss => set_Net (update_layer nm (Layer_LrateMult mult) (Net ss)) ss) >>
  emit (EvLrateMult nm mult).

(** ** [CalcEntropy] *)

(** The first measure's loop over the hidden units:
    [maxAct = math32.Max(maxAct, TmpVals[i]); ent += TmpVals[i]],
    from [maxAct = 0], [ent = 0]. *)
Definition HiddenLoop (TmpVals : list float32) : float32 * float32 :=
  fold_left (fun '(maxAct, ent) v => (Max maxAct v, add ent v)) TmpVals (zero, zero).

(** The first measure: the sum of the hidden activations over 10, set to 4
    when the largest activation is under 0.02 or the quotient is over 4, to
    0.25 when it is under 0.25. *)
Definition EntropyHidden (TmpVals : list float32) : float32 :=
  let '(maxAct, ent) := HiddenLoop TmpVals in
  let ent := div ent c10 in
  if ltb maxAct c0_02 || gtb ent c4 then c4
  else if ltb ent c0_25 then c0_25
  else ent.

(** The second measure's loops over the GPiThal units:
    [totalActivation += val], then, when the total is positive,
    [prob := val / totalActivation; if prob > 0 { ent -= prob * Log(prob) }]. *)
Definition TotalActivation (TmpVals : list float32) : float32 :=
  fold_left add TmpVals zero.

Definition GPiThalLoop (TmpVals : list float32) : float32 :=
  let totalActivation := TotalActivation TmpVals in
  if gtb totalActivation zero then
    fold_left (fun ent val =>
                 let prob := div val totalActivation in
                 if gtb prob zero then sub ent (mul prob (Log prob)) else ent)
              TmpVals zero
  else zero.

(** The second measure: the entropy over 2.77, set to 4 over 4 and to 0.25
    under 0.25. *)
Definition EntropyGPiThal (TmpVals : list float32) : float32 :=
  let ent := div (GPiThalLoop TmpVals) c2_77 in
  if gtb ent c4 then c4
  else if ltb ent c0_25 then c0_25
  else ent.

(** [CalcEntropy]: 1 when the learning rate is not modulated; else one of the
    two measures, printed and returned. *)
Definition CalcEntropy : M float32 :=
  let* ss := get in
  if negb (ModLearnRate ss) then ret one
  else
    let* ent :=
      (if EntropyMeasureType ss then
         let* TmpVals := UnitValues_AvgM "Hidden" in
         ret (EntropyHidden TmpVals)
       else
         let* TmpVals := UnitValues_AvgM "GPiThal" in
         ret (EntropyGPiThal TmpVals)) in
    emit (EvPrintEnt ent) >> ret ent.

(** ** [ApplyReward] *)

(** [if len(ly.RecvPaths) > 0 { ss.Stats.SetFloat32(stat, ly.RecvPaths[0].Learn.Lrate) }]
    for the layer named [nm]. *)
Definition StatLrate (stat nm : string) : M unit :=
  let* ly := layer nm in
  match RecvPaths ly with
  | p :: _ => modify (fun ss => set_Stats (Stats_SetFloat32 stat (Lrate p) (Stats_ ss)) ss)
  | [] => ret tt
  end.

(** [ApplyReward(train)]: on a recall trial, the reward of the output's most
    active unit is set in the environment and applied to the [Rew] layer, and
    the learning rates of [MatrixGo], [MatrixNoGo] and [RWPred] are multiplied
    by the entropy. *)
Definition ApplyReward (train : bool) : M unit :=
  let* ss := get in
  let mode := if train then Train else Test in
  let en := ByMode mode (Envs_ ss) in
  if bool_decide (Act en ≠ Recall1) && bool_decide (Act en ≠ Recall2) then
    ret tt (* only reward on recall trials! *)
  else
    let* out := layer "Output" in
    let mxi := MaxIndex out in
    let en := Env_SetReward mxi en in
    modify (fun ss => set_Envs (set_ByMode mode en (Envs_ ss)) ss) >>
    let* pats := deref (Env_State "Rew" en) in
    ApplyExt1DTsr "Rew" pats >>
    let* ent := CalcEntropy in
    LrateMult "MatrixGo" ent >>
    LrateMult "MatrixNoGo" ent >>
    LrateMult "RWPred" ent >>
    StatLrate "MatrixGoLRate" "MatrixGo" >>
    StatLrate "MatrixNoGoLRate" "MatrixNoGo" >>
    StatLrate "RWPredLRate" "RWPred".

(** ** [ApplyInputs] *)

(** The loop over the input and target layers: [Rew] is skipped, the others
    get the environment's pattern of their name when there is one. *)
Fixpoint ApplyInputs_layers (ev : SIREnv) (lays : list string) : M unit :=
  match lays with
  | [] => ret tt
  | lnm :: rest =>
      (if String.eqb lnm "Rew" then ret tt
       else
         let* ly := layer lnm in
         match Env_State (Layer_Name ly) ev with
         | Some pats => ApplyExt (Layer_Name ly) pats
         | None => ret tt
         end) >>
      ApplyInputs_layers ev rest
  end.

Definition ApplyInputs : M unit :=
  let* ss := get in
  let mode := CtxMode ss in
  let ev := Env_Step (ByMode mode (Envs_ ss)) in
  modify (fun ss => set_Envs (set_ByMode mode ev (Envs_ ss)) ss) >>
  let lays := LayersByType [InputLayer; TargetLayer] (Net ss) in
  InitExt >>
  modify (fun ss => set_Stats (Stats_SetString "TrialName" (Env_String ev) (Stats_ ss)) ss) >>
  ApplyInputs_layers ev lays.

(** ** [TestAll] *)

(** [ss.Loops.ResetAndRun(mode)]: the looper resets the counters of the
    mode's stack and runs it, firing every function registered on it; what
    that does to the simulation is left open. *)
Variable ResetAndRun : Modes -> M unit.

Definition TestAll : M unit :=
  modify (fun ss =>
            set_Envs (set_ByMode Test (Env_Init 0 (ByMode Test (Envs_ ss))) (Envs_ ss)) ss) >>
  let* ss := get in
  let* _ := deref (Loops ss) in
  ResetAndRun Test >>
  let* ss := get in
  let* ls := deref (Loops ss) in
  (* ss.Loops.Mode = etime.Train: "Important to reset Mode back to Train
     because this is called from within the Train Run." *)
  modify (set_Loops (Some (looper.set_Mode Train ls))).

(** ** The closures of [ConfigLoops] *)

(** The [NZeroStop] predicate of the Train Epoch loop. *)
Definition NZeroStop : M bool :=
  let* ss := get in
  let stopNz := NZero (Cfg ss) in
  let stopNz := if stopNz <=? 0 then 2 else stopNz in
  let curNZero := Stats_Int "NZero" (Stats_ ss) in
  let stop := curNZero >=? stopNz in
  ret stop.

(** The [TestAtInterval] function of the Train Epoch loop's [OnStart];
    [trainEpoch] is the pointer [ls.Loop(etime.Train, etime.Epoch)]. *)
Definition TestAtInterval : M unit :=
  let* ss := get in
  let* ls := deref (Loops ss) in
  let* trainEpoch := deref (looper.LoopOf Train Epoch ls) in
  if (TestInterval (Cfg ss) >? 0) &&
     (int_rem (wrap64 (looper.Cur (looper.Counter_ trainEpoch) + 1)) (TestInterval (Cfg ss)) =? 0)
  then TestAll
  else ret tt.

(** The [RunDone] function of the Train Run loop's [OnEnd]:
[[
	if ss.Stats.Int("Run") >= ss.Config.NRuns-1 {
		expt := ss.Stats.Int("Expt")
		ss.Stats.SetInt("Expt", expt+1)
	}
]] *)
Definition RunDone : M unit :=
  let* ss := get in
  if Stats_Int "Run" (Stats_ ss) >=? wrap64 (NRuns (Cfg ss) - 1) then
    let expt := Stats_Int "Expt" (Stats_ ss) in
    modify (fun ss => set_Stats (Stats_SetInt "Expt" (wrap64 (expt + 1)) (Stats_ ss)) ss)
  else ret tt.

(** ** [Defaults] *)

(** [Defaults]: both dopamine gains at 1, no modulation of the learning rate,
    the Shannon measure selected. *)
Definition Defaults : M unit :=
  modify (fun ss =>
            {| BurstDaGain := one; DipDaGain := one;
               ModLearnRate := false; EntropyMeasureType := false;
               Cfg := Cfg ss; Net := Net ss; Loops := Loops ss; Stats_ := Stats_ ss;
               Envs_ := Envs_ ss; CtxMode := CtxMode ss; Trace := Trace ss |}).

(** ** [ConfigLoops] *)

(** The leabra helpers that register the library's own functions and events
    on the stacks ([None]: the helper panics). *)
Variable LooperStdPhases : looper.Stacks -> option looper.Stacks.
Variable LooperSimCycleAndLearn : looper.Stacks -> option looper.Stacks.
Variable LooperResetLogBelow : looper.Stacks -> option looper.Stacks.
Variable LooperUpdateNetView : looper.Stacks -> option looper.Stacks.
Variable LooperUpdatePlots : looper.Stacks -> option looper.Stacks.

(** An update through [ls.Stacks[m]] or [ls.Loop(m, t)], which panics on nil. *)
Definition with_Stack (m : Modes) (f : looper.Stack -> looper.Stack)
    (ls : looper.Stacks) : option looper.Stacks :=
  match looper.StackOf m ls with
  | Some _ => Some (looper.alter_Stack f m ls)
  | None => None
  end.

Definition with_Loop (m : Modes) (t : Times) (f : looper.Loop -> looper.Loop)
    (ls : looper.Stacks) : option looper.Stacks :=
  match looper.LoopOf m t ls with
  | Some _ => Some (looper.alter_Loop f m t ls)
  | None => None
  end.

Definition OnStart_Add (name : string) (fn : Closure) (lp : looper.Loop) : looper.Loop :=
  looper.set_OnStart (looper.Add name fn (looper.OnStart lp)) lp.
Definition OnEnd_Add (name : string) (fn : Closure) (lp : looper.Loop) : looper.Loop :=
  looper.set_OnEnd (looper.Add name fn (looper.OnEnd lp)) lp.
Definition IsDone_AddBool (name : string) (fn : Closure) (lp : looper.Loop) : looper.Loop :=
  looper.set_IsDone (looper.Add name fn (looper.IsDone lp)) lp.
Definition OnInit_Add (name : string) (fn : Closure) (st : looper.Stack) : looper.Stack :=
  looper.set_OnInit (looper.Add name fn (looper.OnInit st)) st.

(** [for m, _ := range ls.Stacks { ls.Stacks[m].Loops[etime.Trial].OnStart.Add("ApplyInputs", ...) }] *)
Fixpoint AddApplyInputs (modes : list Modes) (ls : looper.Stacks) : option looper.Stacks :=
  match modes with
  | [] => Some ls
  | m :: rest =>
      ls ← with_Loop m Trial (OnStart_Add "ApplyInputs" FnApplyInputs) ls;
      AddApplyInputs rest ls
  end.

(** The registration of the reward:
[[
	stack := ls.Stacks[etime.Train]
	cyc, _ := stack.Loops[etime.Cycle]
	plus := cyc.EventByName("MinusPhase:End")
	plus.OnEvent.InsertBefore("MinusPhase:End", "ApplyReward", func() bool {
		ss.ApplyReward(true)
		return true
	})
]] *)
Definition InsertApplyReward (ev : looper.Event) : looper.Event :=
  looper.set_OnEvent
    (looper.InsertBefore "MinusPhase:End" "ApplyReward" FnApplyReward (looper.OnEvent ev)) ev.

Definition RegisterApplyReward (ls : looper.Stacks) : option looper.Stacks :=
  cyc ← looper.LoopOf Train Cycle ls;
  _ ← looper.EventByName "MinusPhase:End" cyc;
  Some (looper.alter_Loop
          (fun lp => looper.set_Events
                       (looper.alter_Event InsertApplyReward "MinusPhase:End" (looper.Events lp)) lp)
          Train Cycle ls).

Definition ConfigLoops_stacks (cfg : Config) : option looper.Stacks :=
  let ls := looper.NewStacks in
  let trls := NTrials cfg in
  let ls := looper.AddStack Train ls in
  let ls := looper.AddTime Train Run (NRuns cfg) ls in
  let ls := looper.AddTime Train Epoch (NEpochs cfg) ls in
  let ls := looper.AddTime Train Trial trls ls in
  let ls := looper.AddTime Train Cycle 100 ls in
  let ls := looper.AddStack Test ls in
  let ls := looper.AddTime Test Epoch 1 ls in
  let ls := looper.AddTime Test Trial trls ls in
  let ls := looper.AddTime Test Cycle 100 ls in
  ls ← LooperStdPhases ls;
  ls ← LooperSimCycleAndLearn ls;
  ls ← with_Stack Train (OnInit_Add "Init" FnInit) ls;
  ls ← AddApplyInputs (List.map fst (looper.Stacks_ ls)) ls;
  ls ← with_Loop Train Run (OnStart_Add "NewRun" FnNewRun) ls;
  ls ← with_Loop Train Run (OnEnd_Add "RunDone" FnRunDone) ls;
  ls ← RegisterApplyReward ls;
  (* Train stop early condition *)
  ls ← with_Loop Train Epoch (IsDone_AddBool "NZeroStop" FnNZeroStop) ls;
  (* Add Testing *)
  ls ← with_Loop Train Epoch (OnStart_Add "TestAtInterval" FnTestAtInterval) ls;
  (* Logging *)
  ls ← with_Loop Test Epoch (OnEnd_Add "LogTestErrors" FnLogTestErrors) ls;
  let ls := looper.AddOnEndToAll "Log" FnLog ls in
  ls ← LooperResetLogBelow ls;
  ls ← with_Loop Train Run (OnEnd_Add "RunStats" FnRunStats) ls;
  (* GUI *)
  ls ← LooperUpdateNetView ls;
  ls ← LooperUpdatePlots ls;
  ls ← with_Stack Train (OnInit_Add "GUI-Init" FnGUIInit) ls;
  ls ← with_Stack Test (OnInit_Add "GUI-Init" FnGUIInit) ls;
  Some ls.

Definition ConfigLoops : M unit :=
  let* ss := get in
  let* ls := deref (ConfigLoops_stacks (Cfg ss)) in
  modify (set_Loops (Some ls)).

(** ** A run of a stack, as the functions it fires *)

(** The functions of the events of a loop set at counter [c]. *)
Definition Events_at (c : Z) (lp : looper.Loop) : looper.NamedFuncs :=
  concat (List.map looper.OnEvent
            (List.filter (fun ev => looper.AtCounter ev =? c) (looper.Events lp))).

(** Modelled from the spec: the looper's runner (the scheduler of section
    4.1, a library outside the simulation's file), as the list of functions a
    run fires. "[Run()]: fires all [OnStart] callbacks in registration order,
    executes [Counter.max] ticks (each tick runs the next-finer Loop's
    [Run()] if one exists ...), firing any [Events] whose anchor matches the
    current sub-position, checks all [IsDone] predicates after each tick
    (... first true predicate halts the loop early, skipping remaining
    ticks), then fires all [OnEnd] callbacks." [done t c] says that a
    predicate of the loop of time [t] held after the tick of counter [c];
    [inner] is what a run of the finer loops fires. *)
Fixpoint ticks (done : Times -> Z -> bool) (t : Times) (lp : looper.Loop)
    (inner : looper.NamedFuncs) (n : nat) (c : Z) : looper.NamedFuncs :=
  match n with
  | O => []
  | S n' =>
      Events_at c lp ++ inner ++ looper.IsDone lp ++
      (if done t c then [] else ticks done t lp inner n' (c + 1))
  end.

Fixpoint run_loops (done : Times -> Z -> bool) (loops : list (Times * looper.Loop))
    : looper.NamedFuncs :=
  match loops with
  | [] => []
  | (t, lp) :: finer =>
      looper.OnStart lp ++
      ticks done t lp (run_loops done finer) (Z.to_nat (looper.Max (looper.Counter_ lp))) 0 ++
      looper.OnEnd lp
  end.

(** The closures a run of the stack of mode [m] fires, in order, after the
    stack's [OnInit] functions. *)
Definition Run_fired (done : Times -> Z -> bool) (m : Modes) (ls : looper.Stacks)
    : list Closure :=
  match looper.StackOf m ls with
  | Some st => List.map looper.Func (looper.OnInit st ++ run_loops done (looper.Loops st))
  | None => []
  end.

(** ** The multipliers as the specification words them *)

(** Clamping [x] into the interval from [lo] to [hi]. *)
Definition clamp (lo hi x : float32) : float32 :=
  if ltb x lo then lo else if gtb x hi then hi else x.

(** The sum and the largest of the unit activations (which are not negative:
    the running maximum starts at 0). *)
Definition sum_act (vals : list float32) : float32 := fold_left add vals zero.
Definition max_act (vals : list float32) : float32 := fold_left Max vals zero.

(** Variant A (population-sum): the sum of the per-unit average activations,
    divided by 10, then clamped into [0.25, 4.0]; forced to 4.0 when the
    largest unit activation is below 0.02. *)
Definition spec_population_sum (vals : list float32) : float32 :=
  if ltb (max_act vals) c0_02 then c4
  else clamp c0_25 c4 (div (sum_act vals) c10).

(** The activations normalized into a probability distribution, and
    [-Σ p·log(p)] over the units of positive probability. *)
Definition normalize (vals : list float32) : list float32 :=
  List.map (fun v => div v (sum_act vals)) vals.

Definition neg_plogp_sum (probs : list float32) : float32 :=
  fold_left (fun h p => if gtb p zero then sub h (mul p (Log p)) else h) probs zero.

(** The Shannon entropy of the activations, 0 when the total is not positive. *)
Definition shannon (vals : list float32) : float32 :=
  if gtb (sum_act vals) zero then neg_plogp_sum (normalize vals) else zero.

(** The largest entropy a distribution over [n] units can have: [log n]. *)
Definition max_entropy (n : nat) : float32 := Log (of_Z (Z.of_nat n)).

(** Variant B (Shannon entropy) as the specification states it: the entropy
    normalized by the maximum possible entropy for the unit count, then
    clamped into [0.25, 4.0]. *)
Definition spec_shannon (vals : list float32) : float32 :=
  clamp c0_25 c4 (div (shannon vals) (max_entropy (length vals))).

(** Variant B with the divisor the code has: the constant 2.77. *)
Definition shannon_over_2_77 (vals : list float32) : float32 :=
  clamp c0_25 c4 (div (shannon vals) c2_77).

End Simulation.

(* ===================================================================== *)
(** * [ApplyParams] and [StatCounters] *)
(* ===================================================================== *)

(** The dopamine gains of a layer's [Matrix] parameters. *)
Record MatrixParams : Type := { BurstGain : float32; DipGain : float32 }.

(** [lp.Counter.Max = v]. *)
Definition set_Counter_Max (v : Z) (lp : looper.Loop) : looper.Loop :=
  {| looper.Counter_ :=
       {| looper.Cur := looper.Cur (looper.Counter_ lp); looper.Max := v;
          looper.Inc := looper.Inc (looper.Counter_ lp) |};
     looper.OnStart := looper.OnStart lp; looper.OnEnd := looper.OnEnd lp;
     looper.IsDone := looper.IsDone lp; looper.Events := looper.Events lp |}.

Section Parameters.

Context `{Collaborators}.

(** The simulation with the leabra state the two methods use beyond the
    fields of [Sim]: the cycle of the context ([ss.Context.Cycle]) and the
    [Matrix] parameters of the layer each name denotes. *)
Record SimP : Type := {
  Sim_ : Sim;
  CtxCycle : Z;
  Matrix : string -> MatrixParams
}.

(** [ss.Params.SetAll()]: the parameter sheets applied to the network the
    parameters were configured with, whatever the sheets hold. *)
Variable Params_SetAll :
  Network -> (string -> MatrixParams) -> Network * (string -> MatrixParams).

(** [stack.CountersToStats(&ss.Stats)]: the looper writes the stack's
    counters to the statistics. *)
Variable CountersToStats : looper.Stack -> Stats -> Stats.

(** [matg.Matrix.BurstGain = burst; matg.Matrix.DipGain = dip] on the layer
    named [nm]. *)
Definition set_gains (nm : string) (burst dip : float32) (mx : string -> MatrixParams)
    : string -> MatrixParams :=
  fun k => if String.eqb k nm then {| BurstGain := burst; DipGain := dip |} else mx k.

(** [ApplyParams]: with the loops configured, the maxima of the Train Run and
    Epoch counters are set from the configuration; the parameter sheets are
    applied; both Matrix layers get the simulation's dopamine gains. [None]
    is a panic on a nil stack, loop or layer. *)
Definition ApplyParams (sp : SimP) : option (unit * SimP) :=
  let ss := Sim_ sp in
  loops ← match Loops ss with
          | Some ls =>
              ls ← with_Loop Train Run (set_Counter_Max (NRuns (Cfg ss))) ls;
              ls ← with_Loop Train Epoch (set_Counter_Max (NEpochs (Cfg ss))) ls;
              Some (Some ls)
          | None => Some None
          end;
  let '(net, mx) := Params_SetAll (Net ss) (Matrix sp) in
  _ ← LayerByName "MatrixGo" net;
  _ ← LayerByName "MatrixNoGo" net;
  let mx := set_gains "MatrixGo" (BurstDaGain ss) (DipDaGain ss) mx in
  let mx := set_gains "MatrixNoGo" (BurstDaGain ss) (DipDaGain ss) mx in
  Some (tt, {| Sim_ := set_Net net (set_Loops loops ss);
               CtxCycle := CtxCycle sp; Matrix := mx |}).

(** [StatCounters]: the counters of the stack of the context's mode go to
    the statistics, then [Epoch] is set to the Train Epoch counter ("always
    use training epoch"), [Trial] to itself and [Cycle] to the context's
    cycle. *)
Definition StatCounters (sp : SimP) : option (unit * SimP) :=
  let ss := Sim_ sp in
  let mode := CtxMode ss in
  ls ← Loops ss;
  st ← looper.StackOf mode ls;
  let stats := CountersToStats st (Stats_ ss) in
  (* always use training epoch.. *)
  trn ← looper.StackOf Train ls;
  epc ← looper.lookup_key Epoch (looper.Loops trn);
  let trnEpc := looper.Cur (looper.Counter_ epc) in
  let stats := Stats_SetInt "Epoch" trnEpc stats in
  let trl := Stats_Int "Trial" stats in
  let stats := Stats_SetInt "Trial" trl stats in
  let stats := Stats_SetInt "Cycle" (CtxCycle sp) stats in
  Some (tt, {| Sim_ := set_Stats stats ss; CtxCycle := CtxCycle sp; Matrix := Matrix sp |}).

End Parameters.

(* ===================================================================== *)
(** * The priming simulation: [TrialStats] and [SetEnv] *)
(* ===================================================================== *)

Module Priming.

(** The statistics of a trial and the choice of the patterns in the priming
    simulation (ch7/priming). *)

(** Go's float64: IEEE binary64. *)
Definition float64 : Type := spec_float.
Definition f64_sub : float64 -> float64 -> float64 := SFsub 53 1024.
Definition f64_zero : float64 := S754_zero false.
Definition f64_one : float64 := S754_finite false 4503599627370496 (-52).

(** [float64(x)] of a float32 [x]: the same number in binary64; the
    conversion is exact. [SetFloat32] stores this value. *)
Definition float64_of_float32 (x : float32) : float64 :=
  match x with
  | S754_finite s m e => binary_normalize 53 1024 (cond_Zopp s (Z.pos m)) e s
  | _ => x
  end.

(** [strings.Split(s, sep)] for a separator of one byte: the substrings
    between the separators, so one more than there are separators. *)
Fixpoint Split (sep : ascii) (s : string) : list string :=
  match s with
  | EmptyString => [EmptyString]
  | String c rest =>
      if Ascii.eqb c sep then EmptyString :: Split sep rest
      else match Split sep rest with
           | piece :: more => String c piece :: more
           | [] => [String c EmptyString]
           end
  end.

(** [strings.Join(pieces, sep)]. *)
Fixpoint Join (sep : ascii) (pieces : list string) : string :=
  match pieces with
  | [] => EmptyString
  | [p] => p
  | p :: rest => p ++ String sep (Join sep rest)
  end.

(** [EnvTypes]. *)
Inductive EnvTypes : Type := TrainB | TrainA | TrainAll | TestA | TestB | TestAll.

(** [estats.Stats]: the floats (float64) and the strings by name. *)
Record Stats : Type := {
  Floats : gmap string float64;
  Strings : gmap string string
}.

(** [Stats.Float(name)] and [Stats.String(name)]: the zero value for a name
    never set. *)
Definition Stats_Float (name : string) (st : Stats) : float64 :=
  default f64_zero (Floats st !! name).
Definition Stats_String (name : string) (st : Stats) : string :=
  default EmptyString (Strings st !! name).
Definition Stats_SetFloat (name : string) (v : float64) (st : Stats) : Stats :=
  {| Floats := <[name := v]> (Floats st); Strings := Strings st |}.
Definition Stats_SetString (name : string) (v : string) (st : Stats) : Stats :=
  {| Floats := Floats st; Strings := <[name := v]> (Strings st) |}.

(** The library calls of the two methods: the pattern tables, the
    [env.FixedTable] environments, and the network's measures. *)
Class Collaborators : Type := {
  Table : Type;
  FixedTable : Type;
  (** [ly.MSE(tol)] *)
  MSE : float32 -> Layer -> float64 * float64;
  (** [ss.Stats.ClosestPat(net, "Output", "ActM", 0, table, "Output", "Name")]:
      the correlation and the name of the closest pattern *)
  ClosestPat : Network -> Table -> float32 * string;
  (** [ft.Table = table.NewIndexView(dt)] and [ft.Init(run)] *)
  SetTable : Table -> FixedTable -> FixedTable;
  Init : Z -> FixedTable -> FixedTable
}.

Section Simulation.

Context `{Collaborators}.

(** [Sim]: the fields the two methods use; [TrnEnv] and [TstEnv] are the
    environments [ss.Envs.ByMode] returns for Train and Test. *)
Record Sim : Type := {
  EnvType : EnvTypes;
  TrainAll_ : Table;
  TrainA_ : Table;
  TrainB_ : Table;
  Net : Network;
  Stats_ : Stats;
  TrnEnv : FixedTable;
  TstEnv : FixedTable
}.

Definition set_Stats (st : Stats) (ss : Sim) : Sim :=
  {| EnvType := EnvType ss; TrainAll_ := TrainAll_ ss; TrainA_ := TrainA_ ss;
     TrainB_ := TrainB_ ss; Net := Net ss; Stats_ := st; TrnEnv := TrnEnv ss;
     TstEnv := TstEnv ss |}.

(** The float32 constant 0.5. *)
Definition c0_5 : float32 := S754_finite false 8388608 (-24).

(** [TrialStats]; [None] is a panic: no [Output] layer, or an index out of
    range. *)
Definition TrialStats (ss : Sim) : option Sim :=
  out ← LayerByName "Output" (Net ss);
  let '(sse, avgsse) := MSE c0_5 out in
  let st := Stats_SetFloat "SSE" sse (Stats_ ss) in
  let st := Stats_SetFloat "AvgSSE" avgsse st in
  let '(cor, cnm) := ClosestPat (Net ss) (TrainAll_ ss) in
  let st := Stats_SetString "Closest" cnm st in
  let st := Stats_SetFloat "Correl" (float64_of_float32 cor) st in
  let tnm := Stats_String "TrialName" st in
  let cnmsp := Split "_" cnm in
  let tnmsp := Split "_" tnm in
  c0 ← cnmsp !! 0%nat;
  t0 ← tnmsp !! 0%nat;
  let st := if String.eqb c0 t0 then Stats_SetFloat "TrlErr" f64_zero st
            else Stats_SetFloat "TrlErr" f64_one st in
  c1 ← cnmsp !! 1%nat;
  let st := if String.eqb c1 "a" then Stats_SetFloat "IsA" f64_one st
            else Stats_SetFloat "IsA" f64_zero st in
  let st := Stats_SetFloat "IsB" (f64_sub f64_one (Stats_Float "IsA" st)) st in
  Some (set_Stats st ss).

(** [SetEnv]: the type is recorded, and the environment it names gets the
    table it names and is initialized. *)
Definition SetEnv (envType : EnvTypes) (ss : Sim) : Sim :=
  let trn := TrnEnv ss in
  let tst := TstEnv ss in
  let retrain (dt : Table) := Init 0 (SetTable dt trn) in
  let retest (dt : Table) := Init 0 (SetTable dt tst) in
  let '(trn, tst) :=
    match envType with
    | TrainA => (retrain (TrainA_ ss), tst)
    | TrainB => (retrain (TrainB_ ss), tst)
    | TrainAll => (retrain (TrainAll_ ss), tst)
    | TestA => (trn, retest (TrainA_ ss))
    | TestB => (trn, retest (TrainB_ ss))
    | TestAll => (trn, retest (TrainAll_ ss))
    end in
  {| EnvType := envType; TrainAll_ := TrainAll_ ss; TrainA_ := TrainA_ ss;
     TrainB_ := TrainB_ ss; Net := Net ss; Stats_ := Stats_ ss; TrnEnv := trn;
     TstEnv := tst |}.

End Simulation.

(** The types that select the training patterns. *)
Definition is_train_type (e : EnvTypes) : bool :=
  match e with TrainA | TrainB | TrainAll => true | _ => false end.

(** The table a type names. *)
Definition table_of `{Collaborators} (e : EnvTypes) (ss : Sim) : Table :=
  match e with
  | TrainA | TestA => TrainA_ ss
  | TrainB | TestB => TrainB_ ss
  | TrainAll | TestAll => TrainAll_ ss
  end.

(** The part of a string before the first [sep], all of it when there is
    none. *)
Fixpoint before_first (sep : ascii) (s : string) : string :=
  match s with
  | EmptyString => EmptyString
  | String c rest => if Ascii.eqb c sep then EmptyString else String c (before_first sep rest)
  end.

(** Whether the byte [sep] occurs in [s]. *)
Fixpoint occurs (sep : ascii) (s : string) : bool :=
  match s with
  | EmptyString => false
  | String c rest => Ascii.eqb c sep || occurs sep rest
  end.

End Priming.

(* ===================================================================== *)
(** * Definitions the statements use *)
(* ===================================================================== *)

(** The clamp as the code writes it (the upper bound tested first). *)
Definition code_clamp (x : float32) : float32 :=
  if gtb x c4 then c4 else if ltb x c0_25 then c0_25 else x.

(** The state after the requests and prints [es]. *)
Definition with_effects `{Collaborators} (es : list Effect) (ss : Sim) : Sim :=
  set_Trace (Trace ss ++ es) ss.

(** The layer [CalcEntropy] reads under the selected measure. *)
Definition measured_layer (measure : bool) : string :=
  if measure then "Hidden"%string else "GPiThal"%string.

(** The entropy before the clamp: the scaled sum, or the scaled Shannon
    entropy. *)
Definition raw_entropy `{Collaborators} (measure : bool) (vals : list float32) : float32 :=
  if measure then div (sum_act vals) c10 else div (shannon vals) c2_77.

(** The float32 constant -1. *)
Definition minus_one : float32 := S754_finite true 8388608 (-23).

(** What the natural logarithm gives [math32.Log]: [p * Log p] is at least
    -1 for every positive [p] (its minimum is [-1/e], at [p = 1/e]; at [+Inf]
    the logarithm is [+Inf]). *)
Definition Log_bounded `{Collaborators} : Prop :=
  forall p, gtb p zero = true -> leb minus_one (mul p (Log p)) = true.

(** A float32 that is a number, not [+Inf] and, when positive, at most
    [2^26]: what the entropy accumulated by the second measure stays. *)
Definition low (x : float32) : bool :=
  match x with
  | S754_nan => false
  | S754_infinity s => s
  | S754_zero _ => true
  | S754_finite true _ _ => true
  | S754_finite false m e => (e <=? 26) && (Z.pos m <=? 2 ^ (26 - e))
  end.

(** A term that is a number, not [-Inf] and, when negative, of magnitude at
    most 1. *)
Definition at_least_minus_one (t : float32) : Prop :=
  match t with
  | S754_nan => False
  | S754_infinity s => s = false
  | S754_zero _ => True
  | S754_finite false _ _ => True
  | S754_finite true m e => e <= -23 /\ Z.pos m <= 2 ^ (- e)
  end.

(** A float32 that is NaN or +Inf: what the running maximum of [CalcEntropy]
    is from a NaN activation on. *)
Definition nan_or_pinf (x : float32) : Prop := x = NaN \/ x = S754_infinity false.

(** A recall trial: the action is [Recall1] or [Recall2]. *)
Definition is_recall (a : Actions) : Prop := a = Recall1 \/ a = Recall2.

(** The layers whose learning rate [ApplyReward] multiplies, in the order of
    the calls, and the statistic that records a layer's rate. *)
Definition modulated_layers : list string :=
  ["MatrixGo"; "MatrixNoGo"; "RWPred"]%string.

Definition lrate_stat (nm : string) : string := nm ++ "LRate".

(** What [CalcEntropy] requests and prints when it returns [ent]: nothing
    with modulation off, else the read of the measured layer and the printed
    line. *)
Definition entropy_effects `{Collaborators} (ss : Sim) (ent : float32) : list Effect :=
  if ModLearnRate ss
  then [EvUnitValues (measured_layer (EntropyMeasureType ss)) "AvgM"; EvPrintEnt ent]
  else [].

(** The network after the reward of a recall trial: the pattern on [Rew],
    then the learning rates of the three layers multiplied by [ent]. *)
Definition reward_net (pats : Pattern) (ent : float32) (net : Network) : Network :=
  update_layer "RWPred" (Layer_LrateMult ent)
    (update_layer "MatrixNoGo" (Layer_LrateMult ent)
       (update_layer "MatrixGo" (Layer_LrateMult ent)
          (update_layer "Rew" (set_Ext (Some pats)) net))).

(** [if len(ly.RecvPaths) > 0 { SetFloat32(stat, ly.RecvPaths[0].Learn.Lrate) }]
    on the statistics, for a layer as it is, and for a layer whose rates are
    about to be multiplied by [ent]. *)
Definition first_path_stat (stat : string) (ly : Layer) (st : Stats) : Stats :=
  match RecvPaths ly with
  | p :: _ => Stats_SetFloat32 stat (Lrate p) st
  | [] => st
  end.

Definition record_lrate (stat : string) (ent : float32) (ly : Layer) (st : Stats) : Stats :=
  match RecvPaths ly with
  | p :: _ => Stats_SetFloat32 stat (mul (LrateInit p) ent) st
  | [] => st
  end.

(** The simulation after [ApplyReward] on a recall trial: [en'] is the
    environment with its reward set, [go], [nogo] and [rw] the three layers
    before the call. *)
Definition rewarded_state `{Collaborators} (mode : Modes) (en' : SIREnv) (pats : Pattern)
    (ent : float32) (go nogo rw : Layer) (ss : Sim) : Sim :=
  set_Stats
    (record_lrate "RWPredLRate" ent rw
       (record_lrate "MatrixNoGoLRate" ent nogo
          (record_lrate "MatrixGoLRate" ent go (Stats_ ss))))
    (with_effects
       (EvApplyExt1DTsr "Rew" pats :: entropy_effects ss ent ++
        [EvLrateMult "MatrixGo" ent; EvLrateMult "MatrixNoGo" ent; EvLrateMult "RWPred" ent])
       (set_Net (reward_net pats ent (Net ss))
          (set_Envs (set_ByMode mode en' (Envs_ ss)) ss))).

(** The external input of the layer a name denotes after [ApplyInputs]:
    the environment's pattern of that name for the input and target layers
    [lays] other than [Rew], none for every other layer. *)
Definition applied_input `{Collaborators} (ev : SIREnv) (lays : list string) (nm : string)
    : option Pattern :=
  if bool_decide (nm ∈ lays) && negb (String.eqb nm "Rew") then Env_State nm ev else None.

(** What the loop of [ApplyInputs] over [lays] does to the layer a name
    denotes. *)
Definition applied `{Collaborators} (ev : SIREnv) (lays : list string) (nm : string)
    (ly : Layer) : Layer :=
  if bool_decide (nm ∈ lays) && negb (String.eqb nm "Rew") then
    match Env_State nm ev with
    | Some pats => set_Ext (Some pats) ly
    | None => ly
    end
  else ly.

(** The closures [ConfigLoops] registers on the Train stack only, the reward
    apart. *)
Definition train_hook (c : Closure) : bool :=
  match c with
  | FnInit | FnNewRun | FnRunDone | FnNZeroStop | FnTestAtInterval | FnRunStats => true
  | _ => false
  end.

(** A function that belongs on the stack of mode [m]: no Train hook on the
    Test stack, no [LogTestErrors] on the Train stack, and a [Log] closure
    only with the stack's own mode. *)
Definition fits_stack (m : Modes) (nf : looper.NamedFunc) : Prop :=
  (m = Test -> train_hook (looper.Func nf) = false) /\
  (m = Train -> looper.Func nf <> FnLogTestErrors) /\
  (forall m' t, looper.Func nf = FnLog m' t -> m' = m).

(** The stacks [ConfigLoops] has built when it calls the first library
    helper: the Train stack with its four loops and the Test stack with its
    three. *)
Definition initial_stacks (cfg : Config) : looper.Stacks :=
  looper.AddTime Test Cycle 100
    (looper.AddTime Test Trial (NTrials cfg)
       (looper.AddTime Test Epoch 1
          (looper.AddStack Test
             (looper.AddTime Train Cycle 100
                (looper.AddTime Train Trial (NTrials cfg)
                   (looper.AddTime Train Epoch (NEpochs cfg)
                      (looper.AddTime Train Run (NRuns cfg)
                         (looper.AddStack Train looper.NewStacks)))))))).

(** A loop after [ApplyParams]: the Train Run and Epoch loops have their
    counter's maximum from the configuration, every other loop is as it
    was. *)
Definition synced (cfg : Config) (m : Modes) (t : Times) (lp : looper.Loop) : looper.Loop :=
  match m, t with
  | Train, Run => set_Counter_Max (NRuns cfg) lp
  | Train, Epoch => set_Counter_Max (NEpochs cfg) lp
  | _, _ => lp
  end.

(** A request that applies no pattern to the layer named [Rew]. *)
Definition not_Rew_write (e : Effect) : Prop :=
  match e with
  | EvApplyExt nm _ | EvApplyExt1DTsr nm _ => nm <> "Rew"%string
  | _ => True
  end.

(** No layer named [Rew] holds an external input. *)
Definition Rew_clear (net : Network) : Prop :=
  Forall (fun ly => Layer_Name ly = "Rew"%string -> Ext ly = None) (Layers net).

(** The names of the layers, in network order. *)
Definition layer_names (net : Network) : list string := List.map Layer_Name (Layers net).

(** A library helper registers only the library's own closures: a function
    registered on a stack after the helper was registered there before, or
    is the library's. *)
Definition lib_only (helper : looper.Stacks -> option looper.Stacks) : Prop :=
  forall ls ls' m nf,
    helper ls = Some ls' ->
    In nf (looper.funcs_of m ls') ->
    In nf (looper.funcs_of m ls) \/ is_lib (looper.Func nf) = true.

(** Not the closure that calls [ApplyReward]. *)
Definition not_reward (nf : looper.NamedFunc) : Prop :=
  looper.Func nf <> FnApplyReward.

(* ===================================================================== *)
(** * A concrete setting: collaborators, network and states to evaluate on *)
(* ===================================================================== *)

Module Demo.

(** [math32.Log] at the arguments used below: the float32 nearest to the
    natural logarithm of 1, 2, 16, 0.5 and 0.0625; NaN elsewhere. *)
Definition Log_sample (x : float32) : float32 :=
  if SFeqb x (of_Z 1) then zero
  else if SFeqb x (of_Z 2) then S754_finite false 11629080 (-24)
  else if SFeqb x (of_Z 16) then S754_finite false 11629080 (-22)
  else if SFeqb x (of_ratio 1 2) then S754_finite true 11629080 (-24)
  else if SFeqb x (of_ratio 1 16) then S754_finite true 11629080 (-22)
  else NaN.

(** A small Store-Ignore-Recall environment: the current action, the stimulus
    stored and the last reward. *)
Record ToyEnv : Type := { toy_Act : Actions; toy_Stim : Z; toy_Rew : float32 }.

Definition toy_next (a : Actions) : Actions :=
  match a with
  | Store1 => Ignore
  | Ignore => Recall1
  | Recall1 => Store2
  | Store2 => Recall2
  | Recall2 => Store1
  end.

Definition toy_Init (_ : Z) (e : ToyEnv) : ToyEnv :=
  {| toy_Act := Store1; toy_Stim := toy_Stim e; toy_Rew := zero |}.

Definition toy_Step (e : ToyEnv) : ToyEnv :=
  {| toy_Act := toy_next (toy_Act e); toy_Stim := toy_Stim e; toy_Rew := toy_Rew e |}.

Definition toy_State (name : string) (e : ToyEnv) : option Pattern :=
  if String.eqb name "Rew" then Some [toy_Rew e]
  else if String.eqb name "Input" then Some [one; zero; zero; zero]
  else if String.eqb name "CtrlInput" then Some [one; zero; zero; zero; zero]
  else if String.eqb name "Output" then Some [one; zero; zero; zero]
  else None.

Definition toy_SetReward (mxi : Z) (e : ToyEnv) : ToyEnv :=
  {| toy_Act := toy_Act e; toy_Stim := toy_Stim e;
     toy_Rew := if mxi =? toy_Stim e then one else zero |}.

Definition collaborators : Collaborators :=
  {| Log := Log_sample;
     SIREnv := ToyEnv;
     Act := toy_Act;
     Env_Init := toy_Init;
     Env_Step := toy_Step;
     Env_String := fun _ => "trial"%string;
     Env_State := toy_State;
     Env_SetReward := toy_SetReward |}.

(** A network with the layers [ConfigNet] names; [hid] and [gpi] are the
    [AvgM] values of the Hidden and GPiThal units, [rew] the external input
    of the [Rew] layer. *)
Definition mk_layer (nm : string) (ty : LayerTypes) (avgm : list float32)
    (ext : option Pattern) : Layer :=
  {| Layer_Name := nm; Layer_Type := ty; AvgM := avgm; MaxIndex := 0; Ext := ext;
     RecvPaths := [{| LrateInit := of_ratio 1 100; Lrate := of_ratio 1 100 |}] |}.

Definition net (hid gpi : list float32) (rew : option Pattern) : Network :=
  {| Layers :=
       [ mk_layer "Rew" InputLayer [zero] rew;
         mk_layer "RWPred" OtherLayer [zero] None;
         mk_layer "SNc" OtherLayer [zero] None;
         mk_layer "Input" InputLayer [zero; zero; zero; zero] None;
         mk_layer "CtrlInput" InputLayer [zero; zero; zero; zero; zero] None;
         mk_layer "Output" TargetLayer [zero; zero; zero; zero] None;
         mk_layer "Hidden" SuperLayer hid None;
         mk_layer "MatrixGo" OtherLayer [zero] None;
         mk_layer "MatrixNoGo" OtherLayer [zero] None;
         mk_layer "GPiThal" OtherLayer gpi None ] |}.

Definition config : Config :=
  {| NRuns := 1; NEpochs := 3; NTrials := 4; NZero := 2; TestInterval := 2 |}.

Definition stats : Stats := {| Ints := ∅; Floats32 := ∅; Strings := ∅ |}.

Definition env (a : Actions) : ToyEnv := {| toy_Act := a; toy_Stim := 0; toy_Rew := zero |}.

(** A state of the simulation: modulation switch, entropy measure, the action
    of both environments, the network and the looper stacks. *)
Definition sim (modLearnRate measure : bool) (a : Actions) (n : Network)
    (ls : option looper.Stacks) : @Sim collaborators :=
  {| BurstDaGain := one; DipDaGain := one;
     ModLearnRate := modLearnRate; EntropyMeasureType := measure;
     Cfg := config; Net := n; Loops := ls; Stats_ := stats;
     Envs_ := @Build_Envs collaborators (env a) (env a);
     CtxMode := Train; Trace := [] |}.

(** The looper's runner, reduced to what matters to the caller's mode: it
    sets the current mode to the one it runs. *)
Definition ResetAndRun (m : Modes) : @M collaborators unit :=
  fun ss =>
    match Loops ss with
    | Some ls => Some (tt, set_Loops (Some (looper.set_Mode m ls)) ss)
    | None => None
    end.

(** The leabra helpers: [LooperStdPhases] sets the phase events on the Cycle
    loop of every stack, each with the library's function of the event's
    name; the others register nothing here. *)
Definition lib_event (name : string) (at_ : Z) : looper.Event :=
  {| looper.Event_Name := name; looper.AtCounter := at_;
     looper.OnEvent := [{| looper.Name := name; looper.Func := FnLib name |}] |}.

Definition std_events : list looper.Event :=
  [ lib_event "MinusPhase:Start" 0; lib_event "Quarter1" 25; lib_event "Quarter2" 50;
    lib_event "MinusPhase:End" 75; lib_event "PlusPhase:Start" 75 ].

Definition add_std_events (lp : looper.Loop) : looper.Loop :=
  looper.set_Events (looper.Events lp ++ std_events) lp.

Definition LooperStdPhases (ls : looper.Stacks) : option looper.Stacks :=
  Some (looper.alter_Loop add_std_events Test Cycle
          (looper.alter_Loop add_std_events Train Cycle ls)).

Definition no_op (ls : looper.Stacks) : option looper.Stacks := Some ls.

Definition stacks : option looper.Stacks :=
  ConfigLoops_stacks LooperStdPhases no_op no_op no_op no_op config.

(** The stacks [ConfigLoops] builds in this setting, and the same during a
    Train run, with the Train Epoch counter at [c]. *)
Definition ls : looper.Stacks := default looper.NewStacks stacks.

Definition set_Cur (c : Z) (lp : looper.Loop) : looper.Loop :=
  {| looper.Counter_ :=
       {| looper.Cur := c; looper.Max := looper.Max (looper.Counter_ lp);
          looper.Inc := looper.Inc (looper.Counter_ lp) |};
     looper.OnStart := looper.OnStart lp; looper.OnEnd := looper.OnEnd lp;
     looper.IsDone := looper.IsDone lp; looper.Events := looper.Events lp |}.

Definition ls_at_epoch (c : Z) : looper.Stacks :=
  looper.set_Mode Train (looper.alter_Loop (set_Cur c) Train Epoch ls).

Definition train_epoch (c : Z) : looper.Loop :=
  default (looper.NewLoop 0) (looper.LoopOf Train Epoch (ls_at_epoch c)).

(** Activations: four hidden units (sum 3.0), sixteen equal GPiThal units,
    two equal units, and a vector with a NaN. *)
Definition hid4 : list float32 :=
  [of_ratio 9 10; of_ratio 8 10; of_ratio 7 10; of_ratio 6 10].
Definition gpi16 : list float32 := repeat one 16.
Definition gpi2 : list float32 := [one; one].
Definition with_nan : list float32 := [of_ratio 1 2; NaN].

Definition hidden_layer (vals : list float32) : Layer := mk_layer "Hidden" SuperLayer vals None.
Definition gpi_layer (vals : list float32) : Layer := mk_layer "GPiThal" OtherLayer vals None.

(** The state at Train epoch [c], with both environments at action [a]. *)
Definition state (modLearnRate measure : bool) (a : Actions) (hid gpi : list float32)
    (c : Z) : @Sim collaborators :=
  sim modLearnRate measure a (net hid gpi None) (Some (ls_at_epoch c)).

(** The same after a Test run under [ResetAndRun]. *)
Definition after_Test_run (ss : @Sim collaborators) : @Sim collaborators :=
  set_Loops (Some (looper.set_Mode Test (ls_at_epoch 1)))
    (set_Envs (set_ByMode Test (Env_Init 0 (ByMode Test (Envs_ ss))) (Envs_ ss)) ss).

(** A state whose [Rew] layer holds the reward pattern [1]. *)
Definition rewarded : @Sim collaborators :=
  sim true true Store1 (net hid4 gpi16 (Some [one])) (Some ls).

(** A state with the [Hidden] units all at 0.01, under the 0.02 threshold. *)
Definition quiet49 : list float32 := repeat (of_ratio 1 100) 49.

(** The state at a recall trial of the Train environment, with modulation on
    and the population-sum measure. *)
Definition recall : @Sim collaborators := state true true Recall1 hid4 gpi16 0.

Definition output_layer : Layer := mk_layer "Output" TargetLayer [zero; zero; zero; zero] None.

(** The leabra state [ApplyParams] and [StatCounters] use: cycle 7, every
    layer's Matrix gains at 0; a configuration changed since the loops were
    built; parameter sheets that set nothing; the looper's
    [CountersToStats], which writes every counter of the stack under its
    time's name. *)
Definition gains0 : MatrixParams := {| BurstGain := zero; DipGain := zero |}.

Definition new_config : Config :=
  {| NRuns := 5; NEpochs := 50; NTrials := 8; NZero := 2; TestInterval := 2 |}.

Definition reconfigured (m : Modes) (c : Z) : @Sim collaborators :=
  {| BurstDaGain := of_ratio 1 2; DipDaGain := of_Z 2;
     ModLearnRate := false; EntropyMeasureType := false;
     Cfg := new_config; Net := net hid4 gpi16 None; Loops := Some (ls_at_epoch c);
     Stats_ := stats; Envs_ := @Build_Envs collaborators (env Store1) (env Store1);
     CtxMode := m; Trace := [] |}.

Definition simp (m : Modes) (c : Z) : @SimP collaborators :=
  {| Sim_ := reconfigured m c; CtxCycle := 7; Matrix := fun _ => gains0 |}.

Definition Params_SetAll (n : Network) (mx : string -> MatrixParams)
    : Network * (string -> MatrixParams) := (n, mx).

Definition Times_String (t : Times) : string :=
  match t with Run => "Run" | Epoch => "Epoch" | Trial => "Trial" | Cycle => "Cycle" end.

Definition CountersToStats (st : looper.Stack) (sts : Stats) : Stats :=
  fold_left (fun acc tl => Stats_SetInt (Times_String (fst tl))
                             (looper.Cur (looper.Counter_ (snd tl))) acc)
            (looper.Loops st) sts.

(** The simulation after [ApplyParams]. *)
Definition simp_synced (m : Modes) (c : Z) : @SimP collaborators :=
  {| Sim_ :=
       set_Loops
         (Some (looper.alter_Loop (set_Counter_Max 50) Train Epoch
                  (looper.alter_Loop (set_Counter_Max 5) Train Run (ls_at_epoch c))))
         (reconfigured m c);
     CtxCycle := 7;
     Matrix := set_gains "MatrixNoGo" (of_ratio 1 2) (of_Z 2)
                 (set_gains "MatrixGo" (of_ratio 1 2) (of_Z 2) (fun _ => gains0)) |}.

(** [Log_sample] made total, with the bound of the logarithm: [+Inf] at
    [+Inf], and 0 at the other arguments outside the table. *)
Definition Log_total (x : float32) : float32 :=
  match Log_sample x with
  | S754_nan => match x with S754_infinity false => x | _ => zero end
  | v => v
  end.

Definition total_collaborators : Collaborators :=
  {| Log := Log_total;
     SIREnv := ToyEnv;
     Act := toy_Act;
     Env_Init := toy_Init;
     Env_Step := toy_Step;
     Env_String := fun _ => "trial"%string;
     Env_State := toy_State;
     Env_SetReward := toy_SetReward |}.

(** A recall state with modulation on and the Shannon measure, over
    sixteen equal GPiThal units. *)
Definition shannon_state : @Sim total_collaborators :=
  {| BurstDaGain := one; DipDaGain := one;
     ModLearnRate := true; EntropyMeasureType := false;
     Cfg := config; Net := net hid4 gpi16 None; Loops := Some ls; Stats_ := stats;
     Envs_ := @Build_Envs total_collaborators (env Recall1) (env Recall1);
     CtxMode := Train; Trace := [] |}.

End Demo.

(** A concrete setting for the priming simulation: tables by name, an
    environment as the table it shows and the run it was initialized for, a
    closest pattern [dog_a] at a trial named [dog_b]. *)
Module PrimingDemo.

Import Priming.

Record ToyTable : Type := { shown : string; run : Z }.

Definition collaborators_for (closest : string) : Collaborators :=
  {| Table := string;
     FixedTable := ToyTable;
     MSE := fun _ _ => (f64_zero, f64_zero);
     ClosestPat := fun _ _ => (one, closest);
     SetTable := fun dt ft => {| shown := dt; run := run ft |};
     Init := fun r ft => {| shown := shown ft; run := r |} |}.

Definition collaborators : Collaborators := collaborators_for "dog_a".

Definition stats : Stats :=
  {| Floats := ∅; Strings := <["TrialName"%string := "dog_b"%string]> ∅ |}.

Definition table (closest name : string) : @Table (collaborators_for closest) := name.

Definition fixed_table (closest name : string) (r : Z)
    : @FixedTable (collaborators_for closest) :=
  {| shown := name; run := r |}.

Definition sim_for (closest : string) : @Sim (collaborators_for closest) :=
  {| EnvType := TrainAll; TrainAll_ := table closest "TrainAll";
     TrainA_ := table closest "TrainA"; TrainB_ := table closest "TrainB";
     Net := Demo.net Demo.hid4 Demo.gpi16 None;
     Stats_ := stats;
     TrnEnv := fixed_table closest "TrainAll" 0;
     TstEnv := fixed_table closest "TrainA" 0 |}.

Definition sim : @Sim collaborators := sim_for "dog_a".

(** The state after [TrialStats]. *)
Definition scored : @Sim collaborators := default sim (TrialStats sim).

End PrimingDemo.

(* ===================================================================== *)
(** * Facts about float32 comparisons *)
(* ===================================================================== *)

Example c0_02_nearest : c0_02 = of_ratio 2 100.
Proof. vm_compute. reflexivity. Qed.

Example c0_25_nearest : c0_25 = of_ratio 25 100.
Proof. vm_compute. reflexivity. Qed.

Example c2_77_nearest : c2_77 = of_ratio 277 100.
Proof. vm_compute. reflexivity. Qed.

Example c4_exact : c4 = of_Z 4.
Proof. vm_compute. reflexivity. Qed.

Example c10_exact : c10 = of_Z 10.
Proof. vm_compute. reflexivity. Qed.

Example one_exact : one = of_Z 1.
Proof. vm_compute. reflexivity. Qed.

Lemma SFcompare_antisym (x y : float32) :
  SFcompare y x = option_map CompOpp (SFcompare x y).
Proof.
  destruct x as [sx | sx | | sx mx ex], y as [sy | sy | | sy my ey]; simpl;
    try reflexivity;
    try (destruct sx; reflexivity);
    try (destruct sy; reflexivity);
    try (destruct sx, sy; reflexivity).
  destruct sx, sy; simpl; try reflexivity;
    rewrite (Z.compare_antisym ex ey);
    destruct (ex ?= ey) eqn:E; simpl; try reflexivity;
    rewrite (Pos.compare_cont_antisym mx my Eq); reflexivity.
Qed.

Lemma SFcompare_is_Some (x y : float32) :
  is_nan x = false -> is_nan y = false -> exists c, SFcompare x y = Some c.
Proof.
  destruct x, y; simpl; intros Hx Hy; try discriminate; eauto.
Qed.

Lemma ltb_true_not_nan (x y : float32) :
  ltb x y = true -> is_nan x = false /\ is_nan y = false.
Proof.
  unfold ltb, SFltb. destruct x, y; simpl; try discriminate; auto.
Qed.

(** Without NaN the order is total: not [x < y] gives [y <= x]. *)
Lemma ltb_false_leb (x y : float32) :
  is_nan x = false -> is_nan y = false -> ltb x y = false -> leb y x = true.
Proof.
  intros Hx Hy. unfold ltb, leb, SFltb, SFleb.
  rewrite (SFcompare_antisym x y).
  destruct (SFcompare_is_Some x y Hx Hy) as [c ->]. simpl.
  destruct c; simpl; congruence.
Qed.

(** Nothing is both over 4 and under 0.25. *)
Lemma gt_c4_not_lt_c0_25 (x : float32) : gtb x c4 = true -> ltb x c0_25 = false.
Proof.
  unfold gtb, ltb, SFltb, c4, c0_25.
  destruct x as [s | s | | s m e]; cbn [SFcompare]; try discriminate.
  - destruct s; congruence.
  - destruct s; try discriminate.
    destruct (Z.compare_spec (-21) e), (Z.compare_spec e (-25));
      try discriminate; try reflexivity; intros; lia.
Qed.

Lemma code_clamp_is_clamp (x : float32) : code_clamp x = clamp c0_25 c4 x.
Proof.
  unfold code_clamp, clamp.
  destruct (gtb x c4) eqn:Hgt.
  - rewrite (gt_c4_not_lt_c0_25 x Hgt). reflexivity.
  - reflexivity.
Qed.

(** A clamped value is in [0.25, 4] exactly when it is a number. *)
Lemma code_clamp_range (x : float32) :
  in_range c0_25 c4 (code_clamp x) = negb (is_nan x) /\
  is_nan (code_clamp x) = is_nan x.
Proof.
  unfold code_clamp.
  destruct (gtb x c4) eqn:Hgt.
  - apply ltb_true_not_nan in Hgt as [_ ->]. split; reflexivity.
  - destruct (ltb x c0_25) eqn:Hlt.
    + apply ltb_true_not_nan in Hlt as [-> _]. split; reflexivity.
    + destruct (is_nan x) eqn:Hn.
      * destruct x; try discriminate. split; reflexivity.
      * split; [ | reflexivity ]. unfold in_range.
        rewrite (ltb_false_leb x c0_25 Hn eq_refl Hlt).
        rewrite (ltb_false_leb c4 x eq_refl Hn Hgt). reflexivity.
Qed.

(* ===================================================================== *)
(** * Sums and quotients of finite float32 values are numbers *)
(* ===================================================================== *)

Section NotNaN.

Lemma shr_1_nonneg (mrs : shr_record) : 0 <= shr_m mrs -> 0 <= shr_m (shr_1 mrs).
Proof.
  destruct mrs as [m r s]. simpl. intros Hm.
  destruct m as [ | p | p]; simpl; [ lia | | lia ].
  destruct p; simpl; lia.
Qed.

Lemma iter_pos_invariant {A} (P : A -> Prop) (f : A -> A) :
  (forall a, P a -> P (f a)) -> forall p a, P a -> P (SpecFloat.iter_pos f p a).
Proof.
  intros Hf. induction p as [p IH | p IH | ]; intros a Ha; simpl; auto.
Qed.

Lemma shr_nonneg (mrs : shr_record) (e n : Z) :
  0 <= shr_m mrs -> 0 <= shr_m (fst (shr mrs e n)).
Proof.
  intros Hm. unfold shr. destruct n; simpl; try exact Hm.
  apply (iter_pos_invariant (fun r => 0 <= shr_m r)); [ apply shr_1_nonneg | exact Hm ].
Qed.

Lemma shr_fexp_nonneg (m e : Z) (l : location) :
  0 <= m -> 0 <= shr_m (fst (shr_fexp prec emax m e l)).
Proof.
  intros Hm. unfold shr_fexp. apply shr_nonneg.
  destruct l as [ | [ | | ]]; exact Hm.
Qed.

Lemma round_nearest_even_nonneg (m : Z) (l : location) :
  0 <= m -> 0 <= round_nearest_even m l.
Proof.
  intros Hm. unfold round_nearest_even.
  destruct l as [ | [ | | ]]; try lia. destruct (Z.even m); lia.
Qed.

(** Rounding a non-negative mantissa never gives NaN. *)
Lemma binary_round_aux_not_nan (sx : bool) (mx ex : Z) (lx : location) :
  0 <= mx -> is_nan (binary_round_aux prec emax sx mx ex lx) = false.
Proof.
  intros Hm. unfold binary_round_aux.
  pose proof (shr_fexp_nonneg mx ex lx Hm) as H1.
  destruct (shr_fexp prec emax mx ex lx) as [mrs' e']. simpl in H1.
  pose proof (shr_fexp_nonneg _ e' loc_Exact
                (round_nearest_even_nonneg _ (loc_of_shr_record mrs') H1)) as H2.
  destruct (shr_fexp prec emax (round_nearest_even (shr_m mrs') (loc_of_shr_record mrs'))
              e' loc_Exact) as [mrs'' e'']. simpl in H2.
  destruct (shr_m mrs'') as [ | m | m]; [ reflexivity | | lia ].
  destruct (e'' <=? emax - prec); reflexivity.
Qed.

Lemma binary_normalize_not_nan (m e : Z) (szero : bool) :
  is_nan (binary_normalize prec emax m e szero) = false.
Proof.
  unfold binary_normalize, binary_round.
  destruct m as [ | p | p]; [ reflexivity | | ];
    match goal with
    | |- context [shl_align ?a ?b ?c] => destruct (shl_align a b c) as [mz ez]
    end;
    apply binary_round_aux_not_nan; lia.
Qed.

(** Adding a finite value to a number gives a number. *)
Lemma add_not_nan (x y : float32) :
  is_nan x = false -> is_finite y = true -> is_nan (add x y) = false.
Proof.
  unfold add, SFadd.
  destruct x as [sx | sx | | sx mx ex], y as [sy | sy | | sy my ey];
    simpl; intros Hx Hy; try discriminate; try reflexivity.
  - destruct sx, sy; reflexivity.
  - apply binary_normalize_not_nan.
Qed.

Lemma sum_not_nan (vals : list float32) (a : float32) :
  is_nan a = false ->
  Forall (fun v => is_finite v = true) vals ->
  is_nan (fold_left add vals a) = false.
Proof.
  intros Ha Hv. revert a Ha. induction Hv as [ | v vals Hfin _ IH]; intros a Ha; simpl.
  - exact Ha.
  - apply IH. apply add_not_nan; assumption.
Qed.

(** Dividing a number by 10 gives a number. *)
Lemma div_c10_not_nan (x : float32) : is_nan x = false -> is_nan (div x c10) = false.
Proof.
  unfold c10, div, SFdiv.
  destruct x as [sx | sx | | sx mx ex]; simpl; intros Hx; try discriminate;
    try reflexivity.
  unfold SFdiv_core_binary.
  match goal with
  | |- context [Z.div_eucl ?a ?b] =>
      pose proof (Z.div_pos a b) as Hq; unfold Z.div in Hq;
      assert (0 <= a) as Ha;
      [ | destruct (Z.div_eucl a b) as [q r]; apply binary_round_aux_not_nan;
          apply Hq; [ exact Ha | lia ] ]
  end.
  match goal with
  | |- 0 <= match ?s with _ => _ end => destruct s
  end; [ lia | apply Z.shiftl_nonneg; lia | lia ].
Qed.

End NotNaN.

(* ===================================================================== *)
(** * Rounding: how large a sum or a product can get *)
(* ===================================================================== *)

Section Magnitude.

(** The number of binary digits. *)
Lemma digits2_pos_bounds (m : positive) :
  2 ^ (Z.pos (digits2_pos m) - 1) <= Z.pos m < 2 ^ Z.pos (digits2_pos m).
Proof.
  induction m as [m IH | m IH | ]; cbn [digits2_pos]; [ | | simpl; lia ];
    rewrite Pos2Z.inj_succ;
    set (d := Z.pos (digits2_pos m)) in *;
    assert (0 < d) as Hd by (unfold d; lia);
    replace (Z.succ d - 1) with d by lia;
    rewrite Z.pow_succ_r by lia;
    assert (2 ^ d = 2 * 2 ^ (d - 1)) as E
      by (rewrite <- Z.pow_succ_r by lia; f_equal; lia);
    lia.
Qed.

(** [iter_pos] iterates as many times as its count says. *)
Lemma iter_pos_nat {A} (f : A -> A) (p : positive) (a : A) :
  SpecFloat.iter_pos f p a = Nat.iter (Pos.to_nat p) f a.
Proof.
  revert a. induction p as [p IH | p IH | ]; intros a; cbn [SpecFloat.iter_pos].
  - rewrite !IH.
    replace (Pos.to_nat p~1) with (Pos.to_nat p + (Pos.to_nat p + 1))%nat by lia.
    rewrite !Nat.iter_add. reflexivity.
  - rewrite !IH.
    replace (Pos.to_nat p~0) with (Pos.to_nat p + Pos.to_nat p)%nat by lia.
    rewrite Nat.iter_add. reflexivity.
  - reflexivity.
Qed.

(** One shift halves the mantissa; the round bit is the bit shifted out. *)
Lemma shr_1_m (mrs : shr_record) :
  0 <= shr_m mrs -> shr_m (shr_1 mrs) = shr_m mrs / 2 /\ shr_r (shr_1 mrs) = Z.odd (shr_m mrs).
Proof.
  destruct mrs as [m r s]. simpl. intros Hm.
  destruct m as [ | p | p]; [ split; reflexivity | | lia ].
  destruct p as [p | p | ]; cbn [shr_m shr_r Z.odd]; split; try reflexivity.
  - apply (Z.div_unique _ 2 _ 1); lia.
  - apply (Z.div_unique _ 2 _ 0); lia.
Qed.

(** [n + 1] shifts halve the mantissa [n + 1] times; the round bit is the
    last bit shifted out. *)
Lemma shr_iter (n : nat) (mrs : shr_record) :
  0 <= shr_m mrs ->
  shr_m (Nat.iter (S n) shr_1 mrs) = shr_m mrs / 2 ^ (Z.of_nat (S n)) /\
  shr_r (Nat.iter (S n) shr_1 mrs) = Z.odd (shr_m mrs / 2 ^ Z.of_nat n).
Proof.
  intros Hm. induction n as [ | n [IHm IHr]].
  - simpl Nat.iter. destruct (shr_1_m mrs Hm) as [-> ->].
    change (2 ^ Z.of_nat 1) with 2. change (2 ^ Z.of_nat 0) with 1. rewrite Z.div_1_r. split; reflexivity.
  - change (Nat.iter (S (S n)) shr_1 mrs) with (shr_1 (Nat.iter (S n) shr_1 mrs)).
    assert (0 <= shr_m (Nat.iter (S n) shr_1 mrs)) as Hpos.
    { rewrite IHm. apply Z.div_pos; [ exact Hm | apply Z.pow_pos_nonneg; lia ]. }
    destruct (shr_1_m _ Hpos) as [-> ->]. rewrite IHm. split; [ | reflexivity ].
    rewrite Z.div_div by (try apply Z.pow_pos_nonneg; lia).
    f_equal. rewrite (Nat2Z.inj_succ (S n)). rewrite Z.pow_succ_r by lia. lia.
Qed.

(** [shr] by a positive count, from an exact mantissa. *)
Lemma shr_spec (m e : Z) (p : positive) :
  0 <= m ->
  let r := shr {| shr_m := m; shr_r := false; shr_s := false |} e (Z.pos p) in
  shr_m (fst r) = m / 2 ^ Z.pos p /\
  shr_r (fst r) = Z.odd (m / 2 ^ (Z.pos p - 1)) /\
  snd r = e + Z.pos p.
Proof.
  intros Hm. unfold shr. cbn [fst snd]. rewrite iter_pos_nat.
  destruct (Pos2Nat.is_succ p) as [n Hn]. rewrite Hn.
  destruct (shr_iter n {| shr_m := m; shr_r := false; shr_s := false |} Hm) as [H1 H2].
  rewrite H1, H2. cbn [shr_m].
  assert (Z.pos p = Z.of_nat (S n)) as Hp by lia.
  rewrite Hp. repeat split. f_equal. f_equal. f_equal. lia.
Qed.

(** The exponent of the last place for a value under [2^x], in float32. *)
Lemma fexp_eq (x : Z) : fexp prec emax x = Z.max (x - 24) (-149).
Proof. reflexivity. Qed.

(** A positive [m] has [Zdigits2 m] digits. *)
Lemma Zdigits2_bounds (m : Z) :
  0 < m -> 2 ^ (Zdigits2 m - 1) <= m < 2 ^ Zdigits2 m /\ 0 < Zdigits2 m.
Proof.
  destruct m as [ | p | p]; try lia. intros _. simpl.
  split; [ apply digits2_pos_bounds | lia ].
Qed.

(** The first step of rounding: the mantissa is cut to what its exponent
    range allows. *)
Lemma shr_fexp_exact (m e : Z) :
  0 <= m ->
  let e1 := Z.max e (fexp prec emax (Zdigits2 m + e)) in
  let r := shr_fexp prec emax m e loc_Exact in
  shr_m (fst r) = m / 2 ^ (e1 - e) /\
  snd r = e1 /\
  (shr_r (fst r) = true -> e < e1 /\ Z.odd (m / 2 ^ (e1 - e - 1)) = true).
Proof.
  intros Hm e1 r. subst r. unfold shr_fexp. cbn [shr_record_of_loc].
  fold e1.
  destruct (fexp prec emax (Zdigits2 m + e) - e) as [ | p | p] eqn:En.
  - assert (e1 = e) as -> by (unfold e1; lia).
    cbn [shr fst snd shr_m shr_r]. rewrite Z.sub_diag, Z.div_1_r.
    repeat split; discriminate.
  - assert (e1 = e + Z.pos p) as He1 by (unfold e1; lia).
    destruct (shr_spec m e p Hm) as (H1 & H2 & H3).
    rewrite H1, H2, H3. replace (e1 - e) with (Z.pos p) by lia.
    repeat split; [ lia | lia | ].
    replace (e1 - e - 1) with (Z.pos p - 1) by lia. assumption.
  - assert (e1 = e) as -> by (unfold e1; lia).
    cbn [shr fst snd shr_m shr_r]. rewrite Z.sub_diag, Z.div_1_r.
    repeat split; discriminate.
Qed.

(** Rounding to nearest keeps the mantissa, or adds one when the round bit
    is set. *)
Lemma round_nearest_even_cases (mrs : shr_record) :
  let m2 := round_nearest_even (shr_m mrs) (loc_of_shr_record mrs) in
  m2 = shr_m mrs \/ (m2 = shr_m mrs + 1 /\ shr_r mrs = true).
Proof.
  destruct mrs as [m [ | ] [ | ]]; simpl; auto.
  destruct (Z.even m); auto.
Qed.

(** A mantissa of at most 24 digits at an exponent of the range is kept. *)
Lemma shr_fexp_fits (m e : Z) :
  0 <= m < 2 ^ 24 -> -149 <= e ->
  shr_fexp prec emax m e loc_Exact = ({| shr_m := m; shr_r := false; shr_s := false |}, e).
Proof.
  intros Hm He. unfold shr_fexp. cbn [shr_record_of_loc].
  assert (fexp prec emax (Zdigits2 m + e) - e <= 0) as Hn.
  { rewrite fexp_eq. destruct (Z.eq_dec m 0) as [-> | Hne]; [ simpl; lia | ].
    destruct (Zdigits2_bounds m ltac:(lia)) as [[Hlo Hhi] Hd].
    assert (Zdigits2 m <= 24); [ | lia ].
    destruct (Z_le_gt_dec (Zdigits2 m) 24) as [ | Hgt]; [ assumption | exfalso ].
    assert (2 ^ 24 <= 2 ^ (Zdigits2 m - 1)) by (apply Z.pow_le_mono_r; lia). lia. }
  destruct (fexp prec emax (Zdigits2 m + e) - e); try reflexivity. lia.
Qed.

(** What rounding a positive mantissa gives: [m1] is the mantissa cut to
    its exponent range [e1]; it is kept or, only when the last bit cut off
    is set, increased by one. *)
Lemma binary_round_aux_cases (s : bool) (m e : Z) :
  0 < m ->
  let e1 := Z.max e (fexp prec emax (Zdigits2 m + e)) in
  let m1 := m / 2 ^ (e1 - e) in
  0 <= m1 < 2 ^ 24 /\ -149 <= e1 /\
  exists m2,
    (m2 = m1 \/ (m2 = m1 + 1 /\ e < e1 /\ Z.odd (m / 2 ^ (e1 - e - 1)) = true)) /\
    binary_round_aux prec emax s m e loc_Exact =
    (if m2 =? 0 then S754_zero s
     else if m2 <? 2 ^ 24 then
            if e1 <=? 104 then S754_finite s (Z.to_pos m2) e1 else S754_infinity s
          else if e1 + 1 <=? 104 then S754_finite s 8388608 (e1 + 1) else S754_infinity s).
Proof.
  intros Hm e1 m1.
  assert (-149 <= e1) as He1 by (unfold e1; rewrite fexp_eq; lia).
  assert (0 <= e1 - e) as Hn by (unfold e1; lia).
  assert (0 <= m1 < 2 ^ 24) as Hm1.
  { unfold m1. split; [ apply Z.div_pos; [ lia | apply Z.pow_pos_nonneg; lia ] | ].
    destruct (Zdigits2_bounds m Hm) as [[_ Hhi] Hd].
    apply Z.div_lt_upper_bound; [ apply Z.pow_pos_nonneg; lia | ].
    rewrite <- Z.pow_add_r by lia.
    eapply Z.lt_le_trans; [ exact Hhi | ].
    apply Z.pow_le_mono_r; [ lia | ]. unfold e1. rewrite fexp_eq. lia. }
  split; [ exact Hm1 | ]. split; [ exact He1 | ].
  unfold binary_round_aux.
  destruct (shr_fexp_exact m e ltac:(lia)) as (H1 & H2 & H3). fold e1 in H1, H2, H3. fold m1 in H1.
  destruct (shr_fexp prec emax m e loc_Exact) as [mrs' e'] eqn:E1. cbn [fst snd] in H1, H2, H3.
  subst e'.
  pose proof (round_nearest_even_cases mrs') as Hr. cbv zeta in Hr.
  set (m2 := round_nearest_even (shr_m mrs') (loc_of_shr_record mrs')) in *.
  exists m2. split.
  { rewrite H1 in Hr. destruct Hr as [Hr | [Hr Hb]]; [ left; exact Hr | right ].
    split; [ exact Hr | ]. apply H3, Hb. }
  assert (0 <= m2 <= 2 ^ 24) as Hm2 by (rewrite H1 in Hr; lia).
  destruct (Z.ltb_spec m2 (2 ^ 24)) as [Hlt | Hge].
  - rewrite (shr_fexp_fits m2 e1 ltac:(lia) He1). cbn [shr_m].
    destruct (Z.eqb_spec m2 0) as [-> | Hne]; [ reflexivity | ].
    destruct m2 as [ | p | p]; [ lia | | lia ]. reflexivity.
  - assert (m2 = 2 ^ 24) as -> by lia.
    change (2 ^ 24 =? 0) with false. cbv iota.
    unfold shr_fexp. change (Zdigits2 (2 ^ 24)) with 25. rewrite fexp_eq.
    replace (Z.max (25 + e1 - 24) (-149) - e1) with 1 by lia.
    cbn. reflexivity.
Qed.

(** Rounding a mantissa of value at most [2^26 + 1] gives at most [2^26]:
    at [2^26] the excess is under half a unit in the last place. *)
Lemma round_aux_low (m e : Z) :
  0 < m -> e <= 3 -> m <= 2 ^ (26 - e) + 2 ^ (- e) ->
  low (binary_round_aux prec emax false m e loc_Exact) = true.
Proof.
  intros Hm He Hb.
  destruct (binary_round_aux_cases false m e Hm) as (Hm1 & He1 & m2 & Hm2 & ->).
  set (e1 := Z.max e (fexp prec emax (Zdigits2 m + e))) in *.
  set (m1 := m / 2 ^ (e1 - e)) in *.
  assert (0 < 2 ^ (26 - e)) as Hp26 by (apply Z.pow_pos_nonneg; lia).
  assert (2 ^ (- e) <= 2 ^ (23 - e)) as Hsmall.
  { destruct (Z_lt_le_dec (- e) 0); [ rewrite Z.pow_neg_r by lia; apply Z.pow_nonneg; lia | ].
    apply Z.pow_le_mono_r; lia. }
  assert (2 ^ (26 - e) = 8 * 2 ^ (23 - e)) as E26.
  { replace (26 - e) with (3 + (23 - e)) by lia. rewrite Z.pow_add_r by lia. reflexivity. }
  assert (e1 <= 3) as He13.
  { unfold e1. rewrite fexp_eq.
    destruct (Zdigits2_bounds m Hm) as [[Hlo _] Hd].
    assert (Zdigits2 m - 1 < 27 - e); [ | lia ].
    apply (Z.pow_lt_mono_r_iff 2); [ lia | lia | ].
    replace (27 - e) with (4 + (23 - e)) by lia. rewrite Z.pow_add_r by lia.
    change (2 ^ 4) with 16. lia. }
  assert (m2 <= 2 ^ 24) as Hm224 by lia.
  assert (e1 = 3 -> m2 <= 2 ^ 23) as Htop.
  { intros E3.
    assert (0 <= 3 - e) as Hk by lia.
    destruct (Z.eq_dec e 3) as [-> | Hne].
    - assert (m2 = m1) as -> by lia.
      unfold m1. rewrite E3. change (2 ^ (3 - 3)) with 1. rewrite Z.div_1_r.
      change (2 ^ (-3)) with 0 in Hb. lia.
    - set (k := 3 - e) in *. assert (1 <= k) as Hk1 by lia.
      assert (2 ^ (26 - e) = 2 ^ 23 * 2 ^ k) as E1
        by (rewrite <- Z.pow_add_r by lia; f_equal; lia).
      assert (2 ^ k = 2 * 2 ^ (k - 1)) as E2
        by (rewrite <- Z.pow_succ_r by lia; f_equal; lia).
      assert (0 < 2 ^ (k - 1)) as Hpk by (apply Z.pow_pos_nonneg; lia).
      assert (4 * 2 ^ (- e) <= 2 ^ (k - 1)) as Hs2.
      { destruct (Z_lt_le_dec (- e) 0); [ rewrite Z.pow_neg_r by lia; lia | ].
        replace (k - 1) with (2 + (- e)) by lia. rewrite Z.pow_add_r by lia. lia. }
      assert (m1 <= 2 ^ 23) as Hm1b.
      { unfold m1. rewrite E3. fold k.
        apply Z.lt_succ_r. apply Z.div_lt_upper_bound; lia. }
      destruct Hm2 as [-> | (-> & _ & Hodd)]; [ exact Hm1b | ].
      destruct (Z.eq_dec m1 (2 ^ 23)) as [Heq | Hneq]; [ exfalso | lia ].
      rewrite E3 in Hodd. replace (3 - e - 1) with (k - 1) in Hodd by lia.
      assert (m / 2 ^ (k - 1) = 2 ^ 24) as Hq.
      { symmetry. apply (Z.div_unique_pos m (2 ^ (k - 1)) (2 ^ 24) (m - 2 ^ 24 * 2 ^ (k - 1))); [ | lia ].
        assert (2 ^ 23 * 2 ^ k <= m).
        { unfold m1 in Heq. rewrite E3 in Heq. fold k in Heq.
          pose proof (Z.mul_div_le m (2 ^ k) ltac:(lia)). rewrite Heq in H. lia. }
        change (2 ^ 24) with (2 * 2 ^ 23). lia. }
      rewrite Hq in Hodd. discriminate. }
  destruct (Z.eqb_spec m2 0) as [ | Hne]; [ reflexivity | ].
  destruct (Z.ltb_spec m2 (2 ^ 24)) as [Hlt | Hge].
  - replace (e1 <=? 104) with true by (symmetry; apply Z.leb_le; lia).
    cbn [low]. rewrite Z2Pos.id by lia.
    apply andb_true_intro. split; [ apply Z.leb_le; lia | apply Z.leb_le ].
    destruct (Z.eq_dec e1 3) as [E3 | Hne3].
    + rewrite E3. change (2 ^ (26 - 3)) with (2 ^ 23). apply Htop, E3.
    + eapply Z.le_trans; [ exact Hm224 | ]. apply Z.pow_le_mono_r; lia.
  - assert (e1 <= 2) as He2.
    { destruct (Z.eq_dec e1 3) as [E3 | ]; [ | lia ]. specialize (Htop E3).
      change (2 ^ 23) with 8388608 in Htop. change (2 ^ 24) with 16777216 in Hge. lia. }
    replace (e1 + 1 <=? 104) with true by (symmetry; apply Z.leb_le; lia).
    cbn [low].
    apply andb_true_intro. split; [ apply Z.leb_le; lia | apply Z.leb_le ].
    change (Z.pos 8388608) with (2 ^ 23). apply Z.pow_le_mono_r; lia.
Qed.

(** Appending [d] zero bits multiplies by [2^d]. *)
Lemma iter_xO (m d : positive) : Z.pos (Pos.iter xO m d) = Z.pos m * 2 ^ Z.pos d.
Proof.
  induction d as [ | d IH] using Pos.peano_ind.
  - simpl. lia.
  - rewrite Pos.iter_succ, Pos2Z.inj_xO, IH, Pos2Z.inj_succ, Z.pow_succ_r by lia. lia.
Qed.

(** Aligning a mantissa to a lower exponent keeps the value. *)
Lemma shl_align_spec (m : positive) (e e' : Z) :
  let r := shl_align m e e' in
  snd r = Z.min e e' /\ Z.pos (fst r) = Z.pos m * 2 ^ (e - snd r).
Proof.
  unfold shl_align. destruct (e' - e) as [ | d | d] eqn:E; cbn [fst snd].
  - split; [ lia | ]. rewrite Z.sub_diag. lia.
  - split; [ lia | ]. rewrite Z.sub_diag. lia.
  - split; [ lia | ]. rewrite iter_xO. f_equal. f_equal. lia.
Qed.

(** Rounding a negative mantissa gives no positive value. *)
Lemma round_aux_negative_low (m e : Z) :
  0 < m -> low (binary_round_aux prec emax true m e loc_Exact) = true.
Proof.
  intros Hm.
  destruct (binary_round_aux_cases true m e Hm) as (_ & _ & m2 & _ & ->).
  destruct (m2 =? 0); [ reflexivity | ].
  destruct (m2 <? 2 ^ 24);
    match goal with |- context [if ?c then _ else _] => destruct c end; reflexivity.
Qed.

(** Normalizing a mantissa of value at most [2^26 + 1] gives a value of at
    most [2^26]: the excess is under half a unit in the last place. *)
Lemma binary_normalize_low (m e : Z) :
  (0 < m -> e <= 26 /\ m <= 2 ^ (26 - e) + 2 ^ (- e)) ->
  low (binary_normalize prec emax m e false) = true.
Proof.
  intros Hb. unfold binary_normalize.
  destruct m as [ | p | p]; [ reflexivity | | ]; unfold binary_round;
    pose proof (shl_align_spec p e (fexp prec emax (Z.pos (digits2_pos p) + e))) as Hs;
    cbv zeta in Hs;
    destruct (shl_align p e (fexp prec emax (Z.pos (digits2_pos p) + e))) as [mz ez];
    cbn [fst snd] in Hs; destruct Hs as [Hez Hmz].
  - destruct (Hb ltac:(lia)) as [He Hp].
    assert (0 <= e - ez) as Hk by lia.
    assert (0 < 2 ^ (e - ez)) as Hpk by (apply Z.pow_pos_nonneg; lia).
    apply round_aux_low; [ lia | | ].
    + rewrite Hez, fexp_eq.
      destruct (Zdigits2_bounds (Z.pos p) ltac:(lia)) as [[Hlo _] Hd].
      change (Zdigits2 (Z.pos p)) with (Z.pos (digits2_pos p)) in Hlo, Hd.
      assert (Z.pos (digits2_pos p) - 1 < 27 - e); [ | lia ].
      apply (Z.pow_lt_mono_r_iff 2); [ lia | lia | ].
      assert (0 < 2 ^ (26 - e)) by (apply Z.pow_pos_nonneg; lia).
      assert (2 ^ (- e) < 2 ^ (26 - e)).
      { destruct (Z_lt_le_dec (- e) 0); [ rewrite Z.pow_neg_r by lia; lia | ].
        apply Z.pow_lt_mono_r; lia. }
      replace (27 - e) with (Z.succ (26 - e)) by lia. rewrite Z.pow_succ_r by lia. lia.
    + rewrite Hmz.
      replace (26 - ez) with ((26 - e) + (e - ez)) by lia. rewrite Z.pow_add_r by lia.
      assert (2 ^ (- e) * 2 ^ (e - ez) <= 2 ^ (- ez)).
      { destruct (Z_lt_le_dec (- e) 0); [ rewrite Z.pow_neg_r by lia; simpl; apply Z.pow_nonneg; lia | ].
        rewrite <- Z.pow_add_r by lia. replace (- e + (e - ez)) with (- ez) by lia. lia. }
      nia.
  - apply round_aux_negative_low. lia.
Qed.

(** A finite product has a mantissa of at most 24 digits. *)
Lemma mul_mantissa (a b : float32) (s : bool) (m : positive) (e : Z) :
  mul a b = S754_finite s m e -> Z.pos m < 2 ^ 24.
Proof.
  unfold mul, SFmul.
  destruct a as [sa | sa | | sa ma ea], b as [sb | sb | | sb mb eb]; try discriminate.
  destruct (binary_round_aux_cases (xorb sa sb) (Z.pos (ma * mb)) (ea + eb) ltac:(lia))
    as (Hm1 & _ & m2 & Hm2 & ->).
  destruct (Z.eqb_spec m2 0); [ discriminate | ].
  destruct (Z.ltb_spec m2 (2 ^ 24)).
  - destruct (_ <=? 104); [ | discriminate ]. intros [= _ <- _]. rewrite Z2Pos.id; lia.
  - destruct (_ <=? 104); [ | discriminate ]. intros [= _ <- _]. reflexivity.
Qed.

(** A product that compares at least -1 is a number, not [-Inf], and of
    magnitude at most 1 when negative. *)
Lemma mul_at_least_minus_one (a b : float32) :
  leb minus_one (mul a b) = true -> at_least_minus_one (mul a b).
Proof.
  intros Hle. pose proof (mul_mantissa a b) as Hm.
  destruct (mul a b) as [s | s | | s m e]; cbn [at_least_minus_one].
  - exact I.
  - destruct s; [ discriminate | reflexivity ].
  - discriminate.
  - destruct s; [ | exact I ]. specialize (Hm true m e eq_refl).
    unfold leb, SFleb, minus_one in Hle. cbn [SFcompare] in Hle.
    destruct (Z.compare_spec (-23) e) as [Heq | Hlt | Hgt].
    + subst e. split; [ lia | ]. change (2 ^ (- -23)) with 8388608.
      rewrite Pos.compare_cont_spec in Hle. cbn [Pos.switch_Eq] in Hle.
      destruct (Pos.compare_spec 8388608 m) as [Heq | Hl | Hg]; try discriminate; lia.
    + discriminate.
    + split; [ lia | ]. eapply Z.le_trans; [ apply Z.lt_le_incl, Hm | ].
      apply Z.pow_le_mono_r; lia.
Qed.

(** One step of the second measure's loop keeps the accumulated entropy
    low. *)
Lemma sub_low (ent t : float32) :
  low ent = true -> at_least_minus_one t -> low (sub ent t) = true.
Proof.
  unfold sub, SFsub.
  destruct ent as [sx | sx | | sx mx ex], t as [st | st | | st mt et];
    cbn [low at_least_minus_one]; intros Hent Ht;
    try discriminate; try contradiction; try (subst; reflexivity);
    try (destruct sx, st; reflexivity).
  - (* 0 - t *)
    destruct st; cbn [negb low]; [ | reflexivity ].
    destruct Ht as [He Hm]. apply andb_true_intro.
    split; [ apply Z.leb_le; lia | apply Z.leb_le ].
    eapply Z.le_trans; [ exact Hm | ]. apply Z.pow_le_mono_r; lia.
  - (* ent - 0 *)
    destruct sx; exact Hent.
  - (* finite - finite *)
    apply binary_normalize_low. intros Hpos.
    pose proof (shl_align_spec mx ex (Z.min ex et)) as [Hx1 Hx2].
    pose proof (shl_align_spec mt et (Z.min ex et)) as [Ht1 Ht2].
    rewrite Hx1 in Hx2. rewrite Ht1 in Ht2.
    replace (Z.min ex (Z.min ex et)) with (Z.min ex et) in Hx2 by lia.
    replace (Z.min et (Z.min ex et)) with (Z.min ex et) in Ht2 by lia.
    rewrite Hx2, Ht2 in Hpos |- *.
    set (ez := Z.min ex et) in *.
    assert (0 < 2 ^ (ex - ez)) as Hpx by (apply Z.pow_pos_nonneg; lia).
    assert (0 < 2 ^ (et - ez)) as Hpt by (apply Z.pow_pos_nonneg; lia).
    assert (0 <= 2 ^ (- ez)) as Hpz by (apply Z.pow_nonneg; lia).
    assert (0 <= 2 ^ (26 - ez)) as Hp26 by (apply Z.pow_nonneg; lia).
    assert (sx = false -> ex <= 26 /\ Z.pos mx * 2 ^ (ex - ez) <= 2 ^ (26 - ez)) as HX.
    { intros ->. apply andb_prop in Hent as [He Hm].
      apply Z.leb_le in He. apply Z.leb_le in Hm. split; [ exact He | ].
      replace (26 - ez) with ((26 - ex) + (ex - ez)) by lia.
      rewrite Z.pow_add_r by lia. nia. }
    assert (st = true -> et <= -23 /\ Z.pos mt * 2 ^ (et - ez) <= 2 ^ (- ez)) as HT.
    { intros ->. destruct Ht as [He Hm]. split; [ exact He | ].
      replace (- ez) with ((- et) + (et - ez)) by lia.
      rewrite Z.pow_add_r by lia. nia. }
    destruct sx, st; cbn [cond_Zopp] in Hpos |- *.
    + destruct (HT eq_refl) as [He Hm]. split; [ lia | lia ].
    + lia.
    + destruct (HX eq_refl) as [He Hm]. destruct (HT eq_refl) as [He' Hm'].
      split; [ lia | lia ].
    + destruct (HX eq_refl) as [He Hm]. split; [ lia | lia ].
Qed.

End Magnitude.

(* ===================================================================== *)
(** * The entropy multiplier *)
(* ===================================================================== *)

Section EntropyProofs.

Context `{Collaborators}.

Lemma fold_left_pair (vals : list float32) (a b : float32) :
  fold_left (fun '(maxAct, ent) v => (Max maxAct v, add ent v)) vals (a, b) =
  (fold_left Max vals a, fold_left add vals b).
Proof.
  revert a b. induction vals as [ | v vals IH]; intros a b; simpl.
  - reflexivity.
  - apply IH.
Qed.

(** The one loop of the code computes the largest activation and the sum. *)
Lemma HiddenLoop_max_sum (vals : list float32) :
  HiddenLoop vals = (max_act vals, sum_act vals).
Proof. apply fold_left_pair. Qed.

Lemma EntropyHidden_spec (vals : list float32) :
  EntropyHidden vals = spec_population_sum vals.
Proof.
  unfold EntropyHidden, spec_population_sum. rewrite HiddenLoop_max_sum.
  destruct (ltb (max_act vals) c0_02); simpl.
  - reflexivity.
  - apply code_clamp_is_clamp.
Qed.

Lemma fold_left_over_map {A B C} (g : A -> B -> A) (f : C -> B) (l : list C) (a : A) :
  fold_left g (List.map f l) a = fold_left (fun a x => g a (f x)) l a.
Proof.
  revert a. induction l as [ | x l IH]; intros a; simpl; [ reflexivity | apply IH ].
Qed.

(** The code's second loop computes the entropy of the normalized
    activations. *)
Lemma GPiThalLoop_shannon (vals : list float32) : GPiThalLoop vals = shannon vals.
Proof.
  unfold GPiThalLoop, shannon, TotalActivation, neg_plogp_sum, normalize.
  fold (sum_act vals).
  destruct (gtb (sum_act vals) zero); [ | reflexivity ].
  rewrite fold_left_over_map. reflexivity.
Qed.

Lemma EntropyGPiThal_spec (vals : list float32) :
  EntropyGPiThal vals = shannon_over_2_77 vals.
Proof.
  unfold EntropyGPiThal, shannon_over_2_77. rewrite GPiThalLoop_shannon.
  apply code_clamp_is_clamp.
Qed.

(** [CalcEntropy] with modulation on: the measure of the selected layer's
    [AvgM] values, after one read of the layer and one printed line. *)
Lemma CalcEntropy_modulated (ss : Sim) (ly : Layer) :
  ModLearnRate ss = true ->
  LayerByName (measured_layer (EntropyMeasureType ss)) (Net ss) = Some ly ->
  let ent := if EntropyMeasureType ss then EntropyHidden (AvgM ly)
             else EntropyGPiThal (AvgM ly) in
  CalcEntropy ss =
  Some (ent, with_effects
               [EvUnitValues (measured_layer (EntropyMeasureType ss)) "AvgM"; EvPrintEnt ent] ss).
Proof.
  intros Hmod Hly. unfold CalcEntropy, bind, get. rewrite Hmod. simpl.
  destruct (EntropyMeasureType ss) eqn:Hm; simpl in Hly |- *;
    unfold UnitValues_AvgM, layer, bind, get, deref; rewrite Hly; simpl;
    unfold with_effects, set_Trace; simpl; rewrite <- app_assoc; reflexivity.
Qed.

(** A layer missing from the network makes [CalcEntropy] panic. *)
Lemma CalcEntropy_panics (ss : Sim) :
  ModLearnRate ss = true ->
  LayerByName (measured_layer (EntropyMeasureType ss)) (Net ss) = None ->
  CalcEntropy ss = None.
Proof.
  intros Hmod Hly. unfold CalcEntropy, bind, get. rewrite Hmod. simpl.
  destruct (EntropyMeasureType ss); simpl in Hly |- *;
    unfold UnitValues_AvgM, layer, bind, get, deref; rewrite Hly; reflexivity.
Qed.

(** ** Without modulation *)

(** C8. With learning-rate modulation off ([ModLearnRate] false),
    [CalcEntropy] returns exactly 1.0 in every state, whichever measure is
    selected, and leaves the simulation as it was: no layer is read (the
    trace of requests is unchanged) and nothing is printed. *)
Theorem CalcEntropy_unmodulated (ss : Sim) :
  ModLearnRate ss = false -> CalcEntropy ss = Some (one, ss).
Proof.
  intros Hmod. unfold CalcEntropy, bind, get. rewrite Hmod. reflexivity.
Qed.

(** ** Variant A *)

(** C6. With the population-sum measure selected and modulation on, the
    multiplier is the sum of the Hidden layer's per-unit [AvgM] values
    divided by 10 and clamped into [0.25, 4.0], but 4.0 whenever the largest
    unit activation is below 0.02; the layer is read once and the value
    printed. *)
Theorem CalcEntropy_population_sum (ss : Sim) (hid : Layer) :
  ModLearnRate ss = true ->
  EntropyMeasureType ss = true ->
  LayerByName "Hidden" (Net ss) = Some hid ->
  CalcEntropy ss =
  Some (spec_population_sum (AvgM hid),
        with_effects [EvUnitValues "Hidden" "AvgM";
                      EvPrintEnt (spec_population_sum (AvgM hid))] ss).
Proof.
  intros Hmod Hm Hly.
  pose proof (CalcEntropy_modulated ss hid Hmod) as E.
  rewrite Hm in E. simpl in E. rewrite (E Hly), EntropyHidden_spec. reflexivity.
Qed.

(** ** Variant B *)

(** C7, as the code has it. With the Shannon measure selected and modulation
    on, the multiplier is the entropy [-Σ p·log(p)] of the GPiThal layer's
    normalized [AvgM] values (units of zero probability skipped, 0 when the
    total is not positive) divided by the constant 2.77, whatever the layer's
    unit count, then clamped into [0.25, 4.0]. *)
Theorem CalcEntropy_shannon (ss : Sim) (gpi : Layer) :
  ModLearnRate ss = true ->
  EntropyMeasureType ss = false ->
  LayerByName "GPiThal" (Net ss) = Some gpi ->
  CalcEntropy ss =
  Some (shannon_over_2_77 (AvgM gpi),
        with_effects [EvUnitValues "GPiThal" "AvgM";
                      EvPrintEnt (shannon_over_2_77 (AvgM gpi))] ss).
Proof.
  intros Hmod Hm Hly.
  pose proof (CalcEntropy_modulated ss gpi Hmod) as E.
  rewrite Hm in E. simpl in E. rewrite (E Hly), EntropyGPiThal_spec. reflexivity.
Qed.

End EntropyProofs.

Section EntropyRange.

Context `{Collaborators}.

Lemma EntropyHidden_raw (vals : list float32) :
  EntropyHidden vals =
  if ltb (max_act vals) c0_02 then c4 else code_clamp (raw_entropy true vals).
Proof.
  unfold EntropyHidden. rewrite HiddenLoop_max_sum.
  destruct (ltb (max_act vals) c0_02); reflexivity.
Qed.

Lemma EntropyGPiThal_raw (vals : list float32) :
  EntropyGPiThal vals = code_clamp (raw_entropy false vals).
Proof.
  unfold EntropyGPiThal. rewrite GPiThalLoop_shannon. reflexivity.
Qed.

(** Either measure is in [0.25, 4] exactly when it is a number, and it is NaN
    only when the entropy before the clamp is. *)
Lemma measure_range (measure : bool) (vals : list float32) :
  let r := if measure then EntropyHidden vals else EntropyGPiThal vals in
  in_range c0_25 c4 r = negb (is_nan r) /\
  (is_nan r = true -> is_nan (raw_entropy measure vals) = true).
Proof.
  destruct measure; simpl.
  - rewrite EntropyHidden_raw.
    destruct (ltb (max_act vals) c0_02).
    + split; [ reflexivity | discriminate ].
    + destruct (code_clamp_range (raw_entropy true vals)) as [Hr Hn].
      rewrite Hr, Hn. split; [ reflexivity | auto ].
  - rewrite EntropyGPiThal_raw.
    destruct (code_clamp_range (raw_entropy false vals)) as [Hr Hn].
    rewrite Hr, Hn. split; [ reflexivity | auto ].
Qed.

(** The all-zero vector: its sum and its largest value are 0. *)
Lemma all_zero_sum_max (vals : list float32) :
  Forall (fun v => v = zero) vals -> sum_act vals = zero /\ max_act vals = zero.
Proof.
  unfold sum_act, max_act. induction 1 as [ | v vals -> _ IH]; simpl.
  - split; reflexivity.
  - exact IH.
Qed.

Lemma all_zero_measure (measure : bool) (vals : list float32) :
  Forall (fun v => v = zero) vals ->
  (if measure then EntropyHidden vals else EntropyGPiThal vals) =
  (if measure then c4 else c0_25).
Proof.
  intros Hz. destruct (all_zero_sum_max vals Hz) as [Hs Hm]. destruct measure.
  - rewrite EntropyHidden_raw, Hm. reflexivity.
  - rewrite EntropyGPiThal_raw. unfold raw_entropy, shannon. rewrite Hs. reflexivity.
Qed.

(** Under the population-sum measure, finite activations give a multiplier
    in [0.25, 4]. *)
Lemma finite_hidden_in_range (vals : list float32) :
  Forall (fun v => is_finite v = true) vals ->
  in_range c0_25 c4 (EntropyHidden vals) = true.
Proof.
  intros Hfin. rewrite EntropyHidden_raw.
  destruct (ltb (max_act vals) c0_02); [ reflexivity | ].
  destruct (code_clamp_range (raw_entropy true vals)) as [-> _].
  unfold raw_entropy, sum_act.
  rewrite (div_c10_not_nan _ (sum_not_nan vals zero eq_refl Hfin)). reflexivity.
Qed.

(** ** The second measure never leaves the range *)

Lemma GPiThalLoop_low (vals : list float32) :
  Log_bounded -> low (GPiThalLoop vals) = true.
Proof.
  intros HLog. unfold GPiThalLoop.
  destruct (gtb (TotalActivation vals) zero); [ | reflexivity ].
  generalize (TotalActivation vals). intros total.
  assert (forall acc, low acc = true ->
          low (fold_left (fun ent val =>
                            let prob := div val total in
                            if gtb prob zero then sub ent (mul prob (Log prob)) else ent)
                         vals acc) = true) as Hloop; [ | apply Hloop; reflexivity ].
  induction vals as [ | v vals IH]; intros acc Hacc; cbn [fold_left]; [ exact Hacc | ].
  apply IH. cbv zeta.
  destruct (gtb (div v total) zero) eqn:Hp; [ | exact Hacc ].
  apply sub_low; [ exact Hacc | ].
  apply mul_at_least_minus_one, HLog, Hp.
Qed.

Lemma div_c2_77_not_nan (x : float32) : is_nan x = false -> is_nan (div x c2_77) = false.
Proof.
  unfold c2_77, div, SFdiv.
  destruct x as [sx | sx | | sx mx ex]; simpl; intros Hx; try discriminate;
    try reflexivity.
  unfold SFdiv_core_binary.
  match goal with
  | |- context [Z.div_eucl ?a ?b] =>
      pose proof (Z.div_pos a b) as Hq; unfold Z.div in Hq;
      assert (0 <= a) as Ha;
      [ | destruct (Z.div_eucl a b) as [q r]; apply binary_round_aux_not_nan;
          apply Hq; [ exact Ha | lia ] ]
  end.
  match goal with
  | |- 0 <= match ?s with _ => _ end => destruct s
  end; [ lia | apply Z.shiftl_nonneg; lia | lia ].
Qed.

Lemma low_not_nan (x : float32) : low x = true -> is_nan x = false.
Proof. destruct x; simpl; congruence. Qed.

(** Under the second measure the multiplier is in [0.25, 4] for every
    vector of activations. *)
Lemma EntropyGPiThal_in_range (vals : list float32) :
  Log_bounded -> in_range c0_25 c4 (EntropyGPiThal vals) = true.
Proof.
  intros HLog. unfold EntropyGPiThal. fold (code_clamp (div (GPiThalLoop vals) c2_77)).
  destruct (code_clamp_range (div (GPiThalLoop vals) c2_77)) as [-> _].
  rewrite (div_c2_77_not_nan _ (low_not_nan _ (GPiThalLoop_low vals HLog))). reflexivity.
Qed.

(** C2, as the code has it. Whenever the layer of the selected measure
    exists, [CalcEntropy] returns a multiplier that lies in the closed
    interval [0.25, 4.0] exactly when it is a number: the two comparisons of
    the clamp are false on NaN and let it through. The multiplier is NaN only
    with modulation on and an entropy that is NaN before the clamp. It is in
    [0.25, 4.0] under the population-sum measure whenever every activation is
    finite, under either measure for the all-zero vector, and under the
    Shannon measure for every vector of activations whatever (so for the
    all-equal-positive vector under either measure), [math32.Log] having the
    bound of the logarithm, [p * Log p >= -1] for positive [p]: there a NaN
    or non-positive total or share is skipped by [> 0], and the entropy
    accumulated stays a number. *)
Theorem CalcEntropy_range_unless_nan (ss : Sim) (ly : Layer) :
  LayerByName (measured_layer (EntropyMeasureType ss)) (Net ss) = Some ly ->
  exists r ss',
    CalcEntropy ss = Some (r, ss') /\
    in_range c0_25 c4 r = negb (is_nan r) /\
    (is_nan r = true ->
     ModLearnRate ss = true /\
     is_nan (raw_entropy (EntropyMeasureType ss) (AvgM ly)) = true) /\
    (EntropyMeasureType ss = true ->
     Forall (fun v => is_finite v = true) (AvgM ly) ->
     in_range c0_25 c4 r = true) /\
    (Forall (fun v => v = zero) (AvgM ly) -> in_range c0_25 c4 r = true) /\
    (Log_bounded -> EntropyMeasureType ss = false -> in_range c0_25 c4 r = true).
Proof.
  intros Hly. destruct (ModLearnRate ss) eqn:Hmod.
  - pose proof (CalcEntropy_modulated ss ly Hmod Hly) as E. cbv zeta in E.
    eexists; eexists. split; [ exact E | ].
    destruct (measure_range (EntropyMeasureType ss) (AvgM ly)) as [Hr Hn].
    split; [ exact Hr | ]. split; [ | split; [ | split ] ].
    + intros Hnan. split; [ reflexivity | exact (Hn Hnan) ].
    + intros Hm Hfin. rewrite Hm. apply finite_hidden_in_range, Hfin.
    + intros Hz. rewrite (all_zero_measure _ _ Hz).
      destruct (EntropyMeasureType ss); reflexivity.
    + intros HLog Hm. rewrite Hm. apply EntropyGPiThal_in_range, HLog.
  - exists one, ss. split; [ apply CalcEntropy_unmodulated; exact Hmod | ].
    split; [ reflexivity | ]. split; [ discriminate | repeat split; reflexivity ].
Qed.

End EntropyRange.

(* ===================================================================== *)
(** * The entropy multiplier at the edges: NaN, silent layers, missing layers *)
(* ===================================================================== *)

Lemma add_nan_l (y : float32) : add NaN y = NaN.
Proof. reflexivity. Qed.

Lemma add_nan_r (x : float32) : add x NaN = NaN.
Proof. destruct x; reflexivity. Qed.

Lemma sum_from_nan (vals : list float32) : fold_left add vals NaN = NaN.
Proof.
  induction vals as [ | v vals IH]; cbn [fold_left]; [ reflexivity | ].
  rewrite add_nan_l. exact IH.
Qed.

(** A NaN anywhere in a sum makes the sum NaN. *)
Lemma sum_with_nan (vals : list float32) (a : float32) :
  In NaN vals -> fold_left add vals a = NaN.
Proof.
  revert a. induction vals as [ | v vals IH]; intros a; cbn [fold_left In];
    [ intros [] | ].
  intros [-> | Hin].
  - rewrite add_nan_r. apply sum_from_nan.
  - apply IH, Hin.
Qed.

(** Once the running maximum is NaN or +Inf it stays one of the two, and it
    is one of the two right after a NaN. *)
Lemma Max_keeps_nan_or_pinf (m v : float32) :
  nan_or_pinf m -> nan_or_pinf (Max m v).
Proof.
  unfold nan_or_pinf. intros [-> | ->].
  - destruct v as [s | [ | ] | | s mv ev]; simpl; auto.
  - destruct v as [s | [ | ] | | s mv ev]; simpl; auto.
Qed.

Lemma Max_nan_r (m : float32) : nan_or_pinf (Max m NaN).
Proof.
  unfold nan_or_pinf. destruct m as [s | [ | ] | | s mm em]; simpl; auto.
Qed.

Lemma max_from_nan_or_pinf (vals : list float32) (m : float32) :
  nan_or_pinf m -> nan_or_pinf (fold_left Max vals m).
Proof.
  revert m. induction vals as [ | v vals IH]; intros m Hm; cbn [fold_left];
    [ exact Hm | ].
  apply IH, Max_keeps_nan_or_pinf, Hm.
Qed.

Lemma max_with_nan (vals : list float32) (m : float32) :
  In NaN vals -> nan_or_pinf (fold_left Max vals m).
Proof.
  revert m. induction vals as [ | v vals IH]; intros m; cbn [fold_left In];
    [ intros [] | ].
  intros [-> | Hin].
  - apply max_from_nan_or_pinf, Max_nan_r.
  - apply IH, Hin.
Qed.

(** +Inf and NaN are under nothing. *)
Lemma nan_or_pinf_not_lt (x c : float32) : nan_or_pinf x -> ltb x c = false.
Proof.
  intros [-> | ->]; [ reflexivity | ]. destruct c as [s | [ | ] | | s mc ec]; reflexivity.
Qed.

(** The larger of two values under [c] is under [c]. *)
Lemma Max_lt (x y c : float32) :
  ltb x c = true -> ltb y c = true -> ltb (Max x y) c = true.
Proof.
  intros Hx Hy.
  assert (x <> S754_infinity false) as Hxi
    by (intros ->; rewrite nan_or_pinf_not_lt in Hx; [ discriminate | right; reflexivity ]).
  assert (y <> S754_infinity false) as Hyi
    by (intros ->; rewrite nan_or_pinf_not_lt in Hy; [ discriminate | right; reflexivity ]).
  destruct (ltb_true_not_nan _ _ Hx) as [Hxn _].
  destruct (ltb_true_not_nan _ _ Hy) as [Hyn _].
  assert (Max x y = x \/ Max x y = y) as [-> | ->]; try assumption.
  destruct x as [sx | [ | ] | | sx mx ex]; try discriminate; try congruence;
    destruct y as [sy | [ | ] | | sy my ey]; try discriminate; try congruence;
    unfold Max;
    try (destruct sx; auto; fail);
    match goal with
    | |- context [gtb ?a ?b] => destruct (gtb a b); auto
    end.
Qed.

Lemma max_act_lt (vals : list float32) (m c : float32) :
  ltb m c = true ->
  Forall (fun v => ltb v c = true) vals ->
  ltb (fold_left Max vals m) c = true.
Proof.
  intros Hm Hv. revert m Hm.
  induction Hv as [ | v vals Hlt _ IH]; intros m Hm; cbn [fold_left].
  - exact Hm.
  - apply IH, Max_lt; assumption.
Qed.

Section EntropyEdges.

Context `{Collaborators}.

(** Under the population-sum measure a NaN among the activations is the
    result: the sum is NaN, the running maximum is NaN or +Inf, and none of
    the three comparisons of the clamp holds. *)
Lemma EntropyHidden_nan (vals : list float32) : In NaN vals -> EntropyHidden vals = NaN.
Proof.
  intros Hin. unfold EntropyHidden. rewrite HiddenLoop_max_sum.
  unfold sum_act. rewrite (sum_with_nan vals zero Hin).
  unfold max_act. rewrite (nan_or_pinf_not_lt _ c0_02 (max_with_nan vals zero Hin)).
  reflexivity.
Qed.

(** Under the Shannon measure a total that is not positive gives 0.25, and a
    NaN among the activations makes the total NaN, which is not positive. *)
Lemma EntropyGPiThal_no_total (vals : list float32) :
  In NaN vals \/ gtb (TotalActivation vals) zero = false ->
  EntropyGPiThal vals = c0_25.
Proof.
  intros Hv.
  assert (gtb (TotalActivation vals) zero = false) as Ht.
  { destruct Hv as [Hin | Ht]; [ | exact Ht ].
    unfold TotalActivation. rewrite (sum_with_nan vals zero Hin). reflexivity. }
  unfold EntropyGPiThal, GPiThalLoop. rewrite Ht. reflexivity.
Qed.

(** Under the population-sum measure, units that are all under 0.02 give 4. *)
Lemma EntropyHidden_quiet (vals : list float32) :
  Forall (fun v => ltb v c0_02 = true) vals -> EntropyHidden vals = c4.
Proof.
  intros Hq. unfold EntropyHidden. rewrite HiddenLoop_max_sum.
  unfold max_act. rewrite (max_act_lt vals zero c0_02 eq_refl Hq). reflexivity.
Qed.

(** In Variant A a NaN among the Hidden layer's activations comes out as the
    multiplier: with modulation on and the population-sum measure selected,
    [CalcEntropy] returns NaN (and prints it) whenever some unit's [AvgM] is
    NaN, whatever the other units hold. *)
Theorem CalcEntropy_population_sum_nan (ss : Sim) (hid : Layer) :
  ModLearnRate ss = true ->
  EntropyMeasureType ss = true ->
  LayerByName "Hidden" (Net ss) = Some hid ->
  In NaN (AvgM hid) ->
  CalcEntropy ss =
  Some (NaN, with_effects [EvUnitValues "Hidden" "AvgM"; EvPrintEnt NaN] ss).
Proof.
  intros Hmod Hm Hly Hin.
  pose proof (CalcEntropy_modulated ss hid Hmod) as E.
  rewrite Hm in E. simpl in E. rewrite (E Hly), (EntropyHidden_nan _ Hin). reflexivity.
Qed.

(** In Variant B the multiplier is exactly 0.25 whenever the total activation
    of the GPiThal layer is not positive (a layer without units, all units at
    zero, a negative total) and whenever some unit's [AvgM] is NaN: the NaN
    makes the total NaN, the test [totalActivation > 0] fails, and the
    entropy stays 0. *)
Theorem CalcEntropy_shannon_no_total (ss : Sim) (gpi : Layer) :
  ModLearnRate ss = true ->
  EntropyMeasureType ss = false ->
  LayerByName "GPiThal" (Net ss) = Some gpi ->
  In NaN (AvgM gpi) \/ gtb (TotalActivation (AvgM gpi)) zero = false ->
  CalcEntropy ss =
  Some (c0_25, with_effects [EvUnitValues "GPiThal" "AvgM"; EvPrintEnt c0_25] ss).
Proof.
  intros Hmod Hm Hly Hv.
  pose proof (CalcEntropy_modulated ss gpi Hmod) as E.
  rewrite Hm in E. simpl in E. rewrite (E Hly), (EntropyGPiThal_no_total _ Hv). reflexivity.
Qed.

(** In Variant A the multiplier is exactly 4.0 whenever every Hidden unit's
    [AvgM] is under 0.02 (negative values included, and a layer without
    units), however many units there are and whatever they sum to. *)
Theorem CalcEntropy_population_sum_quiet (ss : Sim) (hid : Layer) :
  ModLearnRate ss = true ->
  EntropyMeasureType ss = true ->
  LayerByName "Hidden" (Net ss) = Some hid ->
  Forall (fun v => ltb v c0_02 = true) (AvgM hid) ->
  CalcEntropy ss =
  Some (c4, with_effects [EvUnitValues "Hidden" "AvgM"; EvPrintEnt c4] ss).
Proof.
  intros Hmod Hm Hly Hq.
  pose proof (CalcEntropy_modulated ss hid Hmod) as E.
  rewrite Hm in E. simpl in E. rewrite (E Hly), (EntropyHidden_quiet _ Hq). reflexivity.
Qed.

(** [CalcEntropy] only reads: when it returns, the network, the statistics,
    the environments, the loops and the configuration are as before. With
    modulation off nothing at all is requested; with modulation on the one
    layer of the selected measure is read once and the value printed is the
    value returned. *)
Theorem CalcEntropy_only_reads (ss ss' : Sim) (r : float32) :
  CalcEntropy ss = Some (r, ss') ->
  Net ss' = Net ss /\ Stats_ ss' = Stats_ ss /\ Envs_ ss' = Envs_ ss /\
  Loops ss' = Loops ss /\ Cfg ss' = Cfg ss /\ CtxMode ss' = CtxMode ss /\
  Trace ss' =
  Trace ss ++ (if ModLearnRate ss
               then [EvUnitValues (measured_layer (EntropyMeasureType ss)) "AvgM"; EvPrintEnt r]
               else []).
Proof.
  destruct (ModLearnRate ss) eqn:Hmod.
  - destruct (LayerByName (measured_layer (EntropyMeasureType ss)) (Net ss)) as [ly | ] eqn:Hly.
    + rewrite (CalcEntropy_modulated ss ly Hmod Hly). intros [= <- <-].
      repeat split; reflexivity.
    + rewrite (CalcEntropy_panics ss Hmod Hly). discriminate.
  - rewrite (CalcEntropy_unmodulated ss Hmod). intros [= <- <-].
    rewrite app_nil_r. repeat split; reflexivity.
Qed.

(** [CalcEntropy] panics (a method called on a nil layer) exactly when
    modulation is on and the network has no layer of the name the selected
    measure reads: [Hidden] for the population sum, [GPiThal] for the Shannon
    entropy. With modulation off it never panics. *)
Theorem CalcEntropy_panics_iff (ss : Sim) :
  CalcEntropy ss = None <->
  ModLearnRate ss = true /\
  LayerByName (measured_layer (EntropyMeasureType ss)) (Net ss) = None.
Proof.
  split.
  - intros Hp. destruct (ModLearnRate ss) eqn:Hmod.
    + split; [ reflexivity | ].
      destruct (LayerByName (measured_layer (EntropyMeasureType ss)) (Net ss)) as [ly | ] eqn:Hly;
        [ | reflexivity ].
      rewrite (CalcEntropy_modulated ss ly Hmod Hly) in Hp. discriminate.
    + rewrite (CalcEntropy_unmodulated ss Hmod) in Hp. discriminate.
  - intros [Hmod Hly]. apply CalcEntropy_panics; assumption.
Qed.

End EntropyEdges.

(* ===================================================================== *)
(** * Reward, inputs and the hooks of the Train Epoch loop *)
(* ===================================================================== *)

(** Go's [(cur+1) % ti == 0] on ints agrees with divisibility of the exact
    successor, also when [cur + 1] wraps around. *)
Lemma wrap64_succ_divide (cur ti : Z) :
  is_int cur -> 0 < ti ->
  (int_rem (wrap64 (cur + 1)) ti = 0 <-> (cur + 1) mod ti = 0).
Proof.
  unfold is_int, int_min, int_max, int_rem, wrap64. intros Hc Hti.
  rewrite Z.rem_divide by lia. rewrite Z.mod_divide by lia.
  destruct (Z.eq_dec cur (2 ^ 63 - 1)) as [-> | Hne].
  - replace ((2 ^ 63 - 1 + 1 + 2 ^ 63) mod 2 ^ 64 - 2 ^ 63) with (- (2 ^ 63 - 1 + 1))
      by (vm_compute; reflexivity).
    apply Z.divide_opp_r.
  - rewrite Z.mod_small by lia.
    replace (cur + 1 + 2 ^ 63 - 2 ^ 63) with (cur + 1) by lia. reflexivity.
Qed.

Section HookProofs.

Context `{Collaborators}.
Variable ResetAndRun : Modes -> M unit.

(** C1. When the action of the environment [ApplyReward] looks at (the Train
    one for [train = true], else the Test one) is neither [Recall1] nor
    [Recall2], so a Store or Ignore variant, [ApplyReward] returns with the
    simulation exactly as it was: no reward input is written to the network,
    no learning rate is adjusted, no request is made. *)
Theorem ApplyReward_only_on_recall (train : bool) (ss : Sim) :
  Act (ByMode (if train then Train else Test) (Envs_ ss)) <> Recall1 ->
  Act (ByMode (if train then Train else Test) (Envs_ ss)) <> Recall2 ->
  ApplyReward train ss = Some (tt, ss).
Proof.
  intros H1 H2. unfold ApplyReward, bind, get.
  rewrite (bool_decide_eq_true_2 _ H1), (bool_decide_eq_true_2 _ H2). reflexivity.
Qed.

(** The actions that are not recalls are the Store and Ignore variants. *)
Lemma not_recall_iff (a : Actions) :
  a <> Recall1 /\ a <> Recall2 <-> a = Store1 \/ a = Store2 \/ a = Ignore.
Proof. destruct a; split; intros; intuition congruence. Qed.

(** C4. The [NZeroStop] predicate returns true exactly when the [NZero]
    statistic has reached the configured threshold [Config.NZero], a
    configured value of 0 or less counting as 2; it leaves the simulation as
    it was (it only reads the statistic). *)
Theorem NZeroStop_threshold (ss : Sim) :
  exists stop,
    NZeroStop ss = Some (stop, ss) /\
    (NZero (Cfg ss) <= 0 -> (stop = true <-> 2 <= Stats_Int "NZero" (Stats_ ss))) /\
    (0 < NZero (Cfg ss) -> (stop = true <-> NZero (Cfg ss) <= Stats_Int "NZero" (Stats_ ss))).
Proof.
  unfold NZeroStop, bind, get, ret. cbv zeta.
  eexists. split; [ reflexivity | ].
  destruct (Z.leb_spec (NZero (Cfg ss)) 0); split; intros; try lia;
    rewrite Z.geb_leb, Z.leb_le; reflexivity.
Qed.

(** C3. Called within a running Train context (the stacks' current mode is
    [Train]), [TestAll] returns as soon as the Test run does, and when it
    returns the stacks' current mode is again what it was immediately before
    the call, whatever the run did to it. *)
Theorem TestAll_restores_mode (ss ss2 : Sim) (ls2 : looper.Stacks) :
  CurrentMode ss = Some Train ->
  ResetAndRun Test
    (set_Envs (set_ByMode Test (Env_Init 0 (ByMode Test (Envs_ ss))) (Envs_ ss)) ss)
    = Some (tt, ss2) ->
  Loops ss2 = Some ls2 ->
  exists ss',
    TestAll ResetAndRun ss = Some (tt, ss') /\
    CurrentMode ss' = CurrentMode ss.
Proof.
  intros Hmode Hrun Hls2.
  exists (set_Loops (Some (looper.set_Mode Train ls2)) ss2). split.
  - unfold CurrentMode in Hmode. destruct (Loops ss) as [ls | ] eqn:Hls; [ | discriminate ].
    unfold TestAll, bind, get, modify, deref, ret. cbv beta iota.
    assert (HL : forall e, Loops (set_Envs e ss) = Loops ss) by reflexivity.
    rewrite HL, Hls. cbv beta iota. rewrite Hrun. cbv beta iota. rewrite Hls2.
    reflexivity.
  - rewrite Hmode. reflexivity.
Qed.

(** Whatever the mode was before, it is [Train] after [TestAll]. *)
Lemma TestAll_sets_Train (ss ss' : Sim) :
  TestAll ResetAndRun ss = Some (tt, ss') -> CurrentMode ss' = Some Train.
Proof.
  unfold TestAll, bind, get, modify, deref, ret, panic. simpl.
  destruct (Loops ss); [ | discriminate ].
  destruct (ResetAndRun Test _) as [[[] ss2] | ]; [ | discriminate ].
  destruct (Loops ss2); [ | discriminate ].
  intros [= <-]. reflexivity.
Qed.

(** C5. The [TestAtInterval] hook of the Train Epoch loop's [OnStart] runs
    [TestAll] if and only if the configured [TestInterval] is strictly
    positive and [(epochCounter + 1) mod TestInterval = 0]; otherwise, and so
    for every [TestInterval <= 0] at every epoch, it does nothing. *)
Theorem TestAtInterval_gate (ss : Sim) (ls : looper.Stacks) (trainEpoch : looper.Loop) :
  Loops ss = Some ls ->
  looper.LoopOf Train Epoch ls = Some trainEpoch ->
  is_int (looper.Cur (looper.Counter_ trainEpoch)) ->
  (0 < TestInterval (Cfg ss) /\
   (looper.Cur (looper.Counter_ trainEpoch) + 1) mod TestInterval (Cfg ss) = 0 ->
   TestAtInterval ResetAndRun ss = TestAll ResetAndRun ss) /\
  (~ (0 < TestInterval (Cfg ss) /\
      (looper.Cur (looper.Counter_ trainEpoch) + 1) mod TestInterval (Cfg ss) = 0) ->
   TestAtInterval ResetAndRun ss = Some (tt, ss)) /\
  (TestInterval (Cfg ss) <= 0 -> TestAtInterval ResetAndRun ss = Some (tt, ss)).
Proof.
  intros Hls Hlp Hint.
  assert (TestAtInterval ResetAndRun ss =
          if (TestInterval (Cfg ss) >? 0) &&
             (int_rem (wrap64 (looper.Cur (looper.Counter_ trainEpoch) + 1))
                      (TestInterval (Cfg ss)) =? 0)
          then TestAll ResetAndRun ss else Some (tt, ss)) as E.
  { unfold TestAtInterval, bind, get, deref, ret. rewrite Hls. simpl. rewrite Hlp.
    simpl. destruct (_ && _); reflexivity. }
  rewrite E. clear E.
  destruct (Z.gtb_spec (TestInterval (Cfg ss)) 0) as [Hpos | Hneg]; simpl.
  - pose proof (wrap64_succ_divide _ _ Hint Hpos) as W.
    destruct (Z.eqb_spec
                (int_rem (wrap64 (looper.Cur (looper.Counter_ trainEpoch) + 1))
                         (TestInterval (Cfg ss))) 0) as [Hz | Hnz].
    + split; [ reflexivity | ]. split; [ | lia ].
      intros Hn. exfalso. apply Hn. split; [ lia | apply W; exact Hz ].
    + split; [ | split; [ reflexivity | lia ] ].
      intros [_ Hm]. exfalso. apply Hnz, W, Hm.
  - split; [ lia | split; reflexivity ].
Qed.

End HookProofs.

(* ===================================================================== *)
(** * [ApplyInputs] and the reward layer *)
(* ===================================================================== *)

Lemma LayerByName_name (nm : string) (net : Network) (ly : Layer) :
  LayerByName nm net = Some ly -> Layer_Name ly = nm /\ In ly (Layers net).
Proof.
  unfold LayerByName. intros Hf. apply find_some in Hf as [Hin Heq].
  apply String.eqb_eq in Heq. auto.
Qed.

Lemma LayerByName_In (nm : string) (net : Network) :
  In nm (layer_names net) -> exists ly, LayerByName nm net = Some ly.
Proof.
  unfold layer_names, LayerByName. induction (Layers net) as [ | l ls IH]; simpl.
  - intros [].
  - intros [Hl | Hin].
    + exists l. rewrite Hl, String.eqb_refl. reflexivity.
    + destruct (String.eqb (Layer_Name l) nm); eauto.
Qed.

Lemma update_layer_names (nm : string) (e : option Pattern) (net : Network) :
  layer_names (update_layer nm (set_Ext e) net) = layer_names net.
Proof.
  unfold layer_names, update_layer. simpl.
  induction (Layers net) as [ | ly lays IH]; simpl; [ reflexivity | ].
  destruct (String.eqb (Layer_Name ly) nm); simpl; [ reflexivity | ].
  rewrite IH. reflexivity.
Qed.

Lemma InitExt_names (net : Network) : layer_names (Net_InitExt net) = layer_names net.
Proof.
  unfold layer_names, Net_InitExt. simpl. rewrite List.map_map. reflexivity.
Qed.

Lemma InitExt_Rew_clear (net : Network) : Rew_clear (Net_InitExt net).
Proof.
  unfold Rew_clear, Net_InitExt. simpl. apply List.Forall_forall.
  intros ly Hin _. apply in_map_iff in Hin as [ly0 [<- _]]. reflexivity.
Qed.

Lemma update_layer_Rew_clear (nm : string) (e : option Pattern) (net : Network) :
  nm <> "Rew"%string -> Rew_clear net -> Rew_clear (update_layer nm (set_Ext e) net).
Proof.
  unfold Rew_clear, update_layer. simpl. intros Hnm.
  induction 1 as [ | ly lays Hly Hlays IH]; simpl; [ constructor | ].
  destruct (String.eqb_spec (Layer_Name ly) nm) as [Hn | Hn].
  - constructor; [ | exact Hlays ]. simpl. congruence.
  - constructor; [ exact Hly | exact IH ].
Qed.

Lemma LayersByType_names (types : list LayerTypes) (net : Network) :
  Forall (fun nm => In nm (layer_names net)) (LayersByType types net).
Proof.
  unfold LayersByType, layer_names. apply List.Forall_forall. intros nm Hin.
  apply in_map_iff in Hin as [ly [<- Hin]]. apply filter_In in Hin as [Hin _].
  apply in_map. exact Hin.
Qed.

Section InputProofs.

Context `{Collaborators}.

Lemma ApplyExt_eval (nm : string) (pats : Pattern) (ss : Sim) (ly : Layer) :
  LayerByName nm (Net ss) = Some ly ->
  ApplyExt nm pats ss =
  Some (tt, with_effects [EvApplyExt nm pats]
              (set_Net (update_layer nm (set_Ext (Some pats)) (Net ss)) ss)).
Proof.
  intros Hly. unfold ApplyExt, layer, bind, get, deref, ret. rewrite Hly. reflexivity.
Qed.

(** The loop of [ApplyInputs] over layers of the network: it returns, applies
    no pattern to [Rew], and keeps the layers' names. *)
Lemma ApplyInputs_layers_spec (ev : SIREnv) (lays : list string) :
  forall ss : Sim,
    Forall (fun nm => In nm (layer_names (Net ss))) lays ->
    Rew_clear (Net ss) ->
    exists ss' es,
      ApplyInputs_layers ev lays ss = Some (tt, ss') /\
      Trace ss' = Trace ss ++ es /\
      Forall not_Rew_write es /\
      Rew_clear (Net ss').
Proof.
  induction lays as [ | lnm rest IH]; intros ss Hin Hclear.
  - exists ss, []. simpl. rewrite app_nil_r. repeat split; auto.
  - apply List.Forall_cons_iff in Hin as [Hlnm Hrest]. simpl. unfold bind at 1.
    destruct (String.eqb_spec lnm "Rew") as [Hrew | Hrew].
    + simpl. apply IH; assumption.
    + destruct (LayerByName_In _ _ Hlnm) as [ly Hly].
      destruct (LayerByName_name _ _ _ Hly) as [Hname _].
      unfold layer, bind, get, deref. rewrite Hly. simpl.
      destruct (Env_State (Layer_Name ly) ev) as [pats | ].
      * rewrite Hname. rewrite (ApplyExt_eval lnm pats ss ly Hly).
        specialize (IH (with_effects [EvApplyExt lnm pats]
                          (set_Net (update_layer lnm (set_Ext (Some pats)) (Net ss)) ss))).
        destruct IH as [ss' [es [Hrun [Htr [Hes Hc]]]]].
        { simpl. rewrite update_layer_names. exact Hrest. }
        { simpl. apply update_layer_Rew_clear; assumption. }
        exists ss', (EvApplyExt lnm pats :: es). split; [ exact Hrun | ].
        split; [ rewrite Htr; simpl; rewrite <- app_assoc; reflexivity | ].
        split; [ constructor; [ exact Hrew | exact Hes ] | exact Hc ].
      * simpl. apply IH; assumption.
Qed.

(** C10, as the code has it. [ApplyInputs] always returns, and the requests
    it makes are [InitExt] followed by [ApplyExt] on layers other than [Rew]:
    it applies no pattern to the reward layer. Its [InitExt] call however
    resets the external input of every layer, [Rew] included: after
    [ApplyInputs] the layer named [Rew] holds no external input, whatever
    reward pattern was applied before. *)
Theorem ApplyInputs_skips_Rew (ss : Sim) :
  exists ss' es,
    ApplyInputs ss = Some (tt, ss') /\
    Trace ss' = Trace ss ++ EvInitExt :: es /\
    Forall not_Rew_write es /\
    (forall ly, LayerByName "Rew" (Net ss') = Some ly -> Ext ly = None).
Proof.
  unfold ApplyInputs, bind, get, modify, InitExt, emit. simpl.
  match goal with
  | |- context [ApplyInputs_layers ?ev ?lays ?s] =>
      destruct (ApplyInputs_layers_spec ev lays s) as [ss' [es [Hrun [Htr [Hes Hc]]]]]
  end.
  - simpl. rewrite InitExt_names. apply LayersByType_names.
  - simpl. apply InitExt_Rew_clear.
  - exists ss', es. split; [ exact Hrun | ]. split.
    + rewrite Htr. simpl. rewrite <- app_assoc. reflexivity.
    + split; [ exact Hes | ].
      intros ly Hly. apply LayerByName_name in Hly as [Hname Hin].
      unfold Rew_clear in Hc. rewrite List.Forall_forall in Hc. apply (Hc ly Hin Hname).
Qed.

End InputProofs.

(* ===================================================================== *)
(** * [ApplyReward] on a recall trial *)
(* ===================================================================== *)

(** A lookup after an update through a pointer: the layer of the updated
    name is the updated one, the others are as before. *)
Lemma LayerByName_update_layer (nm nm' : string) (f : Layer -> Layer) (net : Network) :
  (forall ly, Layer_Name (f ly) = Layer_Name ly) ->
  LayerByName nm (update_layer nm' f net) =
  if String.eqb nm' nm then option_map f (LayerByName nm net) else LayerByName nm net.
Proof.
  intros Hf. unfold LayerByName, update_layer. simpl.
  induction (Layers net) as [ | ly lays IH]; simpl.
  - destruct (String.eqb nm' nm); reflexivity.
  - destruct (String.eqb_spec (Layer_Name ly) nm') as [E1 | E1]; simpl.
    + rewrite Hf, E1. destruct (String.eqb_spec nm' nm) as [E2 | E2]; reflexivity.
    + destruct (String.eqb_spec (Layer_Name ly) nm) as [E2 | E2].
      * destruct (String.eqb_spec nm' nm) as [E3 | E3]; [ congruence | reflexivity ].
      * exact IH.
Qed.

Lemma LayerByName_update_other (nm nm' : string) (f : Layer -> Layer) (net : Network) :
  (forall ly, Layer_Name (f ly) = Layer_Name ly) ->
  String.eqb nm' nm = false ->
  LayerByName nm (update_layer nm' f net) = LayerByName nm net.
Proof. intros Hf Hne. rewrite LayerByName_update_layer, Hne by exact Hf. reflexivity. Qed.

Lemma LayerByName_update_same (nm : string) (f : Layer -> Layer) (net : Network) :
  (forall ly, Layer_Name (f ly) = Layer_Name ly) ->
  LayerByName nm (update_layer nm f net) = option_map f (LayerByName nm net).
Proof. intros Hf. rewrite LayerByName_update_layer, String.eqb_refl by exact Hf. reflexivity. Qed.

Ltac lookup_updated :=
  repeat first [ rewrite LayerByName_update_same by reflexivity
               | rewrite LayerByName_update_other by reflexivity ].

Lemma In_layer_names (nm : string) (net : Network) :
  In nm (layer_names net) <-> LayerByName nm net <> None.
Proof.
  split.
  - intros Hin. destruct (LayerByName_In _ _ Hin) as [ly ->]. discriminate.
  - destruct (LayerByName nm net) as [ly | ] eqn:Hly; [ intros _ | congruence ].
    destruct (LayerByName_name _ _ _ Hly) as [<- Hin]. apply in_map, Hin.
Qed.

Section RewardProofs.

Context `{Collaborators}.

(** Two states with the same fields are the same state. *)
Lemma Sim_ext (s1 s2 : Sim) :
  BurstDaGain s1 = BurstDaGain s2 -> DipDaGain s1 = DipDaGain s2 ->
  ModLearnRate s1 = ModLearnRate s2 -> EntropyMeasureType s1 = EntropyMeasureType s2 ->
  Cfg s1 = Cfg s2 -> Net s1 = Net s2 -> Loops s1 = Loops s2 -> Stats_ s1 = Stats_ s2 ->
  Envs_ s1 = Envs_ s2 -> CtxMode s1 = CtxMode s2 -> Trace s1 = Trace s2 -> s1 = s2.
Proof. destruct s1, s2; simpl; intros; subst; reflexivity. Qed.

Lemma Trace_with_effects (es : list Effect) (s : Sim) :
  Trace (with_effects es s) = Trace s ++ es.
Proof. reflexivity. Qed.
Lemma Trace_set_Stats (st : Stats) (s : Sim) : Trace (set_Stats st s) = Trace s.
Proof. reflexivity. Qed.
Lemma Trace_set_Net (n : Network) (s : Sim) : Trace (set_Net n s) = Trace s.
Proof. reflexivity. Qed.
Lemma Trace_set_Envs (e : Envs) (s : Sim) : Trace (set_Envs e s) = Trace s.
Proof. reflexivity. Qed.

(** The requests to the network, as equations: each returns exactly when
    the layer exists. *)
Lemma layer_eval (nm : string) (ss : Sim) :
  layer nm ss = option_map (fun ly => (ly, ss)) (LayerByName nm (Net ss)).
Proof. unfold layer, bind, get, deref. destruct (LayerByName nm (Net ss)); reflexivity. Qed.

Lemma ApplyExt1DTsr_eval (nm : string) (pats : Pattern) (ss : Sim) :
  ApplyExt1DTsr nm pats ss =
  option_map (fun _ => (tt, with_effects [EvApplyExt1DTsr nm pats]
                              (set_Net (update_layer nm (set_Ext (Some pats)) (Net ss)) ss)))
             (LayerByName nm (Net ss)).
Proof.
  unfold ApplyExt1DTsr, layer, bind, get, deref.
  destruct (LayerByName nm (Net ss)); reflexivity.
Qed.

Lemma LrateMult_eval (nm : string) (mult : float32) (ss : Sim) :
  LrateMult nm mult ss =
  option_map (fun _ => (tt, with_effects [EvLrateMult nm mult]
                              (set_Net (update_layer nm (Layer_LrateMult mult) (Net ss)) ss)))
             (LayerByName nm (Net ss)).
Proof.
  unfold LrateMult, layer, bind, get, deref.
  destruct (LayerByName nm (Net ss)); reflexivity.
Qed.

Lemma StatLrate_eval (stat nm : string) (ss : Sim) :
  StatLrate stat nm ss =
  option_map (fun ly => (tt, set_Stats (first_path_stat stat ly (Stats_ ss)) ss))
             (LayerByName nm (Net ss)).
Proof.
  unfold StatLrate, layer, bind, get, deref, first_path_stat.
  destruct (LayerByName nm (Net ss)) as [ly | ]; [ | reflexivity ].
  simpl. destruct (RecvPaths ly); [ | reflexivity ].
  unfold ret. f_equal. f_equal. apply Sim_ext; reflexivity.
Qed.

Lemma CalcEntropy_eval (ss : Sim) :
  CalcEntropy ss =
  if ModLearnRate ss then
    option_map
      (fun ly =>
         let ent := if EntropyMeasureType ss then EntropyHidden (AvgM ly)
                    else EntropyGPiThal (AvgM ly) in
         (ent, with_effects
                 [EvUnitValues (measured_layer (EntropyMeasureType ss)) "AvgM"; EvPrintEnt ent] ss))
      (LayerByName (measured_layer (EntropyMeasureType ss)) (Net ss))
  else Some (one, ss).
Proof.
  destruct (ModLearnRate ss) eqn:Hmod.
  - destruct (LayerByName (measured_layer (EntropyMeasureType ss)) (Net ss)) as [ly | ] eqn:Hly.
    + apply CalcEntropy_modulated; assumption.
    + apply CalcEntropy_panics; assumption.
  - apply CalcEntropy_unmodulated; assumption.
Qed.

(** [CalcEntropy] depends on the two switches and on the activations only. *)
Lemma CalcEntropy_frame (s1 s2 : Sim) :
  ModLearnRate s1 = ModLearnRate s2 ->
  EntropyMeasureType s1 = EntropyMeasureType s2 ->
  (forall nm, option_map AvgM (LayerByName nm (Net s1)) = option_map AvgM (LayerByName nm (Net s2))) ->
  CalcEntropy s1 =
  option_map (fun r => (fst r, with_effects (entropy_effects s2 (fst r)) s1)) (CalcEntropy s2).
Proof.
  intros Hmod Hm Hnet. rewrite !CalcEntropy_eval. rewrite Hmod, Hm.
  unfold entropy_effects.
  destruct (ModLearnRate s2).
  - specialize (Hnet (measured_layer (EntropyMeasureType s2))).
    destruct (LayerByName _ (Net s1)) as [l1 | ], (LayerByName _ (Net s2)) as [l2 | ];
      simpl in Hnet |- *; try discriminate; [ | reflexivity ].
    injection Hnet as ->. reflexivity.
  - simpl. unfold with_effects. rewrite app_nil_r. destruct s1; reflexivity.
Qed.

(** [ApplyReward] on a recall trial, as one equation: it returns exactly
    when every layer it uses exists, the environment has a reward pattern
    and [CalcEntropy] returns. *)
Lemma ApplyReward_recall_eval (train : bool) (ss : Sim) :
  let mode := if train then Train else Test in
  let en := ByMode mode (Envs_ ss) in
  is_recall (Act en) ->
  ApplyReward train ss =
  match LayerByName "Output" (Net ss) with
  | None => None
  | Some out =>
      match Env_State "Rew" (Env_SetReward (MaxIndex out) en),
            LayerByName "Rew" (Net ss), CalcEntropy ss,
            LayerByName "MatrixGo" (Net ss), LayerByName "MatrixNoGo" (Net ss),
            LayerByName "RWPred" (Net ss) with
      | Some pats, Some _, Some (ent, _), Some go, Some nogo, Some rw =>
          Some (tt, rewarded_state mode (Env_SetReward (MaxIndex out) en) pats ent go nogo rw ss)
      | _, _, _, _, _, _ => None
      end
  end.
Proof.
  intros mode en Hact.
  assert (bool_decide (Act en ≠ Recall1) && bool_decide (Act en ≠ Recall2) = false) as Hb.
  { destruct Hact as [-> | ->].
    - rewrite (bool_decide_eq_false_2 (Recall1 <> Recall1)) by (intros E; apply E; reflexivity).
      reflexivity.
    - rewrite (bool_decide_eq_false_2 (Recall2 <> Recall2)) by (intros E; apply E; reflexivity).
      apply andb_false_r. }
  unfold ApplyReward. unfold bind at 1. unfold get at 1. cbv beta iota zeta.
  fold mode. fold en. rewrite Hb.
  unfold bind at 1. rewrite layer_eval.
  destruct (LayerByName "Output" (Net ss)) as [out | ] eqn:Hout; cbn [option_map];
    [ | reflexivity ].
  unfold bind at 1. unfold modify at 1. cbv beta iota.
  unfold bind at 1.
  destruct (Env_State "Rew" (Env_SetReward (MaxIndex out) en)) as [pats | ] eqn:Hp;
    cbn [deref ret panic]; cbv beta iota; [ | reflexivity ].
  set (s0 := set_Envs _ ss).
  unfold bind at 1. rewrite ApplyExt1DTsr_eval.
  change (Net s0) with (Net ss).
  destruct (LayerByName "Rew" (Net ss)) as [rew | ] eqn:Hrew; cbn [option_map];
    [ | reflexivity ].
  set (s1 := with_effects _ _).
  unfold bind at 1.
  rewrite (CalcEntropy_frame s1 ss eq_refl eq_refl).
  2:{ intros nm. subst s1 s0. cbn [Net with_effects set_Trace set_Net set_Envs].
      rewrite LayerByName_update_layer by reflexivity.
      destruct (String.eqb "Rew" nm); [ | reflexivity ].
      destruct (LayerByName nm (Net ss)); reflexivity. }
  destruct (CalcEntropy ss) as [[ent ss1] | ] eqn:Hent; cbn [option_map fst];
    [ | reflexivity ].
  set (s2 := with_effects _ s1).
  assert (Net s2 = update_layer "Rew" (set_Ext (Some pats)) (Net ss)) as HN2 by reflexivity.
  unfold bind at 1. rewrite LrateMult_eval, HN2.
  rewrite (LayerByName_update_other "MatrixGo" "Rew") by reflexivity.
  destruct (LayerByName "MatrixGo" (Net ss)) as [go | ] eqn:Hgo; cbn [option_map];
    [ | reflexivity ].
  set (s3 := with_effects _ _).
  assert (Net s3 = update_layer "MatrixGo" (Layer_LrateMult ent)
                     (update_layer "Rew" (set_Ext (Some pats)) (Net ss))) as HN3
    by reflexivity.
  unfold bind at 1. rewrite LrateMult_eval, HN3.
  rewrite !(LayerByName_update_other "MatrixNoGo") by reflexivity.
  destruct (LayerByName "MatrixNoGo" (Net ss)) as [nogo | ] eqn:Hnogo; cbn [option_map];
    [ | reflexivity ].
  set (s4 := with_effects _ _).
  assert (Net s4 = update_layer "MatrixNoGo" (Layer_LrateMult ent)
                     (update_layer "MatrixGo" (Layer_LrateMult ent)
                        (update_layer "Rew" (set_Ext (Some pats)) (Net ss)))) as HN4
    by reflexivity.
  unfold bind at 1. rewrite LrateMult_eval, HN4.
  rewrite !(LayerByName_update_other "RWPred") by reflexivity.
  destruct (LayerByName "RWPred" (Net ss)) as [rw | ] eqn:Hrw; cbn [option_map];
    [ | reflexivity ].
  set (s5 := with_effects _ _).
  assert (Net s5 = reward_net pats ent (Net ss)) as HN5 by reflexivity.
  assert (LayerByName "MatrixGo" (reward_net pats ent (Net ss)) =
          Some (Layer_LrateMult ent go)) as Lgo.
  { unfold reward_net.
    rewrite !(LayerByName_update_other "MatrixGo" "RWPred"),
            !(LayerByName_update_other "MatrixGo" "MatrixNoGo"),
            LayerByName_update_same,
            (LayerByName_update_other "MatrixGo" "Rew"), Hgo by reflexivity.
    reflexivity. }
  assert (LayerByName "MatrixNoGo" (reward_net pats ent (Net ss)) =
          Some (Layer_LrateMult ent nogo)) as Lnogo.
  { unfold reward_net.
    rewrite !(LayerByName_update_other "MatrixNoGo" "RWPred"),
            LayerByName_update_same,
            (LayerByName_update_other "MatrixNoGo" "MatrixGo"),
            (LayerByName_update_other "MatrixNoGo" "Rew"), Hnogo by reflexivity.
    reflexivity. }
  assert (LayerByName "RWPred" (reward_net pats ent (Net ss)) =
          Some (Layer_LrateMult ent rw)) as Lrw.
  { unfold reward_net.
    rewrite LayerByName_update_same,
            (LayerByName_update_other "RWPred" "MatrixNoGo"),
            (LayerByName_update_other "RWPred" "MatrixGo"),
            (LayerByName_update_other "RWPred" "Rew"), Hrw by reflexivity.
    reflexivity. }
  assert (forall stat ly st,
            first_path_stat stat (Layer_LrateMult ent ly) st = record_lrate stat ent ly st)
    as Hfp.
  { intros stat ly st. unfold first_path_stat, record_lrate. simpl.
    destruct (RecvPaths ly); reflexivity. }
  unfold bind at 1. rewrite StatLrate_eval, HN5, Lgo. cbn [option_map].
  unfold bind at 1. rewrite StatLrate_eval.
  change (Net (set_Stats ?st s5)) with (Net s5). rewrite HN5, Lnogo. cbn [option_map].
  rewrite StatLrate_eval.
  change (Net (set_Stats ?st (set_Stats ?st' s5))) with (Net s5).
  rewrite HN5, Lrw. cbn [option_map].
  rewrite !Hfp.
  f_equal. f_equal. apply Sim_ext; try reflexivity.
  clear. subst s5 s4 s3 s2 s1 s0. unfold rewarded_state.
  repeat first [ rewrite Trace_with_effects | rewrite Trace_set_Stats
               | rewrite Trace_set_Net | rewrite Trace_set_Envs ].
  rewrite <- !app_assoc. reflexivity.
Qed.

Lemma record_lrate_lookup (stat k : string) (ent : float32) (ly : Layer) (st : Stats) :
  Floats32 (record_lrate stat ent ly st) !! k =
  if decide (stat = k)
  then match RecvPaths ly with
       | p :: _ => Some (mul (LrateInit p) ent)
       | [] => Floats32 st !! k
       end
  else Floats32 st !! k.
Proof.
  unfold record_lrate. destruct (RecvPaths ly) as [ | p ps].
  - destruct (decide (stat = k)); reflexivity.
  - simpl. destruct (decide (stat = k)) as [-> | Hne].
    + apply lookup_insert_eq.
    + apply lookup_insert_ne, Hne.
Qed.

Lemma record_lrate_Ints (stat : string) (ent : float32) (ly : Layer) (st : Stats) :
  Ints (record_lrate stat ent ly st) = Ints st /\
  Strings (record_lrate stat ent ly st) = Strings st.
Proof. unfold record_lrate. destruct (RecvPaths ly); split; reflexivity. Qed.

(** On a recall trial [ApplyReward] returns as soon as the layers it uses
    exist and [CalcEntropy] returns, and then: the reward of the selected
    environment was set from the most active unit of [Output]
    ([Pools[0].Inhib.Act.MaxIndex]) while the other environment is as before;
    the requests made are, in this order, the reward pattern applied to
    [Rew], the requests of [CalcEntropy], and [LrateMult] on [MatrixGo],
    [MatrixNoGo] and [RWPred] with one and the same multiplier, the value
    [CalcEntropy] gives on the state before the call; loops, configuration
    and context mode are untouched. *)
Theorem ApplyReward_recall_requests (train : bool) (ss : Sim) (out : Layer) (pats : Pattern)
    (ent : float32) (ss1 : Sim) :
  let mode := if train then Train else Test in
  let en := ByMode mode (Envs_ ss) in
  is_recall (Act en) ->
  LayerByName "Output" (Net ss) = Some out ->
  Env_State "Rew" (Env_SetReward (MaxIndex out) en) = Some pats ->
  Forall (fun nm => In nm (layer_names (Net ss))) ("Rew"%string :: modulated_layers) ->
  CalcEntropy ss = Some (ent, ss1) ->
  exists ss',
    ApplyReward train ss = Some (tt, ss') /\
    Trace ss' =
      Trace ss ++ EvApplyExt1DTsr "Rew" pats :: entropy_effects ss ent ++
      [EvLrateMult "MatrixGo" ent; EvLrateMult "MatrixNoGo" ent; EvLrateMult "RWPred" ent] /\
    ByMode mode (Envs_ ss') = Env_SetReward (MaxIndex out) en /\
    (forall m, m <> mode -> ByMode m (Envs_ ss') = ByMode m (Envs_ ss)) /\
    Loops ss' = Loops ss /\ Cfg ss' = Cfg ss /\ CtxMode ss' = CtxMode ss.
Proof.
  intros mode en Hact Hout Hp Hlays Hent. unfold modulated_layers in Hlays.
  pose proof (ApplyReward_recall_eval train ss Hact) as E. cbv zeta in E.
  fold mode in E. fold en in E. rewrite Hout, Hp, Hent in E.
  repeat (let Hl := fresh "Hl" in
          apply List.Forall_cons_iff in Hlays as [Hl Hlays];
          apply LayerByName_In in Hl as [? Hl]; rewrite Hl in E).
  eexists. split; [ exact E | ].
  split; [ reflexivity | ].
  split; [ destruct mode; reflexivity | ].
  split; [ intros m Hm; destruct m, mode; try congruence; reflexivity | ].
  repeat split; reflexivity.
Qed.

(** After [ApplyReward] on a recall trial, each of [MatrixGo], [MatrixNoGo]
    and [RWPred] has every receiving pathway's rate at its initial rate
    times the entropy multiplier, and the statistic [<layer>LRate] holds the
    rate of the layer's first receiving pathway (it is left as it was for a
    layer without receiving pathways); [Rew] holds the reward pattern; every
    other layer, and every integer and string statistic, is as before. *)
Theorem ApplyReward_recall_lrates (train : bool) (ss : Sim) (out : Layer) (pats : Pattern)
    (ent : float32) (ss1 : Sim) :
  let mode := if train then Train else Test in
  let en := ByMode mode (Envs_ ss) in
  is_recall (Act en) ->
  LayerByName "Output" (Net ss) = Some out ->
  Env_State "Rew" (Env_SetReward (MaxIndex out) en) = Some pats ->
  Forall (fun nm => In nm (layer_names (Net ss))) ("Rew"%string :: modulated_layers) ->
  CalcEntropy ss = Some (ent, ss1) ->
  exists ss',
    ApplyReward train ss = Some (tt, ss') /\
    (forall nm ly,
        In nm modulated_layers -> LayerByName nm (Net ss) = Some ly ->
        LayerByName nm (Net ss') = Some (Layer_LrateMult ent ly) /\
        Floats32 (Stats_ ss') !! lrate_stat nm =
        match RecvPaths ly with
        | p :: _ => Some (mul (LrateInit p) ent)
        | [] => Floats32 (Stats_ ss) !! lrate_stat nm
        end) /\
    LayerByName "Rew" (Net ss') =
    option_map (set_Ext (Some pats)) (LayerByName "Rew" (Net ss)) /\
    (forall nm, ~ In nm ("Rew"%string :: modulated_layers) ->
                LayerByName nm (Net ss') = LayerByName nm (Net ss)) /\
    Ints (Stats_ ss') = Ints (Stats_ ss) /\
    Strings (Stats_ ss') = Strings (Stats_ ss).
Proof.
  intros mode en Hact Hout Hp Hlays Hent. unfold modulated_layers in Hlays.
  pose proof (ApplyReward_recall_eval train ss Hact) as E. cbv zeta in E.
  fold mode in E. fold en in E. rewrite Hout, Hp, Hent in E.
  apply List.Forall_cons_iff in Hlays as [Hl Hlays].
  apply LayerByName_In in Hl as [rew Hrew]. rewrite Hrew in E.
  apply List.Forall_cons_iff in Hlays as [Hl Hlays].
  apply LayerByName_In in Hl as [go Hgo]. rewrite Hgo in E.
  apply List.Forall_cons_iff in Hlays as [Hl Hlays].
  apply LayerByName_In in Hl as [nogo Hnogo]. rewrite Hnogo in E.
  apply List.Forall_cons_iff in Hlays as [Hl Hlays].
  apply LayerByName_In in Hl as [rw Hrw]. rewrite Hrw in E.
  eexists. split; [ exact E | ].
  change (Net (rewarded_state mode (Env_SetReward (MaxIndex out) en) pats ent go nogo rw ss))
    with (reward_net pats ent (Net ss)).
  change (Stats_ (rewarded_state mode (Env_SetReward (MaxIndex out) en) pats ent go nogo rw ss))
    with (record_lrate "RWPredLRate" ent rw
            (record_lrate "MatrixNoGoLRate" ent nogo
               (record_lrate "MatrixGoLRate" ent go (Stats_ ss)))).
  split; [ | split; [ | split; [ | split ] ] ].
  - intros nm ly Hnm Hly. unfold modulated_layers in Hnm. simpl in Hnm.
    destruct Hnm as [<- | [<- | [<- | []]]];
      [ assert (ly = go) as -> by congruence
      | assert (ly = nogo) as -> by congruence
      | assert (ly = rw) as -> by congruence ];
      unfold reward_net; lookup_updated;
      rewrite Hly; (split; [ reflexivity | ]);
      rewrite !record_lrate_lookup; reflexivity.
  - unfold reward_net. lookup_updated. reflexivity.
  - intros nm Hnm. unfold modulated_layers in Hnm. simpl in Hnm.
    unfold reward_net. rewrite !LayerByName_update_layer by reflexivity.
    destruct (String.eqb_spec "RWPred" nm); [ tauto | ].
    destruct (String.eqb_spec "MatrixNoGo" nm); [ tauto | ].
    destruct (String.eqb_spec "MatrixGo" nm); [ tauto | ].
    destruct (String.eqb_spec "Rew" nm); [ tauto | ]. reflexivity.
  - rewrite !(proj1 (record_lrate_Ints _ _ _ _)). reflexivity.
  - rewrite !(proj2 (record_lrate_Ints _ _ _ _)). reflexivity.
Qed.

(** On a recall trial [ApplyReward] returns (does not panic on a nil layer
    or a nil pattern) exactly when the network has the layers [Output],
    [Rew], [MatrixGo], [MatrixNoGo] and [RWPred], the environment has a
    pattern named [Rew] once its reward is set, and [CalcEntropy] returns. *)
Theorem ApplyReward_recall_returns_iff (train : bool) (ss : Sim) :
  let mode := if train then Train else Test in
  let en := ByMode mode (Envs_ ss) in
  is_recall (Act en) ->
  (ApplyReward train ss <> None <->
   (exists out pats,
       LayerByName "Output" (Net ss) = Some out /\
       Env_State "Rew" (Env_SetReward (MaxIndex out) en) = Some pats) /\
   Forall (fun nm => In nm (layer_names (Net ss))) ("Rew"%string :: modulated_layers) /\
   CalcEntropy ss <> None).
Proof.
  intros mode en Hact.
  pose proof (ApplyReward_recall_eval train ss Hact) as E. cbv zeta in E.
  fold mode in E. fold en in E. rewrite E. clear E.
  unfold modulated_layers. rewrite !List.Forall_cons_iff, !In_layer_names.
  destruct (LayerByName "Output" (Net ss)) as [out | ].
  - destruct (Env_State "Rew" (Env_SetReward (MaxIndex out) en)) as [pats | ] eqn:Hp.
    + destruct (LayerByName "Rew" (Net ss)), (CalcEntropy ss) as [[ent ss1] | ],
        (LayerByName "MatrixGo" (Net ss)), (LayerByName "MatrixNoGo" (Net ss)),
        (LayerByName "RWPred" (Net ss));
        split; try congruence; try tauto;
        try (intros _; split; [ exists out, pats; auto | ];
             repeat split; try constructor; congruence).
    + split; [ congruence | ]. intros [(o & p & [= <-] & Hp') _]. congruence.
  - split; [ congruence | ]. intros [(o & p & Ho & _) _]. discriminate.
Qed.
End RewardProofs.

(* ===================================================================== *)
(** * [ApplyInputs]: the environment stepped and the patterns applied *)
(* ===================================================================== *)

Lemma LayerByName_InitExt (nm : string) (net : Network) :
  LayerByName nm (Net_InitExt net) = option_map (set_Ext None) (LayerByName nm net).
Proof.
  unfold LayerByName, Net_InitExt. simpl.
  induction (Layers net) as [ | ly lays IH]; simpl; [ reflexivity | ].
  destruct (String.eqb (Layer_Name ly) nm); [ reflexivity | exact IH ].
Qed.

Section InputEffects.

Context `{Collaborators}.

(** [ApplyInputs] always returns. *)
Lemma ApplyInputs_returns (ss : Sim) : exists ss', ApplyInputs ss = Some (tt, ss').
Proof.
  unfold ApplyInputs, bind, get, modify, InitExt, emit. simpl.
  match goal with
  | |- context [ApplyInputs_layers ?ev ?lays ?s] =>
      destruct (ApplyInputs_layers_spec ev lays s) as [ss' [es [Hrun _]]]
  end.
  - simpl. rewrite InitExt_names. apply LayersByType_names.
  - simpl. apply InitExt_Rew_clear.
  - exists ss'. exact Hrun.
Qed.

(** The loop of [ApplyInputs] changes the network and the trace only. *)
Lemma ApplyInputs_layers_frame (ev : SIREnv) (lays : list string) :
  forall ss ss' : Sim,
    ApplyInputs_layers ev lays ss = Some (tt, ss') ->
    Envs_ ss' = Envs_ ss /\ Stats_ ss' = Stats_ ss /\ Loops ss' = Loops ss /\
    Cfg ss' = Cfg ss /\ CtxMode ss' = CtxMode ss.
Proof.
  induction lays as [ | lnm rest IH]; intros ss ss'.
  - intros [= <-]. repeat split; reflexivity.
  - simpl. unfold bind at 1.
    destruct (String.eqb lnm "Rew").
    + simpl. apply IH.
    + unfold bind at 1. rewrite layer_eval.
      destruct (LayerByName lnm (Net ss)) as [ly | ]; cbn [option_map]; [ | discriminate ].
      destruct (Env_State (Layer_Name ly) ev) as [pats | ].
      * unfold ApplyExt, bind at 1. rewrite layer_eval.
        destruct (LayerByName (Layer_Name ly) (Net ss)) as [ly2 | ]; cbn [option_map];
          [ | discriminate ].
        unfold bind, modify, emit, modify. intros Hrun. apply IH in Hrun. exact Hrun.
      * simpl. apply IH.
Qed.

Lemma applied_cons_other (ev : SIREnv) (lnm : string) (rest : list string) (nm : string)
    (ly : Layer) :
  lnm <> nm \/ nm = "Rew"%string \/ Env_State nm ev = None ->
  applied ev (lnm :: rest) nm ly = applied ev rest nm ly.
Proof.
  intros Hcase. unfold applied.
  destruct (String.eqb_spec nm "Rew") as [Hn | Hn]; [ rewrite !andb_false_r; reflexivity | ].
  rewrite !andb_true_r.
  destruct (Env_State nm ev) as [pats | ] eqn:Hst.
  - destruct Hcase as [Hne | [Hr | Hnone]]; [ | congruence | discriminate ].
    assert (bool_decide (nm ∈ lnm :: rest) = bool_decide (nm ∈ rest)) as ->; [ | reflexivity ].
    apply bool_decide_ext. rewrite elem_of_cons. split; [ | auto ].
    intros [-> | Hin]; [ congruence | exact Hin ].
  - destruct (bool_decide (nm ∈ lnm :: rest)), (bool_decide (nm ∈ rest)); reflexivity.
Qed.

Lemma applied_cons_same (ev : SIREnv) (lnm : string) (rest : list string) (pats : Pattern)
    (ly : Layer) :
  lnm <> "Rew"%string -> Env_State lnm ev = Some pats ->
  applied ev (lnm :: rest) lnm ly = set_Ext (Some pats) ly /\
  applied ev rest lnm (set_Ext (Some pats) ly) = set_Ext (Some pats) ly.
Proof.
  intros Hrew Hst. unfold applied. rewrite Hst.
  destruct (String.eqb_spec lnm "Rew") as [Hn | Hn]; [ congruence | ].
  rewrite !andb_true_r. split.
  - rewrite bool_decide_eq_true_2 by (apply elem_of_cons; auto). reflexivity.
  - destruct (bool_decide (lnm ∈ rest)); reflexivity.
Qed.

Lemma ApplyInputs_layers_lookup (ev : SIREnv) (lays : list string) :
  forall ss ss' : Sim,
    ApplyInputs_layers ev lays ss = Some (tt, ss') ->
    forall nm, LayerByName nm (Net ss') = option_map (applied ev lays nm) (LayerByName nm (Net ss)).
Proof.
  induction lays as [ | lnm rest IH]; intros ss ss'.
  - intros [= <-] nm. unfold applied. simpl.
    destruct (LayerByName nm (Net ss)); reflexivity.
  - simpl. unfold bind at 1.
    destruct (String.eqb_spec lnm "Rew") as [Hrew | Hrew].
    + simpl. intros Hrun nm. rewrite (IH _ _ Hrun nm).
      destruct (LayerByName nm (Net ss)) as [ly | ]; [ | reflexivity ]. simpl. f_equal.
      symmetry. apply applied_cons_other.
      destruct (String.eqb_spec lnm nm) as [<- | Hne]; auto.
    + unfold bind at 1. rewrite layer_eval.
      destruct (LayerByName lnm (Net ss)) as [ly | ] eqn:Hly; cbn [option_map];
        [ | discriminate ].
      destruct (LayerByName_name _ _ _ Hly) as [Hname _]. rewrite Hname.
      destruct (Env_State lnm ev) as [pats | ] eqn:Hst.
      * rewrite (ApplyExt_eval lnm pats ss ly Hly). intros Hrun nm.
        rewrite (IH _ _ Hrun nm). cbn [Net with_effects set_Trace set_Net].
        rewrite LayerByName_update_layer by reflexivity.
        destruct (String.eqb_spec lnm nm) as [<- | Hne].
        -- rewrite Hly. simpl. f_equal.
           destruct (applied_cons_same ev lnm rest pats ly Hrew Hst) as [-> ->]. reflexivity.
        -- destruct (LayerByName nm (Net ss)) as [ly0 | ]; [ | reflexivity ]. simpl. f_equal.
           symmetry. apply applied_cons_other. auto.
      * simpl. intros Hrun nm. rewrite (IH _ _ Hrun nm).
        destruct (LayerByName nm (Net ss)) as [ly0 | ]; [ | reflexivity ]. simpl. f_equal.
        symmetry. apply applied_cons_other.
        destruct (String.eqb_spec lnm nm) as [<- | Hne]; auto.
Qed.

(** [ApplyInputs] steps the environment of the context's current mode
    ([ss.Context.Mode]) once and leaves the other environment alone; it sets
    the [TrialName] statistic to the stepped environment's [String()] and no
    other statistic; loops, configuration and context mode are as before. *)
Theorem ApplyInputs_steps_current_env (ss : Sim) :
  let ev := Env_Step (ByMode (CtxMode ss) (Envs_ ss)) in
  exists ss',
    ApplyInputs ss = Some (tt, ss') /\
    ByMode (CtxMode ss) (Envs_ ss') = ev /\
    (forall m, m <> CtxMode ss -> ByMode m (Envs_ ss') = ByMode m (Envs_ ss)) /\
    Strings (Stats_ ss') = <["TrialName"%string := Env_String ev]> (Strings (Stats_ ss)) /\
    Ints (Stats_ ss') = Ints (Stats_ ss) /\ Floats32 (Stats_ ss') = Floats32 (Stats_ ss) /\
    Loops ss' = Loops ss /\ Cfg ss' = Cfg ss /\ CtxMode ss' = CtxMode ss.
Proof.
  intros ev. destruct (ApplyInputs_returns ss) as [ss' Hrun].
  exists ss'. split; [ exact Hrun | ].
  unfold ApplyInputs, bind, get, modify, InitExt, emit, modify in Hrun. simpl in Hrun.
  apply ApplyInputs_layers_frame in Hrun as (He & Hs & Hl & Hc & Hm).
  rewrite He, Hs, Hl, Hc, Hm. simpl. fold ev.
  split; [ destruct (CtxMode ss); reflexivity | ].
  split; [ intros m Hne; destruct m, (CtxMode ss); try congruence; reflexivity | ].
  repeat split; reflexivity.
Qed.

(** After [ApplyInputs], the layer a name denotes is the layer it denoted
    before with its external input replaced: by the stepped environment's
    pattern of that name ([nil] included) when the name is one of the
    network's input or target layers and is not [Rew], by none for every
    other layer, whatever was applied to it before. *)
Theorem ApplyInputs_applies_patterns (ss : Sim) :
  let ev := Env_Step (ByMode (CtxMode ss) (Envs_ ss)) in
  let lays := LayersByType [InputLayer; TargetLayer] (Net ss) in
  exists ss',
    ApplyInputs ss = Some (tt, ss') /\
    forall nm,
      LayerByName nm (Net ss') =
      option_map (set_Ext (applied_input ev lays nm)) (LayerByName nm (Net ss)).
Proof.
  intros ev lays. destruct (ApplyInputs_returns ss) as [ss' Hrun].
  exists ss'. split; [ exact Hrun | ].
  unfold ApplyInputs, bind, get, modify, InitExt, emit, modify in Hrun. simpl in Hrun.
  intros nm. rewrite (ApplyInputs_layers_lookup _ _ _ _ Hrun nm). simpl.
  rewrite LayerByName_InitExt. fold ev. fold lays.
  destruct (LayerByName nm (Net ss)) as [ly | ]; [ | reflexivity ]. simpl. f_equal.
  unfold applied, applied_input.
  destruct (bool_decide (nm ∈ lays) && negb (nm =? "Rew")%string); [ | reflexivity ].
  destruct (Env_State nm ev); reflexivity.
Qed.
End InputEffects.

(* ===================================================================== *)
(** * [Defaults], [RunDone] and [TestAll] *)
(* ===================================================================== *)

Lemma Stats_Int_SetInt (k k' : string) (v : Z) (st : Stats) :
  Stats_Int k' (Stats_SetInt k v st) = if decide (k = k') then v else Stats_Int k' st.
Proof.
  unfold Stats_Int, Stats_SetInt. simpl. destruct (decide (k = k')) as [-> | Hne].
  - rewrite lookup_insert_eq. reflexivity.
  - rewrite lookup_insert_ne by exact Hne. reflexivity.
Qed.

Section MoreHooks.

Context `{Collaborators}.
Variable ResetAndRun : Modes -> M unit.

(** [Defaults] sets both dopamine gains to 1 and switches the modulation of
    the learning rate off: after it [CalcEntropy] returns 1.0 without reading
    a layer, and [ApplyReward] on a recall trial (the layers it uses being
    there) applies the reward and multiplies the three learning rates by
    exactly 1.0, with no other request. *)
Theorem Defaults_no_modulation (train : bool) (ss : Sim) (out : Layer) (pats : Pattern) :
  let mode := if train then Train else Test in
  let en := ByMode mode (Envs_ ss) in
  exists ss0,
    Defaults ss = Some (tt, ss0) /\
    BurstDaGain ss0 = one /\ DipDaGain ss0 = one /\
    CalcEntropy ss0 = Some (one, ss0) /\
    Trace ss0 = Trace ss /\
    (is_recall (Act en) ->
     LayerByName "Output" (Net ss) = Some out ->
     Env_State "Rew" (Env_SetReward (MaxIndex out) en) = Some pats ->
     Forall (fun nm => In nm (layer_names (Net ss))) ("Rew"%string :: modulated_layers) ->
     exists ss',
       ApplyReward train ss0 = Some (tt, ss') /\
       Trace ss' =
       Trace ss ++ [EvApplyExt1DTsr "Rew" pats; EvLrateMult "MatrixGo" one;
                    EvLrateMult "MatrixNoGo" one; EvLrateMult "RWPred" one]).
Proof.
  intros mode en. eexists. split; [ reflexivity | ].
  split; [ reflexivity | ]. split; [ reflexivity | ].
  split; [ apply CalcEntropy_unmodulated; reflexivity | ].
  split; [ reflexivity | ].
  intros Hact Hout Hp Hlays. unfold modulated_layers in Hlays.
  match goal with
  | |- context [ApplyReward train ?s] =>
      pose proof (ApplyReward_recall_eval train s Hact) as E;
      rewrite (CalcEntropy_unmodulated s eq_refl) in E
  end.
  cbv zeta in E. cbn [Net Envs_] in E. fold mode in E. fold en in E.
  rewrite Hout, Hp in E.
  repeat (let Hl := fresh "Hl" in
          apply List.Forall_cons_iff in Hlays as [Hl Hlays];
          apply LayerByName_In in Hl as [? Hl]; rewrite Hl in E).
  eexists. split; [ exact E | ]. reflexivity.
Qed.

(** [RunDone] always returns. It changes nothing while the [Run] statistic
    is under [NRuns - 1]; from [NRuns - 1] on (the last run, and every run
    when [NRuns <= 1]) it adds one to the [Expt] statistic and touches no
    other statistic. *)
Theorem RunDone_counts_last_run (ss : Sim) :
  int_min < NRuns (Cfg ss) <= int_max ->
  exists ss',
    RunDone ss = Some (tt, ss') /\
    (Stats_Int "Run" (Stats_ ss) < NRuns (Cfg ss) - 1 -> ss' = ss) /\
    (NRuns (Cfg ss) - 1 <= Stats_Int "Run" (Stats_ ss) ->
     ss' = set_Stats (Stats_SetInt "Expt" (wrap64 (Stats_Int "Expt" (Stats_ ss) + 1))
                        (Stats_ ss)) ss /\
     Stats_Int "Expt" (Stats_ ss') = wrap64 (Stats_Int "Expt" (Stats_ ss) + 1) /\
     (forall k, k <> "Expt"%string -> Stats_Int k (Stats_ ss') = Stats_Int k (Stats_ ss))) /\
    (is_int (Stats_Int "Expt" (Stats_ ss)) -> Stats_Int "Expt" (Stats_ ss) < int_max ->
     wrap64 (Stats_Int "Expt" (Stats_ ss) + 1) = Stats_Int "Expt" (Stats_ ss) + 1).
Proof.
  intros Hn.
  assert (wrap64 (NRuns (Cfg ss) - 1) = NRuns (Cfg ss) - 1) as Hw.
  { unfold wrap64, int_min, int_max in *. rewrite Z.mod_small by lia. lia. }
  unfold RunDone, bind, get. cbv beta iota zeta. rewrite Hw.
  destruct (Z.geb_spec (Stats_Int "Run" (Stats_ ss)) (NRuns (Cfg ss) - 1)) as [Hge | Hlt].
  - eexists. split; [ reflexivity | ].
    split; [ intros; lia | ]. split.
    + intros _. split; [ reflexivity | ]. cbn [Stats_ set_Stats]. split.
      * rewrite Stats_Int_SetInt. destruct (decide _); [ reflexivity | congruence ].
      * intros k Hk. rewrite Stats_Int_SetInt. destruct (decide _); [ congruence | reflexivity ].
    + intros Hi Hlt. unfold wrap64, is_int, int_min, int_max in *.
      rewrite Z.mod_small by lia. lia.
  - exists ss. split; [ reflexivity | ].
    split; [ reflexivity | ]. split; [ intros; lia | ].
    intros Hi Hlt'. unfold wrap64, is_int, int_min, int_max in *.
    rewrite Z.mod_small by lia. lia.
Qed.

(** [TestAll] returns exactly when the loops are configured and the Test
    run returns with the loops still there; the state it returns is the one
    the run returned with the stacks' mode set to [Train], and nothing else
    changed. The run starts with the Test environment re-initialized and the
    Train environment as it was. So the mode after [TestAll] is [Train]
    whatever it was before the call. *)
Theorem TestAll_ends_in_Train (ss ss' : Sim) :
  (TestAll ResetAndRun ss = Some (tt, ss') <->
   Loops ss <> None /\
   exists ss2 ls2,
     ResetAndRun Test
       (set_Envs (set_ByMode Test (Env_Init 0 (ByMode Test (Envs_ ss))) (Envs_ ss)) ss)
     = Some (tt, ss2) /\
     Loops ss2 = Some ls2 /\
     ss' = set_Loops (Some (looper.set_Mode Train ls2)) ss2) /\
  (TestAll ResetAndRun ss = Some (tt, ss') -> CurrentMode ss' = Some Train).
Proof.
  assert (TestAll ResetAndRun ss = Some (tt, ss') <->
          Loops ss <> None /\
          exists ss2 ls2,
            ResetAndRun Test
              (set_Envs (set_ByMode Test (Env_Init 0 (ByMode Test (Envs_ ss))) (Envs_ ss)) ss)
            = Some (tt, ss2) /\
            Loops ss2 = Some ls2 /\
            ss' = set_Loops (Some (looper.set_Mode Train ls2)) ss2) as Hiff.
  { unfold TestAll, bind, get, modify, deref, ret, panic. cbv beta iota.
    assert (HL : forall e, Loops (set_Envs e ss) = Loops ss) by reflexivity.
    rewrite HL. clear HL.
    destruct (Loops ss) as [ls | ]; cbv beta iota.
    - destruct (ResetAndRun Test _) as [[[] ss2] | ]; cbv beta iota.
      + destruct (Loops ss2) as [ls2 | ] eqn:Hls2; cbv beta iota.
        * split.
          -- intros [= <-]. split; [ discriminate | ]. exists ss2, ls2. auto.
          -- intros [_ (s & l & [= <-] & Hl & ->)]. congruence.
        * split; [ discriminate | ].
          intros [_ (s & l & [= <-] & Hl & _)]. congruence.
      + split; [ discriminate | ]. intros [_ (s & l & Hr & _)]. discriminate.
    - split; [ discriminate | ]. intros [Hn _]. congruence. }
  split; [ exact Hiff | ].
  intros Hrun. apply Hiff in Hrun as [_ (ss2 & ls2 & _ & _ & ->)]. reflexivity.
Qed.

End MoreHooks.

(* ===================================================================== *)
(** * Where the reward is registered, and what a Test run fires *)
(* ===================================================================== *)

Section Registration.

Import looper.

Variable P : NamedFunc -> Prop.

Lemma lookup_alter_key {K V} `{EqDecision K} (f : V -> V) (k k' : K) (l : list (K * V)) :
  lookup_key k' (alter_key f k l) =
  if decide (k = k') then option_map f (lookup_key k' l) else lookup_key k' l.
Proof.
  induction l as [ | [k0 v] l IH]; simpl.
  - destruct (decide (k = k')); reflexivity.
  - destruct (decide (k0 = k)) as [-> | Hk0]; simpl.
    + destruct (decide (k = k')); reflexivity.
    + destruct (decide (k0 = k')) as [-> | Hk0'].
      * destruct (decide (k = k')); [ congruence | reflexivity ].
      * exact IH.
Qed.

Lemma StackOf_alter_Stack (g : Stack -> Stack) (m m' : Modes) (ls : Stacks) :
  StackOf m' (alter_Stack g m ls) =
  if decide (m = m') then option_map g (StackOf m' ls) else StackOf m' ls.
Proof. unfold StackOf, alter_Stack. simpl. apply lookup_alter_key. Qed.

Lemma Forall_concat_map {A B} (Q : B -> Prop) (f : A -> list B) (l : list A) :
  Forall Q (concat (List.map f l)) <-> (forall a, In a l -> Forall Q (f a)).
Proof.
  induction l as [ | a l IH]; simpl.
  - split; [ intros _ a [] | constructor ].
  - rewrite Forall_app, IH. split.
    + intros [Ha Hl] b [<- | Hb]; auto.
    + intros Hall. split; [ apply Hall; auto | intros b Hb; apply Hall; auto ].
Qed.

Lemma In_alter_key {K V} `{EqDecision K} (f : V -> V) (k : K) (l : list (K * V)) (kv : K * V) :
  In kv (alter_key f k l) -> In kv l \/ exists v, In (fst kv, v) l /\ snd kv = f v.
Proof.
  induction l as [ | [k0 v] l IH]; simpl; [ tauto | ].
  destruct (decide (k0 = k)) as [-> | Hk0]; simpl.
  - intros [<- | Hin]; [ right; exists v; simpl; auto | auto ].
  - intros [<- | Hin]; [ auto | ].
    destruct (IH Hin) as [Hl | [v' [Hv' Hs]]]; [ auto | right; exists v'; auto ].
Qed.

(** A stack update keeps a property of the registered functions when it
    keeps it on the stack it changes. *)
Lemma funcs_of_alter_Stack (g : Stack -> Stack) (m m' : Modes) (ls : Stacks) :
  (forall st, Forall P (Stack_funcs st) -> Forall P (Stack_funcs (g st))) ->
  Forall P (funcs_of m' ls) -> Forall P (funcs_of m' (alter_Stack g m ls)).
Proof.
  intros Hg. unfold funcs_of. rewrite StackOf_alter_Stack.
  destruct (decide (m = m')); [ | auto ].
  destruct (StackOf m' ls); simpl; auto.
Qed.

(** The same for a loop update. *)
Lemma funcs_of_alter_Loop (f : Loop -> Loop) (m : Modes) (t : Times) (m' : Modes) (ls : Stacks) :
  (forall lp, Forall P (Loop_funcs lp) -> Forall P (Loop_funcs (f lp))) ->
  Forall P (funcs_of m' ls) -> Forall P (funcs_of m' (alter_Loop f m t ls)).
Proof.
  intros Hf. unfold alter_Loop. apply funcs_of_alter_Stack.
  intros st. unfold Stack_funcs. simpl. rewrite !Forall_app, !Forall_concat_map.
  intros [Hinit Hloops]. split; [ exact Hinit | ].
  intros tl Hin. apply (In_alter_key f t) in Hin as [Hin | [lp [Hin Hs]]].
  - apply Hloops, Hin.
  - rewrite Hs. apply Hf. apply (Hloops _ Hin).
Qed.

(** An update of the Train stack leaves the other stacks as they were. *)
Lemma StackOf_alter_other (g : Stack -> Stack) (m m' : Modes) (ls : Stacks) :
  m <> m' -> StackOf m' (alter_Stack g m ls) = StackOf m' ls.
Proof.
  intros Hne. rewrite StackOf_alter_Stack. destruct (decide (m = m')); congruence.
Qed.

Lemma Loop_funcs_OnStart_Add (name : string) (fn : Closure) (lp : Loop) :
  P {| Name := name; Func := fn |} ->
  Forall P (Loop_funcs lp) -> Forall P (Loop_funcs (OnStart_Add name fn lp)).
Proof.
  unfold Loop_funcs, OnStart_Add, Add. simpl. rewrite !Forall_app.
  intros Hp (H1 & H2 & H3 & H4). repeat split; auto.
Qed.

Lemma Loop_funcs_OnEnd_Add (name : string) (fn : Closure) (lp : Loop) :
  P {| Name := name; Func := fn |} ->
  Forall P (Loop_funcs lp) -> Forall P (Loop_funcs (OnEnd_Add name fn lp)).
Proof.
  unfold Loop_funcs, OnEnd_Add, Add. simpl. rewrite !Forall_app.
  intros Hp (H1 & H2 & H3 & H4). repeat split; auto.
Qed.

Lemma Loop_funcs_IsDone_AddBool (name : string) (fn : Closure) (lp : Loop) :
  P {| Name := name; Func := fn |} ->
  Forall P (Loop_funcs lp) -> Forall P (Loop_funcs (IsDone_AddBool name fn lp)).
Proof.
  unfold Loop_funcs, IsDone_AddBool, Add. simpl. rewrite !Forall_app.
  intros Hp (H1 & H2 & H3 & H4). repeat split; auto.
Qed.

Lemma Stack_funcs_OnInit_Add (name : string) (fn : Closure) (st : Stack) :
  P {| Name := name; Func := fn |} ->
  Forall P (Stack_funcs st) -> Forall P (Stack_funcs (OnInit_Add name fn st)).
Proof.
  unfold Stack_funcs, OnInit_Add, Add. simpl. rewrite !Forall_app.
  intros Hp (H1 & H2). repeat split; auto.
Qed.

Lemma with_Loop_funcs (f : Loop -> Loop) (m : Modes) (t : Times) (m' : Modes)
    (ls ls' : Stacks) :
  (forall lp, Forall P (Loop_funcs lp) -> Forall P (Loop_funcs (f lp))) ->
  with_Loop m t f ls = Some ls' ->
  Forall P (funcs_of m' ls) -> Forall P (funcs_of m' ls').
Proof.
  unfold with_Loop. intros Hf. destruct (LoopOf m t ls); [ | discriminate ].
  intros [= <-]. apply funcs_of_alter_Loop, Hf.
Qed.

Lemma with_Stack_funcs (g : Stack -> Stack) (m m' : Modes) (ls ls' : Stacks) :
  (forall st, Forall P (Stack_funcs st) -> Forall P (Stack_funcs (g st))) ->
  with_Stack m g ls = Some ls' ->
  Forall P (funcs_of m' ls) -> Forall P (funcs_of m' ls').
Proof.
  unfold with_Stack. intros Hg. destruct (StackOf m ls); [ | discriminate ].
  intros [= <-]. apply funcs_of_alter_Stack, Hg.
Qed.

Lemma AddApplyInputs_funcs (modes : list Modes) (m' : Modes) :
  P {| Name := "ApplyInputs"; Func := FnApplyInputs |} ->
  forall ls ls',
    AddApplyInputs modes ls = Some ls' ->
    Forall P (funcs_of m' ls) -> Forall P (funcs_of m' ls').
Proof.
  intros Hp. induction modes as [ | m modes IH]; simpl; intros ls ls' Hadd HP.
  - injection Hadd as <-. exact HP.
  - destruct (with_Loop m Trial (OnStart_Add "ApplyInputs" FnApplyInputs) ls)
      as [ls1 | ] eqn:E; simpl in Hadd; [ | discriminate ].
    apply (IH ls1 ls' Hadd).
    apply (with_Loop_funcs _ _ _ _ _ _ (fun lp => Loop_funcs_OnStart_Add _ _ lp Hp) E HP).
Qed.

Lemma AddOnEndToAll_funcs (name : string) (fn : Modes -> Times -> Closure)
    (m' : Modes) (ls : Stacks) :
  (forall m t, P {| Name := name; Func := fn m t |}) ->
  Forall P (funcs_of m' ls) -> Forall P (funcs_of m' (AddOnEndToAll name fn ls)).
Proof.
  intros Hp. unfold funcs_of, StackOf, AddOnEndToAll. simpl.
  induction (Stacks_ ls) as [ | [m st] sts IH]; simpl; [ auto | ].
  destruct (decide (m = m')); [ | exact IH ].
  unfold Stack_funcs. simpl. rewrite !Forall_app, !Forall_concat_map.
  intros [Hinit Hloops]. split; [ exact Hinit | ].
  intros tl Hin. apply in_map_iff in Hin as [[t lp] [<- Hin]]. simpl.
  apply Loop_funcs_OnEnd_Add; [ apply Hp | apply (Hloops _ Hin) ].
Qed.

Lemma lib_only_funcs (helper : Stacks -> option Stacks) (m' : Modes) (ls ls' : Stacks) :
  lib_only helper ->
  (forall nf, is_lib (Func nf) = true -> P nf) ->
  helper ls = Some ls' ->
  Forall P (funcs_of m' ls) -> Forall P (funcs_of m' ls').
Proof.
  intros Hlib Hp Hrun HP. rewrite List.Forall_forall in HP. apply List.Forall_forall.
  intros nf Hin. destruct (Hlib ls ls' m' nf Hrun Hin) as [Hold | Hl]; auto.
Qed.

(** What a run fires is registered on the stack. *)
Lemma Events_at_funcs (c : Z) (lp : Loop) :
  Forall P (Loop_funcs lp) -> Forall P (Events_at c lp).
Proof.
  unfold Loop_funcs, Events_at. rewrite !Forall_app, !Forall_concat_map.
  intros (_ & Hev & _) ev Hin. apply filter_In in Hin as [Hin _]. apply Hev, Hin.
Qed.

Lemma ticks_funcs (done : Times -> Z -> bool) (t : Times) (lp : Loop)
    (inner : NamedFuncs) (n : nat) :
  Forall P (Loop_funcs lp) -> Forall P inner ->
  forall c, Forall P (ticks done t lp inner n c).
Proof.
  intros Hlp Hinner. pose proof Hlp as Hlp'. unfold Loop_funcs in Hlp'.
  rewrite !Forall_app in Hlp'. destruct Hlp' as (_ & _ & _ & Hd).
  induction n as [ | n IH]; intros c; simpl; [ constructor | ].
  rewrite !Forall_app. repeat split; auto using Events_at_funcs.
  destruct (done t c); [ constructor | apply IH ].
Qed.

Lemma run_loops_funcs (done : Times -> Z -> bool) (loops : list (Times * Loop)) :
  (forall tl, In tl loops -> Forall P (Loop_funcs (snd tl))) ->
  Forall P (run_loops done loops).
Proof.
  induction loops as [ | [t lp] finer IH]; simpl; intros Hall; [ constructor | ].
  pose proof (Hall (t, lp) (or_introl eq_refl)) as Hlp. simpl in Hlp.
  pose proof Hlp as Hlp'. unfold Loop_funcs in Hlp'.
  rewrite !Forall_app in Hlp'. destruct Hlp' as (Hs & _ & He & _).
  rewrite !Forall_app. split; [ exact Hs | split; [ | exact He ] ].
  apply ticks_funcs; [ exact Hlp | ].
  apply IH. intros tl Hin. apply Hall. right. exact Hin.
Qed.

Lemma Run_fired_funcs (done : Times -> Z -> bool) (m : Modes) (ls : Stacks) :
  Forall P (funcs_of m ls) ->
  Forall (fun c => exists nf, P nf /\ Func nf = c) (Run_fired done m ls).
Proof.
  unfold funcs_of, Run_fired. destruct (StackOf m ls) as [st | ]; [ | constructor ].
  unfold Stack_funcs. rewrite Forall_app, Forall_concat_map. intros [Hinit Hloops].
  apply List.Forall_forall. intros c Hin. apply in_map_iff in Hin as [nf [<- Hin]].
  exists nf. split; [ | reflexivity ].
  apply in_app_or in Hin as [Hin | Hin].
  - rewrite List.Forall_forall in Hinit. apply Hinit, Hin.
  - pose proof (run_loops_funcs done (Loops st) Hloops) as Hrun.
    rewrite List.Forall_forall in Hrun. apply Hrun, Hin.
Qed.

End Registration.

Section RewardRegistration.

Import looper.

Variable LooperStdPhases : Stacks -> option Stacks.
Variable LooperSimCycleAndLearn : Stacks -> option Stacks.
Variable LooperResetLogBelow : Stacks -> option Stacks.
Variable LooperUpdateNetView : Stacks -> option Stacks.
Variable LooperUpdatePlots : Stacks -> option Stacks.

Hypothesis StdPhases_lib : lib_only LooperStdPhases.
Hypothesis SimCycleAndLearn_lib : lib_only LooperSimCycleAndLearn.
Hypothesis ResetLogBelow_lib : lib_only LooperResetLogBelow.
Hypothesis UpdateNetView_lib : lib_only LooperUpdateNetView.
Hypothesis UpdatePlots_lib : lib_only LooperUpdatePlots.

Lemma lib_not_reward (nf : NamedFunc) : is_lib (Func nf) = true -> not_reward nf.
Proof. unfold not_reward. destruct (Func nf); simpl; congruence. Qed.

(** The registration of the reward changes the Train stack only. *)
Lemma RegisterApplyReward_other (ls0 ls1 : Stacks) :
  RegisterApplyReward ls0 = Some ls1 -> StackOf Test ls1 = StackOf Test ls0.
Proof.
  unfold RegisterApplyReward. intros Hreg.
  apply bind_Some in Hreg as (cyc & _ & Hreg).
  apply bind_Some in Hreg as (ev & _ & Hreg).
  injection Hreg as <-. unfold alter_Loop. apply StackOf_alter_other. discriminate.
Qed.

Lemma FindName_app (before : string) (pre : NamedFuncs) (f : NamedFunc) (post : NamedFuncs) :
  Name f = before ->
  (forall g, In g pre -> Name g <> before) ->
  FindName before (pre ++ f :: post) = Some (length pre).
Proof.
  intros Hf. induction pre as [ | g pre IH]; simpl; intros Hpre.
  - rewrite Hf, String.eqb_refl. reflexivity.
  - destruct (String.eqb_spec (Name g) before) as [Hg | _].
    + exfalso. apply (Hpre g); auto.
    + rewrite IH; [ reflexivity | ]. intros g' Hg'. apply Hpre. auto.
Qed.

(** [InsertBefore] puts the new function immediately before the first
    function of the given name. *)
Lemma InsertBefore_position (before nm : string) (fn : Closure)
    (pre : NamedFuncs) (f : NamedFunc) (post : NamedFuncs) :
  Name f = before ->
  (forall g, In g pre -> Name g <> before) ->
  InsertBefore before nm fn (pre ++ f :: post) =
  pre ++ {| Name := nm; Func := fn |} :: f :: post.
Proof.
  intros Hf Hpre. unfold InsertBefore, InsertAt.
  rewrite (FindName_app before pre f post Hf Hpre).
  rewrite firstn_app, Nat.sub_diag, firstn_all. simpl. rewrite app_nil_r.
  rewrite skipn_app, Nat.sub_diag, skipn_all. reflexivity.
Qed.

Ltac not_reward_closure := intros; unfold not_reward; simpl; discriminate.

Ltac keeps_not_reward E Hprev :=
  first
    [ eapply with_Loop_funcs; [ | exact E | exact Hprev ]; intros lp;
      first [ apply Loop_funcs_OnStart_Add | apply Loop_funcs_OnEnd_Add
            | apply Loop_funcs_IsDone_AddBool ];
      not_reward_closure
    | eapply with_Stack_funcs; [ | exact E | exact Hprev ]; intros st;
      apply Stack_funcs_OnInit_Add; not_reward_closure ].

(** The stacks [ConfigLoops] builds register no reward closure on the Test
    stack. *)
Lemma ConfigLoops_Test_not_reward (cfg : Config) (ls : Stacks) :
  ConfigLoops_stacks LooperStdPhases LooperSimCycleAndLearn LooperResetLogBelow
    LooperUpdateNetView LooperUpdatePlots cfg = Some ls ->
  Forall not_reward (funcs_of Test ls).
Proof.
  unfold ConfigLoops_stacks. cbv zeta. intros Hcfg.
  apply bind_Some in Hcfg as (ls1 & E1 & Hcfg).
  apply bind_Some in Hcfg as (ls2 & E2 & Hcfg).
  apply bind_Some in Hcfg as (ls3 & E3 & Hcfg).
  apply bind_Some in Hcfg as (ls4 & E4 & Hcfg).
  apply bind_Some in Hcfg as (ls5 & E5 & Hcfg).
  apply bind_Some in Hcfg as (ls6 & E6 & Hcfg).
  apply bind_Some in Hcfg as (ls7 & E7 & Hcfg).
  apply bind_Some in Hcfg as (ls8 & E8 & Hcfg).
  apply bind_Some in Hcfg as (ls9 & E9 & Hcfg).
  apply bind_Some in Hcfg as (ls10 & E10 & Hcfg).
  apply bind_Some in Hcfg as (ls11 & E11 & Hcfg).
  apply bind_Some in Hcfg as (ls12 & E12 & Hcfg).
  apply bind_Some in Hcfg as (ls13 & E13 & Hcfg).
  apply bind_Some in Hcfg as (ls14 & E14 & Hcfg).
  apply bind_Some in Hcfg as (ls15 & E15 & Hcfg).
  apply bind_Some in Hcfg as (ls16 & E16 & Hcfg).
  injection Hcfg as <-.
  assert (Forall not_reward (funcs_of Test ls1)) as H1.
  { apply (lib_only_funcs _ _ _ _ _ StdPhases_lib lib_not_reward E1). constructor. }
  assert (Forall not_reward (funcs_of Test ls2)) as H2
    by apply (lib_only_funcs _ _ _ _ _ SimCycleAndLearn_lib lib_not_reward E2 H1).
  assert (Forall not_reward (funcs_of Test ls3)) as H3 by keeps_not_reward E3 H2.
  assert (Forall not_reward (funcs_of Test ls4)) as H4.
  { eapply AddApplyInputs_funcs; [ | exact E4 | exact H3 ]. not_reward_closure. }
  assert (Forall not_reward (funcs_of Test ls5)) as H5 by keeps_not_reward E5 H4.
  assert (Forall not_reward (funcs_of Test ls6)) as H6 by keeps_not_reward E6 H5.
  assert (Forall not_reward (funcs_of Test ls7)) as H7.
  { unfold funcs_of. rewrite (RegisterApplyReward_other _ _ E7). exact H6. }
  assert (Forall not_reward (funcs_of Test ls8)) as H8 by keeps_not_reward E8 H7.
  assert (Forall not_reward (funcs_of Test ls9)) as H9 by keeps_not_reward E9 H8.
  assert (Forall not_reward (funcs_of Test ls10)) as H10 by keeps_not_reward E10 H9.
  assert (Forall not_reward (funcs_of Test ls11)) as H11.
  { apply (lib_only_funcs _ _ _ _ _ ResetLogBelow_lib lib_not_reward E11).
    apply AddOnEndToAll_funcs; [ not_reward_closure | exact H10 ]. }
  assert (Forall not_reward (funcs_of Test ls12)) as H12 by keeps_not_reward E12 H11.
  assert (Forall not_reward (funcs_of Test ls13)) as H13
    by apply (lib_only_funcs _ _ _ _ _ UpdateNetView_lib lib_not_reward E13 H12).
  assert (Forall not_reward (funcs_of Test ls14)) as H14
    by apply (lib_only_funcs _ _ _ _ _ UpdatePlots_lib lib_not_reward E14 H13).
  assert (Forall not_reward (funcs_of Test ls15)) as H15 by keeps_not_reward E15 H14.
  keeps_not_reward E16 H15.
Qed.

(** C9. On the stacks [ConfigLoops] builds, no function registered on the
    Test stack is the closure that calls [ApplyReward], so a Test-mode run,
    whatever its [IsDone] predicates answer, never fires it. The registration
    changes the Train stack only, and there puts [ApplyReward] in the
    [MinusPhase:End] event of the Cycle loop, immediately before the function
    named [MinusPhase:End]. The library helpers are any that register
    closures of their own only. *)
Theorem ApplyReward_not_in_Test (cfg : Config) (ls : Stacks) :
  ConfigLoops_stacks LooperStdPhases LooperSimCycleAndLearn LooperResetLogBelow
    LooperUpdateNetView LooperUpdatePlots cfg = Some ls ->
  (forall nf, In nf (funcs_of Test ls) -> Func nf <> FnApplyReward) /\
  (forall done, ~ In FnApplyReward (Run_fired done Test ls)) /\
  (forall ls0 ls1, RegisterApplyReward ls0 = Some ls1 ->
                   StackOf Test ls1 = StackOf Test ls0) /\
  (forall ev pre f post,
      OnEvent ev = pre ++ f :: post ->
      Name f = "MinusPhase:End"%string ->
      (forall g, In g pre -> Name g <> "MinusPhase:End"%string) ->
      OnEvent (InsertApplyReward ev) =
      pre ++ {| Name := "ApplyReward"; Func := FnApplyReward |} :: f :: post).
Proof.
  intros Hcfg. pose proof (ConfigLoops_Test_not_reward cfg ls Hcfg) as Hnot.
  split; [ | split; [ | split ] ].
  - intros nf Hin. rewrite List.Forall_forall in Hnot. apply (Hnot nf Hin).
  - intros done Hin.
    pose proof (Run_fired_funcs not_reward done Test ls Hnot) as Hrun.
    rewrite List.Forall_forall in Hrun.
    destruct (Hrun _ Hin) as [nf [Hnf Heq]]. apply Hnf, Heq.
  - apply RegisterApplyReward_other.
  - intros ev pre f post Hev Hf Hpre. unfold InsertApplyReward. simpl.
    rewrite Hev. apply InsertBefore_position; assumption.
Qed.

End RewardRegistration.

(* ===================================================================== *)
(** * Every hook on its own stack; the phase event [ConfigLoops] needs *)
(* ===================================================================== *)

Section StackSteps.
Import looper.
Variable P : NamedFunc -> Prop.

Lemma funcs_of_alter_Stack_other (g : Stack -> Stack) (m m' : Modes) (ls : Stacks) :
  m <> m' -> funcs_of m' (alter_Stack g m ls) = funcs_of m' ls.
Proof. intros Hne. unfold funcs_of. rewrite StackOf_alter_other by exact Hne. reflexivity. Qed.

Lemma with_Loop_other (f : Loop -> Loop) (m : Modes) (t : Times) (m' : Modes) (ls ls' : Stacks) :
  m <> m' -> with_Loop m t f ls = Some ls' -> funcs_of m' ls' = funcs_of m' ls.
Proof.
  unfold with_Loop. intros Hne. destruct (LoopOf m t ls); [ | discriminate ].
  intros [= <-]. unfold alter_Loop. apply funcs_of_alter_Stack_other, Hne.
Qed.

Lemma with_Stack_other (g : Stack -> Stack) (m m' : Modes) (ls ls' : Stacks) :
  m <> m' -> with_Stack m g ls = Some ls' -> funcs_of m' ls' = funcs_of m' ls.
Proof.
  unfold with_Stack. intros Hne. destruct (StackOf m ls); [ | discriminate ].
  intros [= <-]. apply funcs_of_alter_Stack_other, Hne.
Qed.

Lemma InsertBefore_Forall (before nm : string) (fn : Closure) (funcs : NamedFuncs) :
  P {| Name := nm; Func := fn |} -> Forall P funcs ->
  Forall P (InsertBefore before nm fn funcs).
Proof.
  intros Hp Hf. unfold InsertBefore. destruct (FindName before funcs) as [i | ]; [ | exact Hf ].
  unfold InsertAt. rewrite <- (firstn_skipn i funcs) in Hf.
  apply Forall_app in Hf as [H1 H2]. apply Forall_app. split; [ exact H1 | ].
  constructor; assumption.
Qed.

Lemma alter_Event_funcs (f : Event -> Event) (name : string) (es : list Event) :
  (forall ev, Forall P (OnEvent ev) -> Forall P (OnEvent (f ev))) ->
  Forall P (concat (List.map OnEvent es)) ->
  Forall P (concat (List.map OnEvent (alter_Event f name es))).
Proof.
  intros Hf. induction es as [ | ev es IH]; simpl; [ auto | ].
  rewrite Forall_app. intros [Hev Hes].
  destruct (String.eqb (Event_Name ev) name); simpl; rewrite Forall_app; auto.
Qed.

Lemma RegisterApplyReward_funcs (m' : Modes) (ls ls' : Stacks) :
  P {| Name := "ApplyReward"; Func := FnApplyReward |} ->
  RegisterApplyReward ls = Some ls' ->
  Forall P (funcs_of m' ls) -> Forall P (funcs_of m' ls').
Proof.
  intros Hp Hreg. unfold RegisterApplyReward in Hreg.
  apply bind_Some in Hreg as (cyc & _ & Hreg).
  apply bind_Some in Hreg as (ev & _ & Hreg).
  injection Hreg as <-. apply funcs_of_alter_Loop.
  intros lp. unfold Loop_funcs. simpl. rewrite !Forall_app.
  intros (H1 & H2 & H3 & H4). repeat split; auto.
  apply alter_Event_funcs; [ | exact H2 ].
  intros e He. unfold InsertApplyReward. simpl. apply InsertBefore_Forall; assumption.
Qed.

Lemma AddOnEndToAll_funcs_mode (name : string) (fn : Modes -> Times -> Closure)
    (m' : Modes) (ls : Stacks) :
  (forall t, P {| Name := name; Func := fn m' t |}) ->
  Forall P (funcs_of m' ls) -> Forall P (funcs_of m' (AddOnEndToAll name fn ls)).
Proof.
  intros Hp. unfold funcs_of, StackOf, AddOnEndToAll. simpl.
  induction (Stacks_ ls) as [ | [m st] sts IH]; simpl; [ auto | ].
  destruct (decide (m = m')) as [-> | Hne]; [ | exact IH ].
  unfold Stack_funcs. simpl. rewrite !Forall_app, !Forall_concat_map.
  intros [Hinit Hloops]. split; [ exact Hinit | ].
  intros tl Hin. apply in_map_iff in Hin as [[t lp] [<- Hin]]. simpl.
  apply Loop_funcs_OnEnd_Add; [ apply Hp | apply (Hloops _ Hin) ].
Qed.

End StackSteps.

Section HookPlaces.

Import looper.

Variable LooperStdPhases : Stacks -> option Stacks.
Variable LooperSimCycleAndLearn : Stacks -> option Stacks.
Variable LooperResetLogBelow : Stacks -> option Stacks.
Variable LooperUpdateNetView : Stacks -> option Stacks.
Variable LooperUpdatePlots : Stacks -> option Stacks.

Hypothesis StdPhases_lib : lib_only LooperStdPhases.
Hypothesis SimCycleAndLearn_lib : lib_only LooperSimCycleAndLearn.
Hypothesis ResetLogBelow_lib : lib_only LooperResetLogBelow.
Hypothesis UpdateNetView_lib : lib_only LooperUpdateNetView.
Hypothesis UpdatePlots_lib : lib_only LooperUpdatePlots.

Lemma lib_fits (m : Modes) (nf : NamedFunc) : is_lib (Func nf) = true -> fits_stack m nf.
Proof.
  unfold fits_stack. destruct (Func nf); simpl; try discriminate.
  intros _. repeat split; intros; congruence.
Qed.

Lemma Train_ne_Test : Train <> Test.
Proof. discriminate. Qed.

Lemma Test_ne_Train : Test <> Train.
Proof. discriminate. Qed.

Ltac fits_closure :=
  intros; unfold fits_stack; simpl; repeat split; intros; congruence.

(** One step of [ConfigLoops] on a loop or on a stack of mode [m0] keeps
    [fits_stack m]: on the other stack nothing changes, on the same stack the
    new function fits. *)
Ltac keeps_fit E Hprev :=
  first
    [ rewrite (with_Loop_other _ _ _ _ _ _ Train_ne_Test E); exact Hprev
    | rewrite (with_Loop_other _ _ _ _ _ _ Test_ne_Train E); exact Hprev
    | rewrite (with_Stack_other _ _ _ _ _ Train_ne_Test E); exact Hprev
    | rewrite (with_Stack_other _ _ _ _ _ Test_ne_Train E); exact Hprev
    | eapply with_Loop_funcs; [ | exact E | exact Hprev ]; intros lp;
      first [ apply Loop_funcs_OnStart_Add | apply Loop_funcs_OnEnd_Add
            | apply Loop_funcs_IsDone_AddBool ];
      fits_closure
    | eapply with_Stack_funcs; [ | exact E | exact Hprev ]; intros st;
      apply Stack_funcs_OnInit_Add; fits_closure ].

Lemma ConfigLoops_fits (cfg : Config) (ls : Stacks) (m : Modes) :
  ConfigLoops_stacks LooperStdPhases LooperSimCycleAndLearn LooperResetLogBelow
    LooperUpdateNetView LooperUpdatePlots cfg = Some ls ->
  Forall (fits_stack m) (funcs_of m ls).
Proof.
  unfold ConfigLoops_stacks. cbv zeta. intros Hcfg.
  apply bind_Some in Hcfg as (ls1 & E1 & Hcfg).
  apply bind_Some in Hcfg as (ls2 & E2 & Hcfg).
  apply bind_Some in Hcfg as (ls3 & E3 & Hcfg).
  apply bind_Some in Hcfg as (ls4 & E4 & Hcfg).
  apply bind_Some in Hcfg as (ls5 & E5 & Hcfg).
  apply bind_Some in Hcfg as (ls6 & E6 & Hcfg).
  apply bind_Some in Hcfg as (ls7 & E7 & Hcfg).
  apply bind_Some in Hcfg as (ls8 & E8 & Hcfg).
  apply bind_Some in Hcfg as (ls9 & E9 & Hcfg).
  apply bind_Some in Hcfg as (ls10 & E10 & Hcfg).
  apply bind_Some in Hcfg as (ls11 & E11 & Hcfg).
  apply bind_Some in Hcfg as (ls12 & E12 & Hcfg).
  apply bind_Some in Hcfg as (ls13 & E13 & Hcfg).
  apply bind_Some in Hcfg as (ls14 & E14 & Hcfg).
  apply bind_Some in Hcfg as (ls15 & E15 & Hcfg).
  apply bind_Some in Hcfg as (ls16 & E16 & Hcfg).
  injection Hcfg as <-.
  assert (Forall (fits_stack m) (funcs_of m ls1)) as H1.
  { apply (lib_only_funcs _ _ _ _ _ StdPhases_lib (lib_fits m) E1).
    destruct m; constructor. }
  assert (Forall (fits_stack m) (funcs_of m ls2)) as H2
    by apply (lib_only_funcs _ _ _ _ _ SimCycleAndLearn_lib (lib_fits m) E2 H1).
  assert (Forall (fits_stack m) (funcs_of m ls4)) as H4.
  { eapply AddApplyInputs_funcs; [ | exact E4 | ]; [ fits_closure | ].
    destruct m; keeps_fit E3 H2. }
  assert (Forall (fits_stack m) (funcs_of m ls6)) as H6.
  { assert (Forall (fits_stack m) (funcs_of m ls5)) as H5 by (destruct m; keeps_fit E5 H4).
    destruct m; keeps_fit E6 H5. }
  assert (Forall (fits_stack m) (funcs_of m ls7)) as H7.
  { apply (RegisterApplyReward_funcs (fits_stack m) m ls6 ls7); [ fits_closure | exact E7 | exact H6 ]. }
  assert (Forall (fits_stack m) (funcs_of m ls10)) as H10.
  { assert (Forall (fits_stack m) (funcs_of m ls8)) as H8 by (destruct m; keeps_fit E8 H7).
    assert (Forall (fits_stack m) (funcs_of m ls9)) as H9 by (destruct m; keeps_fit E9 H8).
    destruct m; keeps_fit E10 H9. }
  assert (Forall (fits_stack m) (funcs_of m ls11)) as H11.
  { apply (lib_only_funcs _ _ _ _ _ ResetLogBelow_lib (lib_fits m) E11).
    apply AddOnEndToAll_funcs_mode; [ fits_closure | exact H10 ]. }
  assert (Forall (fits_stack m) (funcs_of m ls12)) as H12 by (destruct m; keeps_fit E12 H11).
  assert (Forall (fits_stack m) (funcs_of m ls13)) as H13
    by apply (lib_only_funcs _ _ _ _ _ UpdateNetView_lib (lib_fits m) E13 H12).
  assert (Forall (fits_stack m) (funcs_of m ls14)) as H14
    by apply (lib_only_funcs _ _ _ _ _ UpdatePlots_lib (lib_fits m) E14 H13).
  assert (Forall (fits_stack m) (funcs_of m ls15)) as H15 by (destruct m; keeps_fit E15 H14).
  destruct m; keeps_fit E16 H15.
Qed.

(** On the stacks [ConfigLoops] builds, every hook sits on the stack it is
    meant for. None of [Init], [NewRun], [RunDone], [NZeroStop],
    [TestAtInterval] and [RunStats] is registered on the Test stack, so a
    Test run fires none of them: it has no early stop and cannot start
    another Test run. [LogTestErrors] is not on the Train stack. A [Log]
    closure on a stack carries that stack's mode. The library helpers are any
    that register closures of their own only. *)
Theorem hooks_fit_their_stack (cfg : Config) (ls : Stacks) :
  ConfigLoops_stacks LooperStdPhases LooperSimCycleAndLearn LooperResetLogBelow
    LooperUpdateNetView LooperUpdatePlots cfg = Some ls ->
  (forall nf, In nf (funcs_of Test ls) -> train_hook (Func nf) = false) /\
  (forall done c, In c (Run_fired done Test ls) -> train_hook c = false) /\
  (forall nf, In nf (funcs_of Train ls) -> Func nf <> FnLogTestErrors) /\
  (forall m nf m' t, In nf (funcs_of m ls) -> Func nf = FnLog m' t -> m' = m).
Proof.
  intros Hcfg.
  pose proof (fun m => ConfigLoops_fits cfg ls m Hcfg) as Hfit.
  split; [ | split; [ | split ] ].
  - intros nf Hin. pose proof (Hfit Test) as HT. rewrite List.Forall_forall in HT.
    apply (HT nf Hin). reflexivity.
  - intros done c Hin.
    pose proof (Run_fired_funcs (fits_stack Test) done Test ls (Hfit Test)) as Hrun.
    rewrite List.Forall_forall in Hrun.
    destruct (Hrun _ Hin) as [nf [Hnf <-]]. apply Hnf. reflexivity.
  - intros nf Hin. pose proof (Hfit Train) as HT. rewrite List.Forall_forall in HT.
    apply (HT nf Hin). reflexivity.
  - intros m nf m' t Hin. pose proof (Hfit m) as HT. rewrite List.Forall_forall in HT.
    apply (HT nf Hin).
Qed.

End HookPlaces.

Section PhaseEvent.

Import looper.

Variable LooperStdPhases : Stacks -> option Stacks.
Variable LooperSimCycleAndLearn : Stacks -> option Stacks.
Variable LooperResetLogBelow : Stacks -> option Stacks.
Variable LooperUpdateNetView : Stacks -> option Stacks.
Variable LooperUpdatePlots : Stacks -> option Stacks.

(** The loops' events are left alone by the steps before the reward is
    registered. *)
Lemma LoopOf_alter_Loop (f : Loop -> Loop) (m : Modes) (t : Times) (m' : Modes) (t' : Times)
    (ls : Stacks) :
  LoopOf m' t' (alter_Loop f m t ls) =
  if decide (m = m') then
    if decide (t = t') then option_map f (LoopOf m' t' ls) else LoopOf m' t' ls
  else LoopOf m' t' ls.
Proof.
  unfold LoopOf, alter_Loop. rewrite StackOf_alter_Stack.
  destruct (decide (m = m')) as [-> | Hm]; [ | reflexivity ].
  destruct (StackOf m' ls) as [st | ]; simpl.
  - rewrite lookup_alter_key. reflexivity.
  - destruct (decide (t = t')); reflexivity.
Qed.

Lemma LoopOf_alter_Stack_OnInit (fs : NamedFuncs -> NamedFuncs) (m m' : Modes) (t' : Times)
    (ls : Stacks) :
  LoopOf m' t' (alter_Stack (fun st => set_OnInit (fs (OnInit st)) st) m ls) = LoopOf m' t' ls.
Proof.
  unfold LoopOf. rewrite StackOf_alter_Stack.
  destruct (decide (m = m')); [ | reflexivity ].
  destruct (StackOf m' ls); reflexivity.
Qed.

Lemma with_Loop_LoopOf (f : Loop -> Loop) (m : Modes) (t : Times) (m' : Modes) (t' : Times)
    (ls ls' : Stacks) :
  t <> t' -> with_Loop m t f ls = Some ls' -> LoopOf m' t' ls' = LoopOf m' t' ls.
Proof.
  unfold with_Loop. intros Hne. destruct (LoopOf m t ls); [ | discriminate ].
  intros [= <-]. rewrite LoopOf_alter_Loop.
  destruct (decide (m = m')); [ | reflexivity ].
  destruct (decide (t = t')); [ contradiction | reflexivity ].
Qed.

Lemma AddApplyInputs_LoopOf (modes : list Modes) (m' : Modes) :
  forall ls ls', AddApplyInputs modes ls = Some ls' -> LoopOf m' Cycle ls' = LoopOf m' Cycle ls.
Proof.
  induction modes as [ | m modes IH]; simpl; intros ls ls' Hadd.
  - injection Hadd as <-. reflexivity.
  - apply bind_Some in Hadd as (ls1 & E & Hadd).
    rewrite (IH _ _ Hadd). eapply with_Loop_LoopOf; [ | exact E ]. discriminate.
Qed.

(** [ConfigLoops] needs the [MinusPhase:End] event that [LooperStdPhases]
    is to create on the Train Cycle loop: when the Train stack has no Cycle
    loop, or the loop no event of that name, once the two library helpers
    called first have run, [ConfigLoops] panics (the event pointer is nil
    where the reward is registered) and the loops are not set. *)
Theorem ConfigLoops_needs_phase_event `{Collaborators} (cfg : Config) (ls1 ls2 : Stacks) :
  LooperStdPhases (initial_stacks cfg) = Some ls1 ->
  LooperSimCycleAndLearn ls1 = Some ls2 ->
  LoopOf Train Cycle ls2 ≫= EventByName "MinusPhase:End" = None ->
  ConfigLoops_stacks LooperStdPhases LooperSimCycleAndLearn LooperResetLogBelow
    LooperUpdateNetView LooperUpdatePlots cfg = None /\
  (forall ss : Sim,
      Cfg ss = cfg ->
      ConfigLoops LooperStdPhases LooperSimCycleAndLearn LooperResetLogBelow
        LooperUpdateNetView LooperUpdatePlots ss = None).
Proof.
  intros E1 E2 Hev.
  assert (ConfigLoops_stacks LooperStdPhases LooperSimCycleAndLearn LooperResetLogBelow
            LooperUpdateNetView LooperUpdatePlots cfg = None) as Hnone.
  { unfold ConfigLoops_stacks. cbv zeta.
    change (looper.AddTime Test Cycle 100 _) with (initial_stacks cfg).
    rewrite E1. simpl. rewrite E2. simpl.
    destruct (with_Stack Train (OnInit_Add "Init" FnInit) ls2) as [ls3 | ] eqn:E3;
      [ simpl | reflexivity ].
    destruct (AddApplyInputs (List.map fst (Stacks_ ls3)) ls3) as [ls4 | ] eqn:E4;
      [ simpl | reflexivity ].
    destruct (with_Loop Train Run (OnStart_Add "NewRun" FnNewRun) ls4) as [ls5 | ] eqn:E5;
      [ simpl | reflexivity ].
    destruct (with_Loop Train Run (OnEnd_Add "RunDone" FnRunDone) ls5) as [ls6 | ] eqn:E6;
      [ simpl | reflexivity ].
    assert (LoopOf Train Cycle ls6 = LoopOf Train Cycle ls2) as HL.
    { assert (Run <> Cycle) as Hne by discriminate.
      rewrite (with_Loop_LoopOf _ _ _ _ _ _ _ Hne E6).
      rewrite (with_Loop_LoopOf _ _ _ _ _ _ _ Hne E5).
      rewrite (AddApplyInputs_LoopOf _ _ _ _ E4).
      unfold with_Stack in E3. destruct (StackOf Train ls2); [ | discriminate ].
      injection E3 as <-. apply (LoopOf_alter_Stack_OnInit (Add "Init" FnInit)). }
    assert (RegisterApplyReward ls6 = None) as ->; [ | reflexivity ].
    unfold RegisterApplyReward. rewrite HL.
    destruct (LoopOf Train Cycle ls2) as [cyc | ]; [ | reflexivity ].
    simpl in Hev |- *. rewrite Hev. reflexivity. }
  split; [ exact Hnone | ].
  intros ss <-. unfold ConfigLoops, bind, get, deref. rewrite Hnone. reflexivity.
Qed.

End PhaseEvent.

(* ===================================================================== *)
(** * [ApplyParams] and [StatCounters] *)
(* ===================================================================== *)

Section ParameterProofs.

Context `{Collaborators}.
Variable Params_SetAll :
  Network -> (string -> MatrixParams) -> Network * (string -> MatrixParams).
Variable CountersToStats : looper.Stack -> Stats -> Stats.


Lemma with_Loop_is_Some (m : Modes) (t : Times) (f : looper.Loop -> looper.Loop) (ls : looper.Stacks) :
  with_Loop m t f ls = option_map (fun _ => looper.alter_Loop f m t ls) (looper.LoopOf m t ls).
Proof. unfold with_Loop. destruct (looper.LoopOf m t ls); reflexivity. Qed.

Lemma StackOf_alter_Loop_OnInit (f : looper.Loop -> looper.Loop) (m : Modes) (t : Times) (m' : Modes)
    (ls : looper.Stacks) :
  option_map looper.OnInit (looper.StackOf m' (looper.alter_Loop f m t ls)) = option_map looper.OnInit (looper.StackOf m' ls).
Proof.
  unfold looper.alter_Loop. rewrite StackOf_alter_Stack.
  destruct (decide (m = m')); [ | reflexivity ].
  destruct (looper.StackOf m' ls); reflexivity.
Qed.

(** The loops after the first block of [ApplyParams]. *)
Lemma sync_loops (cfg : Config) (ls ls' : looper.Stacks) :
  (ls1 ← with_Loop Train Run (set_Counter_Max (NRuns cfg)) ls;
   with_Loop Train Epoch (set_Counter_Max (NEpochs cfg)) ls1) = Some ls' ->
  (forall m t, looper.LoopOf m t ls' = option_map (synced cfg m t) (looper.LoopOf m t ls)) /\
  (forall m, option_map looper.OnInit (looper.StackOf m ls') = option_map looper.OnInit (looper.StackOf m ls)) /\
  looper.Mode ls' = looper.Mode ls.
Proof.
  intros Hs. apply bind_Some in Hs as (ls1 & E1 & E2).
  rewrite with_Loop_is_Some in E1, E2.
  destruct (looper.LoopOf Train Run ls) as [run | ] eqn:Hrun; [ | discriminate ].
  injection E1 as <-.
  destruct (looper.LoopOf Train Epoch _) as [ep | ] eqn:Hep; [ | discriminate ].
  injection E2 as <-.
  split; [ | split ].
  - intros m t. rewrite !LoopOf_alter_Loop.
    destruct m, t; simpl;
      match goal with
      | |- context [looper.LoopOf ?m0 ?t0 ls] => destruct (looper.LoopOf m0 t0 ls); reflexivity
      end.
  - intros m. rewrite !StackOf_alter_Loop_OnInit. reflexivity.
  - reflexivity.
Qed.

(** With the loops configured, [ApplyParams] sets the maximum of the Train
    Run counter to [Config.NRuns] and of the Train Epoch counter to
    [Config.NEpochs], and changes nothing else of the loops: the Trial and
    Cycle loops of both stacks keep the maximum they had (a changed
    [Config.NTrials] is not taken over), every counter keeps its current
    value, every registered function stays, the current mode stays. *)
Theorem ApplyParams_syncs_loops (sp sp' : SimP) (ls : looper.Stacks) :
  Loops (Sim_ sp) = Some ls ->
  ApplyParams Params_SetAll sp = Some (tt, sp') ->
  exists ls',
    Loops (Sim_ sp') = Some ls' /\
    (forall m t,
        looper.LoopOf m t ls' = option_map (synced (Cfg (Sim_ sp)) m t) (looper.LoopOf m t ls)) /\
    (forall m lp, looper.LoopOf m Trial ls = Some lp -> looper.LoopOf m Trial ls' = Some lp) /\
    (forall m, option_map looper.OnInit (looper.StackOf m ls') = option_map looper.OnInit (looper.StackOf m ls)) /\
    looper.Mode ls' = looper.Mode ls.
Proof.
  intros Hls Hrun. unfold ApplyParams in Hrun. rewrite Hls in Hrun.
  apply bind_Some in Hrun as (loops & Hl & Hrun).
  apply bind_Some in Hl as (ls1 & E1 & Hl).
  apply bind_Some in Hl as (ls2 & E2 & Hl). injection Hl as <-.
  destruct (Params_SetAll _ _) as [net mx].
  apply bind_Some in Hrun as (go & _ & Hrun).
  apply bind_Some in Hrun as (nogo & _ & Hrun).
  injection Hrun as <-. exists ls2. split; [ reflexivity | ].
  destruct (sync_loops (Cfg (Sim_ sp)) ls ls2) as (Hloops & Hinit & Hmode).
  { rewrite E1. exact E2. }
  split; [ exact Hloops | ]. split; [ | split; assumption ].
  intros m lp Hlp. rewrite Hloops, Hlp. destruct m; reflexivity.
Qed.

(** After [ApplyParams] the [Matrix] parameters of [MatrixGo] and of
    [MatrixNoGo] hold the simulation's [BurstDaGain] and [DipDaGain],
    whatever the parameter sheets had set; every other layer's are as the
    sheets left them; the network is the one the sheets left; statistics,
    environments, configuration and trace are untouched. *)
Theorem ApplyParams_sets_gains (sp sp' : SimP) :
  ApplyParams Params_SetAll sp = Some (tt, sp') ->
  let gains := {| BurstGain := BurstDaGain (Sim_ sp); DipGain := DipDaGain (Sim_ sp) |} in
  Matrix sp' "MatrixGo" = gains /\
  Matrix sp' "MatrixNoGo" = gains /\
  (forall nm, nm <> "MatrixGo"%string -> nm <> "MatrixNoGo"%string ->
              Matrix sp' nm = snd (Params_SetAll (Net (Sim_ sp)) (Matrix sp)) nm) /\
  Net (Sim_ sp') = fst (Params_SetAll (Net (Sim_ sp)) (Matrix sp)) /\
  BurstDaGain (Sim_ sp') = BurstDaGain (Sim_ sp) /\
  DipDaGain (Sim_ sp') = DipDaGain (Sim_ sp) /\
  Stats_ (Sim_ sp') = Stats_ (Sim_ sp) /\ Envs_ (Sim_ sp') = Envs_ (Sim_ sp) /\
  Cfg (Sim_ sp') = Cfg (Sim_ sp) /\ Trace (Sim_ sp') = Trace (Sim_ sp).
Proof.
  intros Hrun gains. unfold ApplyParams in Hrun.
  apply bind_Some in Hrun as (loops & Hl & Hrun).
  destruct (Params_SetAll _ _) as [net mx].
  apply bind_Some in Hrun as (go & _ & Hrun).
  apply bind_Some in Hrun as (nogo & _ & Hrun).
  injection Hrun as <-. simpl.
  split; [ reflexivity | ]. split; [ reflexivity | ].
  split; [ | repeat split; reflexivity ].
  intros nm Hgo Hnogo. unfold set_gains.
  destruct (String.eqb_spec nm "MatrixNoGo"); [ congruence | ].
  destruct (String.eqb_spec nm "MatrixGo"); [ congruence | ]. reflexivity.
Qed.

(** [ApplyParams] returns (does not panic) exactly when the loops are not
    configured yet or have the Train Run and Train Epoch loops, and the
    network has the layers [MatrixGo] and [MatrixNoGo] once the parameter
    sheets are applied. *)
Theorem ApplyParams_returns_iff (sp : SimP) :
  ApplyParams Params_SetAll sp <> None <->
  (forall ls, Loops (Sim_ sp) = Some ls ->
              looper.LoopOf Train Run ls <> None /\ looper.LoopOf Train Epoch ls <> None) /\
  let net := fst (Params_SetAll (Net (Sim_ sp)) (Matrix sp)) in
  LayerByName "MatrixGo" net <> None /\ LayerByName "MatrixNoGo" net <> None.
Proof.
  unfold ApplyParams. cbv zeta.
  assert (forall loops : option looper.Stacks,
             (let '(net, mx) := Params_SetAll (Net (Sim_ sp)) (Matrix sp) in
              _ ← LayerByName "MatrixGo" net;
              _ ← LayerByName "MatrixNoGo" net;
              Some (tt, {| Sim_ := set_Net net (set_Loops loops (Sim_ sp));
                           CtxCycle := CtxCycle sp;
                           Matrix := set_gains "MatrixNoGo" (BurstDaGain (Sim_ sp))
                                       (DipDaGain (Sim_ sp))
                                       (set_gains "MatrixGo" (BurstDaGain (Sim_ sp))
                                          (DipDaGain (Sim_ sp)) mx) |})) <> None <->
             LayerByName "MatrixGo" (fst (Params_SetAll (Net (Sim_ sp)) (Matrix sp))) <> None /\
             LayerByName "MatrixNoGo" (fst (Params_SetAll (Net (Sim_ sp)) (Matrix sp))) <> None)
    as Htail.
  { intros loops. destruct (Params_SetAll _ _) as [net mx]. simpl.
    destruct (LayerByName "MatrixGo" net), (LayerByName "MatrixNoGo" net); simpl;
      split; try congruence; try (intros [? ?]; congruence).
    intros _. split; congruence. }
  destruct (Loops (Sim_ sp)) as [ls | ] eqn:Hls.
  - rewrite with_Loop_is_Some.
    destruct (looper.LoopOf Train Run ls) as [run | ] eqn:Hr; simpl.
    + rewrite with_Loop_is_Some, LoopOf_alter_Loop. simpl.
      destruct (looper.LoopOf Train Epoch ls) as [ep | ] eqn:He; simpl.
      * rewrite Htail. split.
        -- intros Hl. split; [ | exact Hl ]. intros ls0 [= <-]. split; congruence.
        -- intros [_ Hl]. exact Hl.
      * split; [ congruence | ]. intros [Hl _]. destruct (Hl ls eq_refl). congruence.
    + split; [ congruence | ]. intros [Hl _]. destruct (Hl ls eq_refl). congruence.
  - simpl. rewrite Htail. split.
    + intros Hl. split; [ intros ls0; discriminate | exact Hl ].
    + intros [_ Hl]. exact Hl.
Qed.

(** [StatCounters] returns exactly when the loops are configured with a
    stack for the context's mode and a Train Epoch loop. When it returns, the
    [Epoch] statistic is the counter of the Train Epoch loop, in Test mode
    too, and [Cycle] is the context's cycle; every other integer statistic
    (the write of [Trial] to itself included), and every float and string,
    is as the looper's [CountersToStats] left it; nothing but the statistics
    changes. *)
Theorem StatCounters_uses_train_epoch (sp : SimP) :
  (StatCounters CountersToStats sp <> None <->
   exists ls,
     Loops (Sim_ sp) = Some ls /\
     looper.StackOf (CtxMode (Sim_ sp)) ls <> None /\
     looper.LoopOf Train Epoch ls <> None) /\
  (forall sp',
      StatCounters CountersToStats sp = Some (tt, sp') ->
      exists ls st epc,
        Loops (Sim_ sp) = Some ls /\
        looper.StackOf (CtxMode (Sim_ sp)) ls = Some st /\
        looper.LoopOf Train Epoch ls = Some epc /\
        let counted := CountersToStats st (Stats_ (Sim_ sp)) in
        Stats_Int "Epoch" (Stats_ (Sim_ sp')) = looper.Cur (looper.Counter_ epc) /\
        Stats_Int "Cycle" (Stats_ (Sim_ sp')) = CtxCycle sp /\
        (forall k, k <> "Epoch"%string -> k <> "Cycle"%string ->
                   Stats_Int k (Stats_ (Sim_ sp')) = Stats_Int k counted) /\
        Floats32 (Stats_ (Sim_ sp')) = Floats32 counted /\
        Strings (Stats_ (Sim_ sp')) = Strings counted /\
        Net (Sim_ sp') = Net (Sim_ sp) /\ Loops (Sim_ sp') = Loops (Sim_ sp) /\
        Envs_ (Sim_ sp') = Envs_ (Sim_ sp) /\ CtxMode (Sim_ sp') = CtxMode (Sim_ sp) /\
        CtxCycle sp' = CtxCycle sp).
Proof.
  split.
  - unfold StatCounters, looper.LoopOf. cbv zeta.
    destruct (Loops (Sim_ sp)) as [ls | ]; simpl.
    + destruct (looper.StackOf (CtxMode (Sim_ sp)) ls) as [st | ] eqn:Hst; simpl.
      * destruct (looper.StackOf Train ls) as [trn | ] eqn:Ht; simpl.
        -- destruct (looper.lookup_key Epoch (looper.Loops trn)) as [epc | ] eqn:He; simpl.
           ++ split; [ intros _ | congruence ].
              exists ls. rewrite Hst, Ht, He. repeat split; congruence.
           ++ split; [ congruence | ].
              intros (ls0 & [= <-] & _ & Hn). rewrite Ht, He in Hn. congruence.
        -- split; [ congruence | ].
           intros (ls0 & [= <-] & _ & Hn). rewrite Ht in Hn. congruence.
      * split; [ congruence | ].
        intros (ls0 & [= <-] & Hn & _). rewrite Hst in Hn. congruence.
    + split; [ congruence | ]. intros (ls0 & Hn & _). discriminate.
  - unfold StatCounters. cbv zeta. intros sp' Hrun.
    apply bind_Some in Hrun as (ls & Hls & Hrun).
    apply bind_Some in Hrun as (st & Hst & Hrun).
    apply bind_Some in Hrun as (trn & Htrn & Hrun).
    apply bind_Some in Hrun as (epc & Hepc & Hrun).
    injection Hrun as <-. exists ls, st, epc.
    split; [ exact Hls | ]. split; [ exact Hst | ].
    split; [ unfold looper.LoopOf; rewrite Htrn; exact Hepc | ].
    cbn [Sim_ Stats_ set_Stats CtxCycle].
    split; [ | split; [ | split ] ].
    + rewrite !Stats_Int_SetInt. simpl. reflexivity.
    + rewrite !Stats_Int_SetInt. reflexivity.
    + intros k Hk1 Hk2. rewrite !Stats_Int_SetInt.
      destruct (decide ("Cycle"%string = k)); [ congruence | ].
      destruct (decide ("Trial"%string = k)) as [<- | ].
      * reflexivity.
      * destruct (decide ("Epoch"%string = k)); [ congruence | reflexivity ].
    + repeat split; reflexivity.
Qed.

End ParameterProofs.

(* ===================================================================== *)
(** * The priming simulation: trial statistics and the choice of patterns *)
(* ===================================================================== *)

Module PrimingFacts.
Import Priming.

(** [Split] gives at least one piece, the first is the part before the
    first separator, and there is one piece more than separators. *)
Lemma Split_nonempty (sep : ascii) (s : string) : Split sep s <> [].
Proof.
  destruct s as [ | c rest]; simpl; [ discriminate | ].
  destruct (Ascii.eqb c sep); [ discriminate | ].
  destruct (Split sep rest); discriminate.
Qed.

Lemma Split_head (sep : ascii) (s : string) :
  Split sep s !! 0%nat = Some (before_first sep s).
Proof.
  induction s as [ | c rest IH]; simpl; [ reflexivity | ].
  destruct (Ascii.eqb c sep); [ reflexivity | ].
  destruct (Split sep rest) as [ | piece more]; simpl in IH |- *; [ discriminate | ].
  injection IH as ->. reflexivity.
Qed.

Lemma Split_length (sep : ascii) (s : string) :
  length (Split sep s) = S (length (filter (fun c => Ascii.eqb c sep) (list_ascii_of_string s))).
Proof.
  induction s as [ | c rest IH]; simpl; [ reflexivity | ].
  destruct (Ascii.eqb c sep) eqn:E.
  - rewrite filter_cons. rewrite E. simpl. rewrite IH. 
    destruct (decide (Is_true true)); [ reflexivity | exfalso; auto ].
  - rewrite filter_cons, E. 
    destruct (decide (Is_true false)) as [[] | _].
    destruct (Split sep rest) as [ | piece more] eqn:Es; simpl in *; [ discriminate | exact IH ].
Qed.

(** Joining the pieces with the separator gives the string back. *)
Lemma Split_Join (sep : ascii) (s : string) : Join sep (Split sep s) = s.
Proof.
  induction s as [ | c rest IH]; simpl; [ reflexivity | ].
  destruct (Ascii.eqb_spec c sep) as [-> | Hne].
  - pose proof (Split_nonempty sep rest) as Hn.
    destruct (Split sep rest) as [ | piece more]; [ congruence | ].
    simpl in IH |- *. rewrite IH. reflexivity.
  - destruct (Split sep rest) as [ | piece more] eqn:Es; simpl in IH |- *.
    + exfalso. apply (Split_nonempty sep rest Es).
    + destruct more as [ | p2 more]; rewrite <- IH; reflexivity.
Qed.

(** There is a second piece exactly when the separator occurs. *)
Lemma Split_second (sep : ascii) (s : string) :
  is_Some (Split sep s !! 1%nat) <-> occurs sep s = true.
Proof.
  induction s as [ | c rest IH]; simpl.
  - split; [ intros [x Hx]; discriminate | discriminate ].
  - destruct (Ascii.eqb c sep); simpl.
    + split; [ reflexivity | intros _ ].
      pose proof (Split_head sep rest) as Hh. rewrite Hh. eauto.
    + destruct (Split sep rest) as [ | piece more]; simpl in *; exact IH.
Qed.


Lemma Stats_Float_SetFloat (k k' : string) (v : float64) (st : Stats) :
  Stats_Float k' (Stats_SetFloat k v st) = if decide (k = k') then v else Stats_Float k' st.
Proof.
  unfold Stats_Float, Stats_SetFloat. simpl. destruct (decide (k = k')) as [-> | Hne].
  - rewrite lookup_insert_eq. reflexivity.
  - rewrite lookup_insert_ne by exact Hne. reflexivity.
Qed.

Lemma Stats_String_SetString (k k' : string) (v : string) (st : Stats) :
  Stats_String k' (Stats_SetString k v st) = if decide (k = k') then v else Stats_String k' st.
Proof.
  unfold Stats_String, Stats_SetString. simpl. destruct (decide (k = k')) as [-> | Hne].
  - rewrite lookup_insert_eq. reflexivity.
  - rewrite lookup_insert_ne by exact Hne. reflexivity.
Qed.

Section TrialStatsProofs.

Context `{Collaborators}.

(** [TrialStats] panics exactly when the network has no [Output] layer or
    the name of the closest pattern holds no underscore: [cnmsp[1]] is then
    out of range. (The trial name needs none.) *)
Theorem TrialStats_panics_iff (ss : Sim) :
  TrialStats ss = None <->
  LayerByName "Output" (Net ss) = None \/
  occurs "_" (snd (ClosestPat (Net ss) (TrainAll_ ss))) = false.
Proof.
  unfold TrialStats.
  destruct (LayerByName "Output" (Net ss)) as [out | ]; simpl; [ | tauto ].
  destruct (MSE c0_5 out) as [sse avgsse].
  destruct (ClosestPat (Net ss) (TrainAll_ ss)) as [cor cnm]. simpl.
  rewrite !Split_head. simpl.
  pose proof (Split_second "_" cnm) as Hs.
  destruct (Split "_" cnm !! 1%nat) as [c1 | ]; simpl.
  - split; [ discriminate | ]. intros [Hn | Hn]; [ discriminate | ].
    destruct Hs as [Hs _]. rewrite Hs in Hn by eauto. discriminate.
  - split; [ intros _; right | reflexivity ].
    destruct (occurs "_" cnm); [ | reflexivity ].
    destruct Hs as [_ Hs]. destruct (Hs eq_refl) as [x Hx]. discriminate.
Qed.

(** When [TrialStats] returns, [TrlErr] is 0 if the name of the closest
    pattern and the trial name agree up to their first underscore (the whole
    name when there is none) and 1 otherwise; [IsA] is 1 if the closest
    name's second piece is exactly [a] and 0 otherwise, and [IsB] is the
    other of the two values, so [IsA + IsB = 1]; [Closest] and [Correl] are
    the closest pattern's name and its correlation (as a float64), [SSE] and
    [AvgSSE] what [MSE] gives for the [Output] layer; the other strings, and the
    floats other than the six written, are untouched, and so are the network
    and the environments. *)
Theorem TrialStats_scores (ss ss' : Sim) :
  TrialStats ss = Some ss' ->
  let cnm := snd (ClosestPat (Net ss) (TrainAll_ ss)) in
  let tnm := Stats_String "TrialName" (Stats_ ss) in
  Stats_Float "TrlErr" (Stats_ ss') =
    (if String.eqb (before_first "_" cnm) (before_first "_" tnm) then f64_zero else f64_one) /\
  (exists c1, Split "_" cnm !! 1%nat = Some c1 /\
     Stats_Float "IsA" (Stats_ ss') = (if String.eqb c1 "a" then f64_one else f64_zero) /\
     Stats_Float "IsB" (Stats_ ss') = (if String.eqb c1 "a" then f64_zero else f64_one)) /\
  Stats_String "Closest" (Stats_ ss') = cnm /\
  Stats_Float "Correl" (Stats_ ss') =
    float64_of_float32 (fst (ClosestPat (Net ss) (TrainAll_ ss))) /\
  (exists out, LayerByName "Output" (Net ss) = Some out /\
     Stats_Float "SSE" (Stats_ ss') = fst (MSE c0_5 out) /\
     Stats_Float "AvgSSE" (Stats_ ss') = snd (MSE c0_5 out)) /\
  (forall k, k <> "Closest"%string -> Stats_String k (Stats_ ss') = Stats_String k (Stats_ ss)) /\
  (forall k, ~ In k ["SSE"; "AvgSSE"; "Correl"; "TrlErr"; "IsA"; "IsB"]%string ->
             Stats_Float k (Stats_ ss') = Stats_Float k (Stats_ ss)) /\
  Net ss' = Net ss /\ EnvType ss' = EnvType ss /\
  TrnEnv ss' = TrnEnv ss /\ TstEnv ss' = TstEnv ss.
Proof.
  intros Hrun. cbv zeta. unfold TrialStats in Hrun.
  apply bind_Some in Hrun as (out & Hout & Hrun).
  destruct (MSE c0_5 out) as [sse avgsse] eqn:Hmse.
  destruct (ClosestPat (Net ss) (TrainAll_ ss)) as [cor cnm]. cbn [fst snd].
  rewrite !Split_head in Hrun. cbn [mbind option_bind] in Hrun.
  apply bind_Some in Hrun as (c1 & Hc1 & Hrun). injection Hrun as <-.
  cbn [Stats_ set_Stats Net EnvType TrnEnv TstEnv].
  set (st4 := Stats_SetFloat "Correl" (float64_of_float32 cor)
                (Stats_SetString "Closest" cnm
                   (Stats_SetFloat "AvgSSE" avgsse (Stats_SetFloat "SSE" sse (Stats_ ss))))).
  assert (Stats_String "TrialName" st4 = Stats_String "TrialName" (Stats_ ss)) as ->
    by (unfold Stats_String; simpl; rewrite lookup_insert_ne by discriminate; reflexivity).
  set (same := String.eqb (before_first "_" cnm)
                 (before_first "_" (Stats_String "TrialName" (Stats_ ss)))).
  remember (String.eqb c1 "a") as isa eqn:Hisa.
  clearbody same.
  set (st5 := if same then Stats_SetFloat "TrlErr" f64_zero st4
              else Stats_SetFloat "TrlErr" f64_one st4).
  set (st6 := if isa then Stats_SetFloat "IsA" f64_one st5
              else Stats_SetFloat "IsA" f64_zero st5).
  assert (Stats_Float "IsA" st6 = if isa then f64_one else f64_zero) as HA.
  { subst st6. destruct isa; rewrite Stats_Float_SetFloat; reflexivity. }
  assert (Stats_Float "TrlErr" st5 = if same then f64_zero else f64_one) as HE.
  { subst st5. destruct same; rewrite Stats_Float_SetFloat; reflexivity. }
  assert (forall k, k <> "TrlErr"%string -> Stats_Float k st5 = Stats_Float k st4) as H5.
  { intros k Hk. subst st5. destruct same; rewrite Stats_Float_SetFloat;
      destruct (decide _); congruence. }
  assert (forall k, k <> "IsA"%string -> Stats_Float k st6 = Stats_Float k st5) as H6.
  { intros k Hk. subst st6. destruct isa; rewrite Stats_Float_SetFloat;
      destruct (decide _); congruence. }
  assert (Strings st6 = Strings st4) as HS.
  { subst st6 st5. destruct same, isa; reflexivity. }
  rewrite HA.
  split; [ | split; [ | split; [ | split; [ | split; [ | split; [ | split ] ] ] ] ] ].
  - rewrite Stats_Float_SetFloat. simpl. rewrite H6 by discriminate. exact HE.
  - exists c1. split; [ exact Hc1 | ]. rewrite <- Hisa. split.
    + rewrite Stats_Float_SetFloat. simpl. exact HA.
    + rewrite Stats_Float_SetFloat. cbn [decide]. destruct (decide _); [ | congruence ].
      destruct isa; vm_compute; reflexivity.
  - unfold Stats_String. cbn [Strings Stats_SetFloat]. rewrite HS. subst st4. simpl.
    rewrite lookup_insert_eq. reflexivity.
  - rewrite Stats_Float_SetFloat. simpl. rewrite H6, H5 by discriminate.
    subst st4. rewrite Stats_Float_SetFloat. reflexivity.
  - exists out. rewrite Hmse. cbn [fst snd]. split; [ exact Hout | ].
    split; rewrite Stats_Float_SetFloat; simpl; rewrite H6, H5 by discriminate;
      subst st4; unfold Stats_Float; simpl;
      repeat first [ rewrite lookup_insert_eq | rewrite lookup_insert_ne by discriminate ];
      reflexivity.
  - intros k Hk. unfold Stats_String. cbn [Strings Stats_SetFloat]. rewrite HS. subst st4. simpl.
    rewrite lookup_insert_ne by congruence. reflexivity.
  - intros k Hk. simpl in Hk.
    rewrite Stats_Float_SetFloat. destruct (decide _) as [<- | _]; [ exfalso; tauto | ].
    rewrite H6 by (intros ->; tauto). rewrite H5 by (intros ->; tauto).
    subst st4. rewrite Stats_Float_SetFloat. destruct (decide _) as [<- | _]; [ exfalso; tauto | ].
    unfold Stats_Float. simpl.
    rewrite !lookup_insert_ne by (intros <-; tauto). reflexivity.
  - repeat split; reflexivity.
Qed.

(** [SetEnv] records the type and re-targets exactly one environment: for
    [TrainA], [TrainB] and [TrainAll] the Train environment gets the table
    of that name and is initialized while the Test environment is untouched;
    for the three Test types it is the other way round. Network, statistics
    and tables are untouched. *)
Lemma SetEnv_retargets_one (envType : EnvTypes) (ss : Sim) :
  let ss' := SetEnv envType ss in
  EnvType ss' = envType /\
  (if is_train_type envType
   then TrnEnv ss' = Init 0 (SetTable (table_of envType ss) (TrnEnv ss)) /\ TstEnv ss' = TstEnv ss
   else TstEnv ss' = Init 0 (SetTable (table_of envType ss) (TstEnv ss)) /\ TrnEnv ss' = TrnEnv ss) /\
  Net ss' = Net ss /\ Stats_ ss' = Stats_ ss /\
  TrainAll_ ss' = TrainAll_ ss /\ TrainA_ ss' = TrainA_ ss /\ TrainB_ ss' = TrainB_ ss.
Proof. destruct envType; simpl; repeat split; reflexivity. Qed.

End TrialStatsProofs.

End PrimingFacts.

(* ===================================================================== *)
(** * The theorems at concrete states *)
(* ===================================================================== *)

Module DemoFacts.

Import Demo.

(** The library helpers of the concrete setting register library closures
    only. *)
Lemma no_op_lib : lib_only no_op.
Proof. intros ls ls' m nf [= <-] Hin. left. exact Hin. Qed.

Lemma add_std_events_funcs (Q : looper.NamedFunc -> Prop) (lp : looper.Loop) :
  (forall nf, is_lib (looper.Func nf) = true -> Q nf) ->
  Forall Q (looper.Loop_funcs lp) -> Forall Q (looper.Loop_funcs (add_std_events lp)).
Proof.
  intros HQ. unfold looper.Loop_funcs, add_std_events. simpl.
  rewrite List.map_app, concat_app, !Forall_app.
  intros (H1 & H2 & H3 & H4). repeat split; auto.
  simpl. repeat constructor; apply HQ; reflexivity.
Qed.

Lemma LooperStdPhases_lib : lib_only LooperStdPhases.
Proof.
  intros ls ls' m nf [= <-] Hin.
  pose (Q := fun nf => In nf (looper.funcs_of m ls) \/ is_lib (looper.Func nf) = true).
  assert (Forall Q (looper.funcs_of m
            (looper.alter_Loop add_std_events Test Cycle
               (looper.alter_Loop add_std_events Train Cycle ls)))) as HQ.
  { apply funcs_of_alter_Loop; [ intros lp; apply add_std_events_funcs; unfold Q; auto | ].
    apply funcs_of_alter_Loop; [ intros lp; apply add_std_events_funcs; unfold Q; auto | ].
    apply List.Forall_forall. unfold Q. auto. }
  rewrite List.Forall_forall in HQ. apply (HQ nf Hin).
Qed.

Lemma stacks_built :
  ConfigLoops_stacks LooperStdPhases no_op no_op no_op no_op config = Some ls.
Proof. vm_compute. reflexivity. Qed.

(** Equal to a finite float32 under [==] is being that float32. *)
Lemma SFeqb_finite (x : float32) (s : bool) (m : positive) (e : Z) :
  SFeqb x (S754_finite s m e) = true -> x = S754_finite s m e.
Proof.
  unfold SFeqb. destruct x as [sx | sx | | sx mx ex]; cbn [SFcompare]; try discriminate.
  - destruct s; discriminate.
  - destruct sx; discriminate.
  - destruct sx, s; try discriminate;
      destruct (Z.compare_spec ex e) as [-> | | ]; try discriminate;
      rewrite Pos.compare_cont_spec; cbn [Pos.switch_Eq];
      destruct (Pos.compare_spec mx m) as [-> | | ]; try discriminate; reflexivity.
Qed.

(** The total logarithm of the concrete setting has the bound of the
    logarithm. *)
Lemma Log_total_bounded : @Log_bounded total_collaborators.
Proof.
  intros p Hp. cbn [Log total_collaborators]. unfold Log_total, Log_sample.
  repeat match goal with
  | |- context [SFeqb p ?c] =>
      let c' := eval vm_compute in c in
      change c with c';
      destruct (SFeqb p c') eqn:?E;
      [ apply SFeqb_finite in E; subst p; vm_compute; reflexivity | clear E ]
  end.
  cbn [NaN].
  destruct p as [s | [ | ] | | s m e]; try discriminate; reflexivity.
Qed.

End DemoFacts.

(* ===================================================================== *)
(** * The theorems applied at concrete states *)
(* ===================================================================== *)

(** C1 at an Ignore trial of the Train environment. *)
Lemma ApplyReward_only_on_recall_witness :
  Act (ByMode Train (Envs_ (Demo.state true true Ignore Demo.hid4 Demo.gpi16 0))) <> Recall1 /\
  Act (ByMode Train (Envs_ (Demo.state true true Ignore Demo.hid4 Demo.gpi16 0))) <> Recall2 /\
  ApplyReward true (Demo.state true true Ignore Demo.hid4 Demo.gpi16 0) =
  Some (tt, Demo.state true true Ignore Demo.hid4 Demo.gpi16 0).
Proof.
  split; [ discriminate | ]. split; [ discriminate | ].
  apply (@ApplyReward_only_on_recall Demo.collaborators true); discriminate.
Defined.

(** C8 at a state with modulation off and the Shannon measure selected. *)
Lemma CalcEntropy_unmodulated_witness :
  ModLearnRate (Demo.state false false Recall1 Demo.hid4 Demo.gpi16 0) = false /\
  CalcEntropy (Demo.state false false Recall1 Demo.hid4 Demo.gpi16 0) =
  Some (one, Demo.state false false Recall1 Demo.hid4 Demo.gpi16 0).
Proof.
  split; [ reflexivity | ].
  apply (@CalcEntropy_unmodulated Demo.collaborators). reflexivity.
Defined.

(** C6 at four hidden units of activations 0.9, 0.8, 0.7 and 0.6. *)
Lemma CalcEntropy_population_sum_witness :
  ModLearnRate (Demo.state true true Recall1 Demo.hid4 Demo.gpi16 0) = true /\
  EntropyMeasureType (Demo.state true true Recall1 Demo.hid4 Demo.gpi16 0) = true /\
  LayerByName "Hidden" (Net (Demo.state true true Recall1 Demo.hid4 Demo.gpi16 0)) =
  Some (Demo.hidden_layer Demo.hid4) /\
  CalcEntropy (Demo.state true true Recall1 Demo.hid4 Demo.gpi16 0) =
  Some (spec_population_sum (AvgM (Demo.hidden_layer Demo.hid4)),
        @with_effects Demo.collaborators [EvUnitValues "Hidden" "AvgM";
                      EvPrintEnt (spec_population_sum (AvgM (Demo.hidden_layer Demo.hid4)))]
          (Demo.state true true Recall1 Demo.hid4 Demo.gpi16 0)).
Proof.
  split; [ reflexivity | ]. split; [ reflexivity | ]. split; [ reflexivity | ].
  apply (@CalcEntropy_population_sum Demo.collaborators); reflexivity.
Defined.

(** C7 (as the code has it) at sixteen equal GPiThal units. *)
Lemma CalcEntropy_shannon_witness :
  ModLearnRate (Demo.state true false Recall1 Demo.hid4 Demo.gpi16 0) = true /\
  EntropyMeasureType (Demo.state true false Recall1 Demo.hid4 Demo.gpi16 0) = false /\
  LayerByName "GPiThal" (Net (Demo.state true false Recall1 Demo.hid4 Demo.gpi16 0)) =
  Some (Demo.gpi_layer Demo.gpi16) /\
  CalcEntropy (Demo.state true false Recall1 Demo.hid4 Demo.gpi16 0) =
  Some (@shannon_over_2_77 Demo.collaborators (AvgM (Demo.gpi_layer Demo.gpi16)),
        @with_effects Demo.collaborators [EvUnitValues "GPiThal" "AvgM";
                      EvPrintEnt (@shannon_over_2_77 Demo.collaborators (AvgM (Demo.gpi_layer Demo.gpi16)))]
          (Demo.state true false Recall1 Demo.hid4 Demo.gpi16 0)).
Proof.
  split; [ reflexivity | ]. split; [ reflexivity | ]. split; [ reflexivity | ].
  apply (@CalcEntropy_shannon Demo.collaborators); reflexivity.
Defined.

(** C2 (as the code has it) at four finite hidden activations under the
    population-sum measure, and at sixteen equal GPiThal activations under
    the Shannon measure with a logarithm that has the bound. *)
Lemma CalcEntropy_range_unless_nan_witness :
  (LayerByName "Hidden" (Net (Demo.state true true Recall1 Demo.hid4 Demo.gpi16 0)) =
   Some (Demo.hidden_layer Demo.hid4) /\
   exists r ss',
     CalcEntropy (Demo.state true true Recall1 Demo.hid4 Demo.gpi16 0) = Some (r, ss') /\
     in_range c0_25 c4 r = negb (is_nan r) /\
     (is_nan r = true ->
      ModLearnRate (Demo.state true true Recall1 Demo.hid4 Demo.gpi16 0) = true /\
      is_nan (@raw_entropy Demo.collaborators true (AvgM (Demo.hidden_layer Demo.hid4))) = true) /\
     (true = true ->
      Forall (fun v => is_finite v = true) (AvgM (Demo.hidden_layer Demo.hid4)) ->
      in_range c0_25 c4 r = true) /\
     (Forall (fun v => v = zero) (AvgM (Demo.hidden_layer Demo.hid4)) ->
      in_range c0_25 c4 r = true)) /\
  (LayerByName "GPiThal" (Net Demo.shannon_state) = Some (Demo.gpi_layer Demo.gpi16) /\
   @Log_bounded Demo.total_collaborators /\
   EntropyMeasureType Demo.shannon_state = false /\
   exists r ss',
     CalcEntropy Demo.shannon_state = Some (r, ss') /\ in_range c0_25 c4 r = true).
Proof.
  split.
  - split; [ reflexivity | ].
    destruct (@CalcEntropy_range_unless_nan Demo.collaborators
                (Demo.state true true Recall1 Demo.hid4 Demo.gpi16 0)
                (Demo.hidden_layer Demo.hid4) eq_refl)
      as (r & ss' & E & Hr & Hn & Hfin & Hz & _).
    exists r, ss'. exact (conj E (conj Hr (conj Hn (conj Hfin Hz)))).
  - split; [ reflexivity | ]. split; [ exact DemoFacts.Log_total_bounded | ].
    split; [ reflexivity | ].
    destruct (@CalcEntropy_range_unless_nan Demo.total_collaborators
                Demo.shannon_state (Demo.gpi_layer Demo.gpi16) eq_refl)
      as (r & ss' & E & _ & _ & _ & _ & HB).
    exists r, ss'. split; [ exact E | ].
    apply HB; [ exact DemoFacts.Log_total_bounded | reflexivity ].
Defined.

(** C3 at Train epoch 1, with a runner that leaves the current mode at
    [Test]. *)
Lemma TestAll_restores_mode_witness :
  CurrentMode (Demo.state true true Store1 Demo.hid4 Demo.gpi16 1) = Some Train /\
  Demo.ResetAndRun Test
    (set_Envs
       (set_ByMode Test
          (Env_Init 0 (ByMode Test (Envs_ (Demo.state true true Store1 Demo.hid4 Demo.gpi16 1))))
          (Envs_ (Demo.state true true Store1 Demo.hid4 Demo.gpi16 1)))
       (Demo.state true true Store1 Demo.hid4 Demo.gpi16 1))
  = Some (tt, Demo.after_Test_run (Demo.state true true Store1 Demo.hid4 Demo.gpi16 1)) /\
  CurrentMode (Demo.after_Test_run (Demo.state true true Store1 Demo.hid4 Demo.gpi16 1)) =
  Some Test /\
  exists ss',
    TestAll Demo.ResetAndRun (Demo.state true true Store1 Demo.hid4 Demo.gpi16 1) =
    Some (tt, ss') /\
    CurrentMode ss' = CurrentMode (Demo.state true true Store1 Demo.hid4 Demo.gpi16 1).
Proof.
  split; [ reflexivity | ]. split; [ reflexivity | ]. split; [ reflexivity | ].
  apply (@TestAll_restores_mode Demo.collaborators Demo.ResetAndRun
           (Demo.state true true Store1 Demo.hid4 Demo.gpi16 1)
           (Demo.after_Test_run (Demo.state true true Store1 Demo.hid4 Demo.gpi16 1))
           (looper.set_Mode Test (Demo.ls_at_epoch 1)));
    reflexivity.
Defined.

(** C5 at Train epoch counter 1 with [TestInterval = 2]: the Test pass is
    due. *)
Lemma TestAtInterval_gate_witness :
  Loops (Demo.state true true Store1 Demo.hid4 Demo.gpi16 1) = Some (Demo.ls_at_epoch 1) /\
  looper.LoopOf Train Epoch (Demo.ls_at_epoch 1) = Some (Demo.train_epoch 1) /\
  is_int (looper.Cur (looper.Counter_ (Demo.train_epoch 1))) /\
  (0 < 2 /\ (1 + 1) mod 2 = 0 ->
   TestAtInterval Demo.ResetAndRun (Demo.state true true Store1 Demo.hid4 Demo.gpi16 1) =
   TestAll Demo.ResetAndRun (Demo.state true true Store1 Demo.hid4 Demo.gpi16 1)).
Proof.
  assert (is_int (looper.Cur (looper.Counter_ (Demo.train_epoch 1)))) as Hint.
  { change (is_int 1). unfold is_int, int_min, int_max. lia. }
  split; [ reflexivity | ]. split; [ reflexivity | ]. split; [ exact Hint | ].
  exact (proj1 (@TestAtInterval_gate Demo.collaborators Demo.ResetAndRun
                  (Demo.state true true Store1 Demo.hid4 Demo.gpi16 1)
                  (Demo.ls_at_epoch 1) (Demo.train_epoch 1) eq_refl eq_refl Hint)).
Defined.

(** C9 on the stacks built with the phase events of [LooperStdPhases]. *)
Lemma ApplyReward_not_in_Test_witness :
  lib_only Demo.LooperStdPhases /\
  lib_only Demo.no_op /\
  ConfigLoops_stacks Demo.LooperStdPhases Demo.no_op Demo.no_op Demo.no_op Demo.no_op
    Demo.config = Some Demo.ls /\
  (forall nf, In nf (looper.funcs_of Test Demo.ls) -> looper.Func nf <> FnApplyReward) /\
  (forall done, ~ In FnApplyReward (Run_fired done Test Demo.ls)).
Proof.
  split; [ exact DemoFacts.LooperStdPhases_lib | ].
  split; [ exact DemoFacts.no_op_lib | ].
  split; [ exact DemoFacts.stacks_built | ].
  pose proof (ApplyReward_not_in_Test
                Demo.LooperStdPhases Demo.no_op Demo.no_op Demo.no_op Demo.no_op
                DemoFacts.LooperStdPhases_lib DemoFacts.no_op_lib DemoFacts.no_op_lib
                DemoFacts.no_op_lib DemoFacts.no_op_lib
                Demo.config Demo.ls DemoFacts.stacks_built) as (H1 & H2 & _).
  split; [ exact H1 | exact H2 ].
Defined.

(** A NaN among the hidden activations, at the state of [Demo.with_nan]. *)
Lemma CalcEntropy_population_sum_nan_witness :
  ModLearnRate (Demo.state true true Recall1 Demo.with_nan Demo.gpi16 0) = true /\
  EntropyMeasureType (Demo.state true true Recall1 Demo.with_nan Demo.gpi16 0) = true /\
  LayerByName "Hidden" (Net (Demo.state true true Recall1 Demo.with_nan Demo.gpi16 0)) =
  Some (Demo.hidden_layer Demo.with_nan) /\
  In NaN (AvgM (Demo.hidden_layer Demo.with_nan)) /\
  CalcEntropy (Demo.state true true Recall1 Demo.with_nan Demo.gpi16 0) =
  Some (NaN, @with_effects Demo.collaborators [EvUnitValues "Hidden" "AvgM"; EvPrintEnt NaN]
               (Demo.state true true Recall1 Demo.with_nan Demo.gpi16 0)).
Proof.
  split; [ reflexivity | ]. split; [ reflexivity | ]. split; [ reflexivity | ].
  split; [ right; left; reflexivity | ].
  apply (@CalcEntropy_population_sum_nan Demo.collaborators
           (Demo.state true true Recall1 Demo.with_nan Demo.gpi16 0)
           (Demo.hidden_layer Demo.with_nan));
    [ reflexivity | reflexivity | reflexivity | right; left; reflexivity ].
Defined.

(** The Shannon measure at a GPiThal layer with a NaN activation. *)
Lemma CalcEntropy_shannon_no_total_witness :
  ModLearnRate (Demo.state true false Recall1 Demo.hid4 Demo.with_nan 0) = true /\
  EntropyMeasureType (Demo.state true false Recall1 Demo.hid4 Demo.with_nan 0) = false /\
  LayerByName "GPiThal" (Net (Demo.state true false Recall1 Demo.hid4 Demo.with_nan 0)) =
  Some (Demo.gpi_layer Demo.with_nan) /\
  (In NaN (AvgM (Demo.gpi_layer Demo.with_nan)) \/
   gtb (@TotalActivation (AvgM (Demo.gpi_layer Demo.with_nan))) zero = false) /\
  CalcEntropy (Demo.state true false Recall1 Demo.hid4 Demo.with_nan 0) =
  Some (c0_25, @with_effects Demo.collaborators [EvUnitValues "GPiThal" "AvgM"; EvPrintEnt c0_25]
                 (Demo.state true false Recall1 Demo.hid4 Demo.with_nan 0)).
Proof.
  split; [ reflexivity | ]. split; [ reflexivity | ]. split; [ reflexivity | ].
  split; [ left; right; left; reflexivity | ].
  apply (@CalcEntropy_shannon_no_total Demo.collaborators
           (Demo.state true false Recall1 Demo.hid4 Demo.with_nan 0)
           (Demo.gpi_layer Demo.with_nan));
    [ reflexivity | reflexivity | reflexivity | left; right; left; reflexivity ].
Defined.

(** Forty-nine units at 0.01 are all under 0.02. *)
Lemma quiet49_under_threshold : Forall (fun v => ltb v c0_02 = true) Demo.quiet49.
Proof.
  apply List.Forall_forall. intros v Hin. unfold Demo.quiet49 in Hin.
  apply repeat_spec in Hin. subst v. vm_compute. reflexivity.
Defined.

(** The population sum at forty-nine hidden units of activation 0.01. *)
Lemma CalcEntropy_population_sum_quiet_witness :
  ModLearnRate (Demo.state true true Recall1 Demo.quiet49 Demo.gpi16 0) = true /\
  EntropyMeasureType (Demo.state true true Recall1 Demo.quiet49 Demo.gpi16 0) = true /\
  LayerByName "Hidden" (Net (Demo.state true true Recall1 Demo.quiet49 Demo.gpi16 0)) =
  Some (Demo.hidden_layer Demo.quiet49) /\
  Forall (fun v => ltb v c0_02 = true) (AvgM (Demo.hidden_layer Demo.quiet49)) /\
  CalcEntropy (Demo.state true true Recall1 Demo.quiet49 Demo.gpi16 0) =
  Some (c4, @with_effects Demo.collaborators [EvUnitValues "Hidden" "AvgM"; EvPrintEnt c4]
              (Demo.state true true Recall1 Demo.quiet49 Demo.gpi16 0)).
Proof.
  split; [ reflexivity | ]. split; [ reflexivity | ]. split; [ reflexivity | ].
  split; [ exact quiet49_under_threshold | ].
  apply (@CalcEntropy_population_sum_quiet Demo.collaborators
           (Demo.state true true Recall1 Demo.quiet49 Demo.gpi16 0)
           (Demo.hidden_layer Demo.quiet49));
    [ reflexivity | reflexivity | reflexivity | exact quiet49_under_threshold ].
Defined.

(** What [CalcEntropy] leaves untouched, at a recall trial with modulation on. *)
Lemma CalcEntropy_only_reads_witness :
  CalcEntropy Demo.recall =
  Some (EntropyHidden Demo.hid4,
        @with_effects Demo.collaborators
          [EvUnitValues "Hidden" "AvgM"; EvPrintEnt (EntropyHidden Demo.hid4)] Demo.recall) /\
  Net (@with_effects Demo.collaborators
         [EvUnitValues "Hidden" "AvgM"; EvPrintEnt (EntropyHidden Demo.hid4)] Demo.recall) =
  Net Demo.recall /\
  Trace (@with_effects Demo.collaborators
           [EvUnitValues "Hidden" "AvgM"; EvPrintEnt (EntropyHidden Demo.hid4)] Demo.recall) =
  Trace Demo.recall ++ [EvUnitValues "Hidden" "AvgM"; EvPrintEnt (EntropyHidden Demo.hid4)].
Proof.
  assert (CalcEntropy Demo.recall =
          Some (EntropyHidden Demo.hid4,
                @with_effects Demo.collaborators
                  [EvUnitValues "Hidden" "AvgM"; EvPrintEnt (EntropyHidden Demo.hid4)]
                  Demo.recall)) as E
    by exact (@CalcEntropy_modulated Demo.collaborators Demo.recall
                (Demo.hidden_layer Demo.hid4) eq_refl eq_refl).
  split; [ exact E | ].
  destruct (@CalcEntropy_only_reads Demo.collaborators Demo.recall _ _ E)
    as (Hn & _ & _ & _ & _ & _ & Ht).
  split; [ exact Hn | exact Ht ].
Defined.

(** The recall state has the layers [ApplyReward] uses, and its entropy
    multiplier is the population sum of the four hidden units. *)
Lemma recall_layers :
  Forall (fun nm => In nm (layer_names (Net Demo.recall))) ("Rew"%string :: modulated_layers).
Proof. repeat constructor; vm_compute; tauto. Defined.

Lemma recall_entropy :
  CalcEntropy Demo.recall =
  Some (EntropyHidden Demo.hid4,
        @with_effects Demo.collaborators
          [EvUnitValues "Hidden" "AvgM"; EvPrintEnt (EntropyHidden Demo.hid4)] Demo.recall).
Proof.
  exact (@CalcEntropy_modulated Demo.collaborators Demo.recall
           (Demo.hidden_layer Demo.hid4) eq_refl eq_refl).
Defined.

(** The requests of [ApplyReward] at a recall trial of the Train
    environment. *)
Lemma ApplyReward_recall_requests_witness :
  is_recall (Act (ByMode Train (Envs_ Demo.recall))) /\
  LayerByName "Output" (Net Demo.recall) = Some Demo.output_layer /\
  Env_State "Rew" (Env_SetReward (MaxIndex Demo.output_layer) (ByMode Train (Envs_ Demo.recall)))
  = Some [one] /\
  exists ss',
    ApplyReward true Demo.recall = Some (tt, ss') /\
    Trace ss' =
    [EvApplyExt1DTsr "Rew" [one];
     EvUnitValues "Hidden" "AvgM"; EvPrintEnt (EntropyHidden Demo.hid4);
     EvLrateMult "MatrixGo" (EntropyHidden Demo.hid4);
     EvLrateMult "MatrixNoGo" (EntropyHidden Demo.hid4);
     EvLrateMult "RWPred" (EntropyHidden Demo.hid4)] /\
    ByMode Test (Envs_ ss') = ByMode Test (Envs_ Demo.recall).
Proof.
  split; [ left; reflexivity | ]. split; [ reflexivity | ]. split; [ reflexivity | ].
  destruct (@ApplyReward_recall_requests Demo.collaborators true Demo.recall
              Demo.output_layer [one] _ _
              (or_introl eq_refl) eq_refl eq_refl recall_layers recall_entropy)
    as (ss' & Hrun & Htr & _ & Hother & _).
  exists ss'. split; [ exact Hrun | ]. split; [ exact Htr | ].
  apply Hother. discriminate.
Defined.

(** The learning rate recorded for [MatrixGo], and the reward on [Rew],
    after [ApplyReward] at a recall trial. *)
Lemma ApplyReward_recall_lrates_witness :
  is_recall (Act (ByMode Train (Envs_ Demo.recall))) /\
  LayerByName "Output" (Net Demo.recall) = Some Demo.output_layer /\
  Env_State "Rew" (Env_SetReward (MaxIndex Demo.output_layer) (ByMode Train (Envs_ Demo.recall)))
  = Some [one] /\
  exists ss',
    ApplyReward true Demo.recall = Some (tt, ss') /\
    Floats32 (Stats_ ss') !! "MatrixGoLRate"%string =
    Some (mul (of_ratio 1 100) (EntropyHidden Demo.hid4)) /\
    option_map Ext (LayerByName "Rew" (Net ss')) = Some (Some [one]).
Proof.
  split; [ left; reflexivity | ]. split; [ reflexivity | ]. split; [ reflexivity | ].
  destruct (@ApplyReward_recall_lrates Demo.collaborators true Demo.recall
              Demo.output_layer [one] _ _
              (or_introl eq_refl) eq_refl eq_refl recall_layers recall_entropy)
    as (ss' & Hrun & Hl & Hrew & _).
  exists ss'. split; [ exact Hrun | ]. split.
  - exact (proj2 (Hl "MatrixGo"%string (Demo.mk_layer "MatrixGo" OtherLayer [zero] None)
                    (or_introl eq_refl) eq_refl)).
  - rewrite Hrew. reflexivity.
Defined.

(** [ApplyReward] returns at the recall state, which has every layer. *)
Lemma ApplyReward_recall_returns_iff_witness :
  is_recall (Act (ByMode Train (Envs_ Demo.recall))) /\
  ApplyReward true Demo.recall <> None.
Proof.
  split; [ left; reflexivity | ].
  apply (proj2 (@ApplyReward_recall_returns_iff Demo.collaborators true Demo.recall
                  (or_introl eq_refl))).
  split; [ exists Demo.output_layer, [one]; split; reflexivity | ].
  split; [ exact recall_layers | ].
  rewrite recall_entropy. discriminate.
Defined.

(** [RunDone] with one run configured: the first run is the last. *)
Lemma RunDone_counts_last_run_witness :
  int_min < NRuns (Cfg Demo.recall) <= int_max /\
  exists ss',
    RunDone Demo.recall = Some (tt, ss') /\
    Stats_Int "Expt" (Stats_ ss') = 1.
Proof.
  assert (int_min < NRuns (Cfg Demo.recall) <= int_max) as Hn
    by (unfold int_min, int_max; simpl; lia).
  split; [ exact Hn | ].
  destruct (@RunDone_counts_last_run Demo.collaborators Demo.recall Hn)
    as (ss' & Hrun & _ & Hlast & _).
  exists ss'. split; [ exact Hrun | ].
  destruct Hlast as (_ & He & _); [ vm_compute; discriminate | ].
  rewrite He. reflexivity.
Defined.

(** The hooks on the stacks built with the phase events of
    [LooperStdPhases]. *)
Lemma hooks_fit_their_stack_witness :
  lib_only Demo.LooperStdPhases /\
  lib_only Demo.no_op /\
  ConfigLoops_stacks Demo.LooperStdPhases Demo.no_op Demo.no_op Demo.no_op Demo.no_op
    Demo.config = Some Demo.ls /\
  (forall nf, In nf (looper.funcs_of Test Demo.ls) -> train_hook (looper.Func nf) = false) /\
  (forall done c, In c (Run_fired done Test Demo.ls) -> train_hook c = false).
Proof.
  split; [ exact DemoFacts.LooperStdPhases_lib | ].
  split; [ exact DemoFacts.no_op_lib | ].
  split; [ exact DemoFacts.stacks_built | ].
  pose proof (hooks_fit_their_stack
                Demo.LooperStdPhases Demo.no_op Demo.no_op Demo.no_op Demo.no_op
                DemoFacts.LooperStdPhases_lib DemoFacts.no_op_lib DemoFacts.no_op_lib
                DemoFacts.no_op_lib DemoFacts.no_op_lib
                Demo.config Demo.ls DemoFacts.stacks_built) as (H1 & H2 & _).
  split; [ exact H1 | exact H2 ].
Defined.

(** [ConfigLoops] with a [LooperStdPhases] that creates no event. *)
Lemma ConfigLoops_needs_phase_event_witness :
  Demo.no_op (initial_stacks Demo.config) = Some (initial_stacks Demo.config) /\
  looper.LoopOf Train Cycle (initial_stacks Demo.config) ≫=
    looper.EventByName "MinusPhase:End" = None /\
  ConfigLoops_stacks Demo.no_op Demo.no_op Demo.no_op Demo.no_op Demo.no_op Demo.config = None.
Proof.
  split; [ reflexivity | ]. split; [ reflexivity | ].
  exact (proj1 (@ConfigLoops_needs_phase_event
                  Demo.no_op Demo.no_op Demo.no_op Demo.no_op Demo.no_op
                  Demo.collaborators Demo.config
                  (initial_stacks Demo.config) (initial_stacks Demo.config)
                  eq_refl eq_refl eq_refl)).
Defined.

(** [ApplyParams] at Train epoch 1 with a configuration changed since the
    loops were built. *)
Lemma simp_synced_run :
  ApplyParams Demo.Params_SetAll (Demo.simp Train 1) = Some (tt, Demo.simp_synced Train 1).
Proof. reflexivity. Defined.

(** The maxima after [ApplyParams]: 5 runs and 50 epochs from the new
    configuration, the Trial loop still at the 4 it was built with. *)
Lemma ApplyParams_syncs_loops_witness :
  Loops (Sim_ (Demo.simp Train 1)) = Some (Demo.ls_at_epoch 1) /\
  ApplyParams Demo.Params_SetAll (Demo.simp Train 1) = Some (tt, Demo.simp_synced Train 1) /\
  exists ls',
    Loops (Sim_ (Demo.simp_synced Train 1)) = Some ls' /\
    option_map (fun lp => looper.Max (looper.Counter_ lp)) (looper.LoopOf Train Run ls') = Some 5 /\
    option_map (fun lp => looper.Max (looper.Counter_ lp)) (looper.LoopOf Train Epoch ls') = Some 50 /\
    option_map (fun lp => looper.Max (looper.Counter_ lp)) (looper.LoopOf Train Trial ls') = Some 4.
Proof.
  split; [ reflexivity | ]. split; [ exact simp_synced_run | ].
  destruct (@ApplyParams_syncs_loops Demo.collaborators Demo.Params_SetAll
              (Demo.simp Train 1) (Demo.simp_synced Train 1) (Demo.ls_at_epoch 1)
              eq_refl simp_synced_run) as (ls' & Hls & Hloops & _).
  exists ls'. split; [ exact Hls | ].
  rewrite !Hloops. repeat split; vm_compute; reflexivity.
Defined.

(** The gains after [ApplyParams]: the simulation's on [MatrixGo], the
    sheets' on [Hidden]. *)
Lemma ApplyParams_sets_gains_witness :
  ApplyParams Demo.Params_SetAll (Demo.simp Train 1) = Some (tt, Demo.simp_synced Train 1) /\
  Matrix (Demo.simp_synced Train 1) "MatrixGo" =
  {| BurstGain := of_ratio 1 2; DipGain := of_Z 2 |} /\
  Matrix (Demo.simp_synced Train 1) "Hidden" = Demo.gains0.
Proof.
  split; [ exact simp_synced_run | ].
  destruct (@ApplyParams_sets_gains Demo.collaborators Demo.Params_SetAll
              (Demo.simp Train 1) (Demo.simp_synced Train 1) simp_synced_run)
    as (Hgo & _ & Hother & _).
  split; [ exact Hgo | ].
  rewrite (Hother "Hidden"%string) by discriminate. reflexivity.
Defined.

(** [TrialStats] of the priming simulation at closest pattern [dog_a] and
    trial [dog_b]. *)
Lemma scored_run : Priming.TrialStats PrimingDemo.sim = Some PrimingDemo.scored.
Proof. vm_compute. reflexivity. Defined.

(** The scores there: no error (both names start with [dog]), the closest
    pattern is an [a] pattern. *)
Lemma TrialStats_scores_witness :
  Priming.TrialStats PrimingDemo.sim = Some PrimingDemo.scored /\
  Priming.Stats_Float "TrlErr" (Priming.Stats_ PrimingDemo.scored) = Priming.f64_zero /\
  Priming.Stats_Float "IsA" (Priming.Stats_ PrimingDemo.scored) = Priming.f64_one /\
  Priming.Stats_Float "IsB" (Priming.Stats_ PrimingDemo.scored) = Priming.f64_zero.
Proof.
  split; [ exact scored_run | ].
  destruct (@PrimingFacts.TrialStats_scores PrimingDemo.collaborators
              PrimingDemo.sim PrimingDemo.scored scored_run)
    as (Herr & (c1 & Hc1 & HA & HB) & _).
  split; [ exact Herr | ].
  assert (c1 = "a"%string) as -> by (vm_compute in Hc1; congruence).
  split; [ exact HA | exact HB ].
Defined.

(* ===================================================================== *)
(** * Where the code departs from the specification's sentences *)
(* ===================================================================== *)

(** C2 as stated fails: with a NaN among the hidden activations the
    population-sum multiplier is NaN, which is not in [0.25, 4.0]. *)
Lemma CalcEntropy_nan_activation :
  option_map fst (CalcEntropy (Demo.state true true Recall1 Demo.with_nan Demo.gpi16 0)) =
  Some NaN /\
  in_range c0_25 c4 NaN = false.
Proof. split; vm_compute; reflexivity. Qed.

(** C7 as stated fails: the Shannon multiplier is not the entropy over the
    maximum entropy for the unit count. For sixteen equal units the code returns 1.00093 where
    the entropy over [log 16] is 1.0000001, and for two equal units it
    returns 0.25023 where the entropy over [log 2] is 1. *)
Lemma shannon_not_over_max_entropy :
  option_map fst (CalcEntropy (Demo.state true false Recall1 Demo.hid4 Demo.gpi16 0)) =
  Some (S754_finite false 8396449 (-23)) /\
  @spec_shannon Demo.collaborators Demo.gpi16 = S754_finite false 8388609 (-23) /\
  option_map fst (CalcEntropy (Demo.state true false Recall1 Demo.hid4 Demo.gpi2 0)) =
  Some (S754_finite false 8396448 (-25)) /\
  @spec_shannon Demo.collaborators Demo.gpi2 = one.
Proof. repeat split; vm_compute; reflexivity. Qed.

(** C10 as stated fails: a reward pattern applied before [ApplyInputs] is
    not left untouched, it is gone after it. *)
Lemma ApplyInputs_clears_reward :
  option_map Ext (LayerByName "Rew" (Net Demo.rewarded)) = Some (Some [one]) /\
  option_map (fun r => option_map Ext (LayerByName "Rew" (Net (snd r))))
    (ApplyInputs Demo.rewarded) = Some (Some None).
Proof. split; vm_compute; reflexivity. Qed.

(* ===================================================================== *)
(** * More evaluations *)
(* ===================================================================== *)

(** The population sum of four units 0.9, 0.8, 0.7, 0.6 is 3.0: the
    multiplier is 0.3. Forty-nine units at 1.0 give 4.0 (clamped), forty-nine
    at 0.01 give 4.0 (largest activation under 0.02). *)
Example population_sum_values :
  spec_population_sum Demo.hid4 = S754_finite false 10066330 (-25) /\
  spec_population_sum (repeat one 49) = c4 /\
  spec_population_sum (repeat (of_ratio 1 100) 49) = c4 /\
  spec_population_sum (repeat (of_ratio 1 2) 2) = c0_25.
Proof. repeat split; vm_compute; reflexivity. Qed.

(** On a recall trial [ApplyReward] applies the reward to [Rew], computes the
    entropy and multiplies the three learning rates. *)
Example ApplyReward_on_recall :
  option_map (fun r => Trace (snd r))
    (ApplyReward true (Demo.state true true Recall1 Demo.hid4 Demo.gpi16 0)) =
  Some [EvApplyExt1DTsr "Rew" [one];
        EvUnitValues "Hidden" "AvgM";
        EvPrintEnt (S754_finite false 10066330 (-25));
        EvLrateMult "MatrixGo" (S754_finite false 10066330 (-25));
        EvLrateMult "MatrixNoGo" (S754_finite false 10066330 (-25));
        EvLrateMult "RWPred" (S754_finite false 10066330 (-25))].
Proof. vm_compute. reflexivity. Qed.

(** With [TestInterval = 2], the hook runs the Test pass at epoch counter 1
    (the Test environment is re-initialized) and not at epoch counter 0. *)
Example TestAtInterval_epochs :
  option_map (fun r => Act (TestEnv (Envs_ (snd r))))
    (TestAtInterval Demo.ResetAndRun (Demo.state true true Recall1 Demo.hid4 Demo.gpi16 1)) =
  Some Store1 /\
  TestAtInterval Demo.ResetAndRun (Demo.state true true Recall1 Demo.hid4 Demo.gpi16 0) =
  Some (tt, Demo.state true true Recall1 Demo.hid4 Demo.gpi16 0).
Proof. split; [ vm_compute; reflexivity | reflexivity ]. Qed.

(** A Train run does fire the reward, in the [MinusPhase:End] event of the
    Cycle loop right before the library's function of that name. *)
Example Train_run_fires_reward :
  existsb (fun c => bool_decide (c = FnApplyReward))
    (Run_fired (fun _ _ => false) Train Demo.ls) = true /\
  option_map (fun ev => List.map looper.Name (looper.OnEvent ev))
    (looper.LoopOf Train Cycle Demo.ls ≫= looper.EventByName "MinusPhase:End") =
  Some ["ApplyReward"%string; "MinusPhase:End"%string] /\
  option_map (fun ev => List.map looper.Name (looper.OnEvent ev))
    (looper.LoopOf Test Cycle Demo.ls ≫= looper.EventByName "MinusPhase:End") =
  Some ["MinusPhase:End"%string].
Proof. repeat split; vm_compute; reflexivity. Qed.

(** Called while the stacks' mode is [Test], [TestAll] leaves it at [Train]. *)
Example TestAll_from_Test_mode :
  CurrentMode (set_Loops (Some (looper.set_Mode Test (Demo.ls_at_epoch 1))) Demo.recall) =
  Some Test /\
  option_map (fun r => CurrentMode (snd r))
    (TestAll Demo.ResetAndRun
       (set_Loops (Some (looper.set_Mode Test (Demo.ls_at_epoch 1))) Demo.recall)) =
  Some (Some Train).
Proof. split; reflexivity. Qed.

(** In Test mode at Train epoch 2, [StatCounters] reports epoch 2 (the Test
    stack's own Epoch counter is 0), cycle 7 and trial 0. *)
Example StatCounters_in_Test_mode :
  option_map (fun r => (Stats_Int "Epoch" (Stats_ (Sim_ (snd r))),
                        Stats_Int "Cycle" (Stats_ (Sim_ (snd r))),
                        Stats_Int "Trial" (Stats_ (Sim_ (snd r)))))
    (StatCounters Demo.CountersToStats (Demo.simp Test 2)) = Some (2, 7, 0).
Proof. vm_compute. reflexivity. Qed.

(** After [ApplyInputs] the input layers hold the environment's patterns,
    and neither [Rew] nor [Hidden] holds any. *)
Example ApplyInputs_patterns :
  option_map (fun r => List.map (fun nm => option_map Ext (LayerByName nm (Net (snd r))))
                         ["Input"; "CtrlInput"; "Output"; "Rew"; "Hidden"]%string)
    (ApplyInputs Demo.rewarded) =
  Some [Some (Some [one; zero; zero; zero]); Some (Some [one; zero; zero; zero; zero]);
        Some (Some [one; zero; zero; zero]); Some None; Some None].
Proof. vm_compute. reflexivity. Qed.

(** [Split] on some names. *)
Example Split_values :
  Priming.Split "_" "dog_a" = ["dog"; "a"]%string /\
  Priming.Split "_" "dog" = ["dog"]%string /\
  Priming.Split "_" "" = [""]%string /\
  Priming.Split "_" "a__b_" = ["a"; ""; "b"; ""]%string.
Proof. repeat split; reflexivity. Qed.

(** With a closest pattern named [dog], without an underscore, [TrialStats]
    of the priming simulation panics; [SetEnv TestB] shows the B patterns in
    the Test environment and leaves the Train environment alone. *)
Example priming_values :
  Priming.TrialStats (PrimingDemo.sim_for "dog") = None /\
  Priming.TstEnv (Priming.SetEnv Priming.TestB PrimingDemo.sim) =
  PrimingDemo.fixed_table "dog_a" "TrainB" 0 /\
  Priming.TrnEnv (Priming.SetEnv Priming.TestB PrimingDemo.sim) =
  Priming.TrnEnv PrimingDemo.sim.
Proof. repeat split; reflexivity. Qed.

(** The all-equal-positive vector of sixteen ones under both measures: 1.6
    and 1.00093, both in [0.25, 4.0]. *)
Example equal_positive_multipliers :
  EntropyHidden Demo.gpi16 = of_ratio 16 10 /\
  in_range c0_25 c4 (EntropyHidden Demo.gpi16) = true /\
  @EntropyGPiThal Demo.total_collaborators Demo.gpi16 = S754_finite false 8396449 (-23) /\
  in_range c0_25 c4 (@EntropyGPiThal Demo.total_collaborators Demo.gpi16) = true.
Proof. repeat split; vm_compute; reflexivity. Qed.
